(** * YoutubeDownloader: the download pipeline of the two front-ends

    A shallow embedding of [youtube_downloader_ytdlp.py] (the command-line
    front-end) and [youtube_downloader_ytdlp_gui.py] (the desktop front-end),
    and the properties of the orchestration pipeline they implement.

    Conventions.
    - A Python [str] is a [string]; its characters are modelled as [ascii],
      that is, code points below 256.
    - Everything outside the two source files (the executable search path,
      the file system, the two engines, [json.loads], [float]) is an oracle,
      a field of the record [World]; theorems quantify over every world.
    - A run is the list of its observable events, in order: the signals it
      emits (or the lines it prints), and the processes it spawns.
    - A Python [float] is a binary64 number of [SpecFloat]; the arithmetic
      of the progress scaling is the IEEE arithmetic of that library.
    - The window of the desktop front-end is the state its slots read or
      write; the signals of a worker reach it in the order of their
      emission, and what a slot does to the progress bar or shows in a modal
      box is recorded as an effect.

    The model of the source comes first, then the vocabulary in which the
    properties are stated, then the properties. *)

From Stdlib Require Import String Ascii List ZArith Bool Lia Sorted.
From Stdlib Require Import Floats.SpecFloat.
Import ListNotations.

Local Open Scope string_scope.
Local Open Scope Z_scope.

(** ** Python strings *)

Module PyStr.

(** The line feed and the double quote, which have no literal of their own. *)
Definition LF : ascii := "010"%char.
Definition DQUOTE : ascii := "034"%char.
Definition nl : string := String LF EmptyString.

Definition chars (s : string) : list ascii := list_ascii_of_string s.

(** [bool(s)]: a string is true when it is not empty. *)
Definition nonempty (s : string) : bool :=
  match s with EmptyString => false | String _ _ => true end.

(** [c in s] for a one-character [c]. *)
Definition contains (c : ascii) (s : string) : bool :=
  existsb (Ascii.eqb c) (chars s).

(** [sep.join(l)] *)
Definition join (sep : string) (l : list string) : string := String.concat sep l.

(** [str.isspace] on one character, for code points below 256. *)
Definition isspace (c : ascii) : bool :=
  let n := nat_of_ascii c in
  ((9 <=? n) && (n <=? 13) || (28 <=? n) && (n <=? 32)
   || (n =? 133) || (n =? 160))%nat.

Fixpoint lstrip (s : string) : string :=
  match s with
  | EmptyString => EmptyString
  | String c r => if isspace c then lstrip r else s
  end.

Fixpoint rstrip (s : string) : string :=
  match s with
  | EmptyString => EmptyString
  | String c r =>
      match rstrip r with
      | EmptyString => if isspace c then EmptyString else String c EmptyString
      | r' => String c r'
      end
  end.

(** [s.strip()] *)
Definition strip (s : string) : string := rstrip (lstrip s).

(** [s.split(sep)] for a one-character separator: the pieces between the
    occurrences of [sep]; never the empty list. *)
Fixpoint split (sep : ascii) (s : string) : list string :=
  match s with
  | EmptyString => [EmptyString]
  | String c r =>
      if Ascii.eqb c sep then EmptyString :: split sep r
      else match split sep r with
           | h :: t => String c h :: t
           | [] => [String c EmptyString]
           end
  end.

(** [l[0]] and [l[-1]] on the result of a split, which is never empty. *)
Definition first (l : list string) : string := hd EmptyString l.
Definition final (l : list string) : string := last l EmptyString.

(** [re.sub(pattern, repl, s)] for a pattern that is one character class:
    the string is scanned from the left, a character of the class is
    replaced by [repl], any other character is copied. *)
Fixpoint re_sub_class (cls : ascii -> bool) (repl s : string) : string :=
  match s with
  | EmptyString => EmptyString
  | String c r =>
      if cls c then repl ++ re_sub_class cls repl r
      else String c (re_sub_class cls repl r)
  end.

(** [needle in s] for strings. *)
Fixpoint infix (needle s : string) : bool :=
  String.prefix needle s
  || match s with
     | EmptyString => false
     | String _ r => infix needle r
     end.

End PyStr.

(** ** Filename sanitation and output paths (both front-ends) *)

(** The character class of the pattern: backslash, slash, star, question
    mark, colon, double quote, less-than, greater-than and vertical bar. *)
Definition invalid_chars : list ascii :=
  ["\"; "/"; "*"; "?"; ":"; PyStr.DQUOTE; "<"; ">"; "|"]%char.

Definition is_invalid (c : ascii) : bool := existsb (Ascii.eqb c) invalid_chars.

(** [sanitize_filename(title)]: [re.sub] of that class by the empty string. *)
Definition sanitize_filename (title : string) : string :=
  PyStr.re_sub_class is_invalid "" title.

(** [os.path.join(a, b)] of [posixpath]: [b] alone when it is absolute,
    else [a] and [b] with one separator between them unless [a] is empty or
    already ends with one. *)
Fixpoint endswith_sep (s : string) : bool :=
  match s with
  | EmptyString => false
  | String c EmptyString => Ascii.eqb c "/"
  | String _ r => endswith_sep r
  end.

Definition os_path_join (a b : string) : string :=
  if String.prefix "/" b then b
  else if negb (PyStr.nonempty a) || endswith_sep a then a ++ b
  else a ++ "/" ++ b.

(** The two lines under [# File paths]: the sanitized title with the
    extension [.mp4], respectively [.mp3], joined to the output directory. *)
Definition video_file_path (output_path sanitized_title : string) : string :=
  os_path_join output_path (sanitized_title ++ ".mp4").

Definition audio_file_path (output_path sanitized_title : string) : string :=
  os_path_join output_path (sanitized_title ++ ".mp3").

(** ** Python values and floats *)

#[local] Set Warnings "-register-all".

(** The values [json.loads] can return. *)
Inductive pyvalue : Type :=
| VNone
| VBool (b : bool)
| VInt (n : Z)
| VFloat (x : spec_float)
| VStr (s : string)
| VList (l : list pyvalue)
| VDict (items : list (string * pyvalue)).

Definition type_name (v : pyvalue) : string :=
  match v with
  | VNone => "NoneType" | VBool _ => "bool" | VInt _ => "int"
  | VFloat _ => "float" | VStr _ => "str" | VList _ => "list"
  | VDict _ => "dict"
  end.

(** [bool(v)], the test of [if not video_info]. *)
Definition truthy (v : pyvalue) : bool :=
  match v with
  | VNone => false
  | VBool b => b
  | VInt n => negb (n =? 0)
  | VFloat x => negb (SFeqb x (S754_zero false))
  | VStr s => PyStr.nonempty s
  | VList l => match l with [] => false | _ :: _ => true end
  | VDict d => match d with [] => false | _ :: _ => true end
  end.

(** [v.get(key, default)]: defined on a dict only; any other value has no
    such attribute and the call raises. *)
Definition py_get (v : pyvalue) (key : string) (default : pyvalue)
  : string + pyvalue :=
  match v with
  | VDict items =>
      inr match find (fun kv => String.eqb (fst kv) key) items with
          | Some kv => snd kv
          | None => default
          end
  | _ => inl ("'" ++ type_name v ++ "' object has no attribute 'get'")
  end.

(** [sanitize_filename] applied to whatever the title is: [re.sub] raises on
    anything that is not a string. *)
Definition sanitize_value (v : pyvalue) : string + string :=
  match v with
  | VStr s => inr (sanitize_filename s)
  | _ => inl ("expected string or bytes-like object, got '" ++ type_name v ++ "'")
  end.

(** Python floats are IEEE 754 binary64 numbers. *)
Module Float.

Definition prec : Z := 53.
Definition emax : Z := 1024.

Definition mul : spec_float -> spec_float -> spec_float := SFmul prec emax.
Definition add : spec_float -> spec_float -> spec_float := SFadd prec emax.
Definition leb : spec_float -> spec_float -> bool := SFleb.

(** [float(n)] for an integer [n]. *)
Definition of_Z (n : Z) : spec_float := binary_normalize prec emax n 0 false.

(** The literal [0.4]: the binary64 number nearest to 4/10. *)
Definition lit_0_4 : spec_float :=
  Eval vm_compute in SFdiv prec emax (of_Z 4) (of_Z 10).

(** [int(x)]: truncation toward zero; raises on an infinity or a NaN. *)
Definition to_int (x : spec_float) : string + Z :=
  match x with
  | S754_zero _ => inr 0
  | S754_finite s m e =>
      let a := if 0 <=? e then Z.shiftl (Zpos m) e
               else Z.shiftr (Zpos m) (- e) in
      inr (if s then - a else a)
  | S754_infinity _ => inl "cannot convert float infinity to integer"
  | S754_nan => inl "cannot convert float NaN to integer"
  end.

End Float.

(** ** The environment *)

(** What [subprocess.run(cmd, capture_output=True, text=True)] returns. *)
Record CompletedProcess : Type := {
  returncode : Z;
  stdout : string;
  stderr : string
}.

(** What a [subprocess.Popen] child does until it exits: the lines
    [readline] returns, in order, and the exit status. An empty string in
    [output_lines] is a read that returned nothing while the child was still
    running; the end of the list is the read after which [poll()] reports
    the exit. Only children that exit are described. *)
Record PopenRun : Type := {
  output_lines : list string;
  exit_status : Z
}.

(** The oracles. A call that can raise returns [inl] of the text of the
    exception ([Some] of it for [os.makedirs], which returns nothing). *)
Record World : Type := {
  which : string -> option string;
  path_exists : string -> bool;
  makedirs : string -> option string;
  subprocess_run : list string -> string + CompletedProcess;
  subprocess_popen : list string -> string + PopenRun;
  json_loads : string -> string + pyvalue;
  py_float : string -> string + spec_float;
  abspath : string -> string
}.

(** [bool(shutil.which(name))] *)
Definition resolves (w : World) (name : string) : bool :=
  match which w name with
  | Some path => PyStr.nonempty path
  | None => false
  end.

(** ** Events and the monad of a function body *)

Inductive event : Type :=
| SigProgress (n : Z)
| SigStatus (s : string)
| SigFinished (s : string)
| SigError (s : string)
| SigLog (s : string)
| Print (s : string)
| Spawn (cmd : list string)
| MakeDirs (path : string).

(** How a statement ends: it falls through with a value, it executes
    [return r], or it raises. *)
Inductive flow (R A : Type) : Type :=
| Next (a : A)
| Return (r : R)
| Raise (msg : string).
Arguments Next {R A} a.
Arguments Return {R A} r.
Arguments Raise {R A} msg.

Definition M (R A : Type) : Type := (list event * flow R A)%type.

Section Monad.
Context {R : Type}.

Definition ret {A} (a : A) : M R A := ([], Next a).

Definition bind {A B} (m : M R A) (k : A -> M R B) : M R B :=
  match m with
  | (t, Next a) => let (t', f) := k a in ((t ++ t')%list, f)
  | (t, Return r) => (t, Return r)
  | (t, Raise e) => (t, Raise e)
  end.

Definition emit (e : event) : M R unit := ([e], Next tt).
Definition return_ {A} (r : R) : M R A := ([], Return r).
Definition raise {A} (msg : string) : M R A := ([], Raise msg).
Definition pass : M R unit := ret tt.

(** [try: m except Exception as e: h e] *)
Definition try_except {A} (m : M R A) (h : string -> M R A) : M R A :=
  match m with
  | (t, Raise e) => let (t', f) := h e in ((t ++ t')%list, f)
  | _ => m
  end.

(** The result of a library call that can raise. *)
Definition lift {A} (x : string + A) : M R A :=
  match x with
  | inl e => raise e
  | inr a => ret a
  end.

(** A call of a function of this program, whose body is [m]: its
    [return r] gives [r], its falling off the end gives [none]. *)
Definition invoke {R' : Type} (none : R') (m : M R' unit) : M R R' :=
  match m with
  | (t, Next _) => (t, Next none)
  | (t, Return r) => (t, Next r)
  | (t, Raise e) => (t, Raise e)
  end.
End Monad.

Declare Scope py_scope.
Delimit Scope py_scope with py.
Notation "x <- m ;; k" := (bind m (fun x => k))
  (at level 61, m at next level, right associativity) : py_scope.
Notation "m ;; k" := (bind m (fun _ => k))
  (at level 61, right associativity) : py_scope.
Local Open Scope py_scope.

(** [subprocess.run(cmd, ...)]: the attempt is an event, the outcome comes
    from the world. *)
Definition run_process {R} (w : World) (cmd : list string) : M R CompletedProcess :=
  emit (Spawn cmd) ;; lift (subprocess_run w cmd).

(** [subprocess.Popen(cmd, ...)] *)
Definition popen {R} (w : World) (cmd : list string) : M R PopenRun :=
  emit (Spawn cmd) ;; lift (subprocess_popen w cmd).

(** [if not os.path.exists(p): os.makedirs(p)] *)
Definition ensure_directory {R} (w : World) (p : string) : M R unit :=
  if negb (path_exists w p) then
    emit (MakeDirs p) ;;
    match makedirs w p with
    | Some e => raise e
    | None => pass
    end
  else pass.

(** The commands, as the two files build them. *)
Definition info_cmd (url : string) : list string :=
  ["yt-dlp"; "--dump-json"; url].

Definition fallback_video_cmd (video_file url : string) : list string :=
  ["yt-dlp"; "-f"; "best"; "-o"; video_file; url].

Definition ffmpeg_cmd (video_file audio_file : string) : list string :=
  ["ffmpeg"; "-i"; video_file; "-vn"; "-acodec"; "libmp3lame"; "-q:a"; "2";
   audio_file; "-y"].

Definition direct_audio_cmd (audio_file url : string) : list string :=
  ["yt-dlp"; "-x"; "--audio-format"; "mp3"; "--audio-quality"; "0";
   "-o"; audio_file; url].

Definition best_format : string :=
  "bestvideo[ext=mp4]+bestaudio[ext=m4a]/best[ext=mp4]/best".

(** ** The desktop front-end: [youtube_downloader_ytdlp_gui.py] *)

Module Gui.

(** The fields of [DownloadWorker] that [__init__] takes from its caller. *)
Record DownloadWorker : Type := {
  url : string;
  output_path : string;
  download_video : bool;
  download_audio : bool
}.

Section Worker.
Variable w : World.
Variable self : DownloadWorker.

(** [DownloadWorker.check_dependencies] *)
Definition check_dependencies {R} : M R (list string) :=
  let missing_deps := [] in
  let missing_deps :=
    if negb (resolves w "yt-dlp") then (missing_deps ++ ["yt-dlp"])%list
    else missing_deps in
  let missing_deps :=
    if negb (resolves w "ffmpeg") then (missing_deps ++ ["ffmpeg"])%list
    else missing_deps in
  ret missing_deps.

(** [DownloadWorker.get_video_info] *)
Definition get_video_info {R} : M R pyvalue :=
  invoke VNone
    (emit (SigStatus "Getting video information...") ;;
     emit (SigProgress 10) ;;
     try_except
       (let cmd := info_cmd (url self) in
        result <- run_process w cmd ;;
        (if negb (returncode result =? 0) then
           let error_msg :=
             if PyStr.nonempty (stderr result) then stderr result
             else "Failed to get video information" in
           emit (SigError ("Error getting video info: " ++ error_msg)) ;;
           return_ VNone
         else pass) ;;
        video_info <- lift (json_loads w (stdout result)) ;;
        emit (SigProgress 20) ;;
        return_ video_info)
       (fun e =>
          emit (SigError ("Error while getting video info: " ++ e)) ;;
          return_ VNone)).

(** The token the percentage is read from:
    [line.split('%')[0].strip().split(' ')[-1]]. *)
Definition progress_str (line : string) : string :=
  PyStr.final (PyStr.split " "
    (PyStr.strip (PyStr.first (PyStr.split "%" line)))).

(** [30 + (progress * 0.4)] *)
Definition scaled_progress (progress : spec_float) : spec_float :=
  Float.add (Float.of_Z 30) (Float.mul progress Float.lit_0_4).

(** The body of [if line:] in the loop that reads the child's output. *)
Definition report_line {R} (line : string) : M R unit :=
  emit (SigLog (PyStr.strip line)) ;;
  if PyStr.contains "%" line then
    try_except
      (progress <- lift (py_float w (progress_str line)) ;;
       n <- lift (Float.to_int (scaled_progress progress)) ;;
       emit (SigProgress n))
      (fun _ => pass)
  else pass.

(** The [while True] loop, over the reads of a child that exits. *)
Fixpoint read_output {R} (lines : list string) : M R unit :=
  match lines with
  | [] => pass
  | line :: rest =>
      (if PyStr.nonempty line then report_line line else pass) ;;
      read_output rest
  end.

Definition primary_video_cmd (video_file : string) : list string :=
  ["yt-dlp"; "-f"; best_format; "-o"; video_file; "--progress"; url self].

(** The block under [# Download video if requested]. *)
Definition fetch_video (video_file : string) : M unit unit :=
  emit (SigStatus "Downloading MP4 (video)...") ;;
  emit (SigLog (PyStr.nl ++ "Downloading video...")) ;;
  let video_cmd := primary_video_cmd video_file in
  emit (SigProgress 30) ;;
  process <- popen w video_cmd ;;
  read_output (output_lines process) ;;
  (if negb (exit_status process =? 0) then
     emit (SigStatus "Trying alternative video format...") ;;
     emit (SigLog (PyStr.nl ++ "Trying alternative video format...")) ;;
     let video_cmd := fallback_video_cmd video_file (url self) in
     process <- run_process w video_cmd ;;
     if negb (returncode process =? 0) then
       emit (SigError ("Error downloading video: " ++ stderr process)) ;;
       return_ tt
     else pass
   else pass) ;;
  emit (SigLog "MP4 download complete!").

(** The block under [# Extract/download audio if requested]. *)
Definition fetch_audio (video_file audio_file : string) : M unit unit :=
  emit (SigStatus "Extracting MP3 (audio)...") ;;
  emit (SigLog (PyStr.nl ++ "Extracting MP3 audio...")) ;;
  emit (SigProgress 70) ;;
  (if download_video self then
     let audio_cmd := ffmpeg_cmd video_file audio_file in
     process <- run_process w audio_cmd ;;
     if negb (returncode process =? 0) then
       emit (SigError ("Error extracting audio: " ++ stderr process)) ;;
       return_ tt
     else pass
   else
     let audio_cmd := direct_audio_cmd audio_file (url self) in
     process <- run_process w audio_cmd ;;
     if negb (returncode process =? 0) then
       emit (SigError ("Error downloading audio: " ++ stderr process)) ;;
       return_ tt
     else pass) ;;
  emit (SigLog "MP3 extraction complete!").

(** The text of the error raised when dependencies are missing. *)
Definition missing_message (missing_deps : list string) : string :=
  "Missing required dependencies: " ++ PyStr.join ", " missing_deps
  ++ PyStr.nl ++ PyStr.nl
  ++ "To install them on macOS using Homebrew:" ++ PyStr.nl
  ++ "brew install " ++ PyStr.join " " missing_deps.

(** The body of [DownloadWorker.run], inside its [try]. *)
Definition run_body : M unit unit :=
  missing_deps <- check_dependencies ;;
  (match missing_deps with
   | _ :: _ => emit (SigError (missing_message missing_deps)) ;; return_ tt
   | [] => pass
   end) ;;
  ensure_directory w (output_path self) ;;
  video_info <- get_video_info ;;
  (if negb (truthy video_info) then return_ tt else pass) ;;
  video_title <- lift (py_get video_info "title" (VStr "video")) ;;
  sanitized_title <- lift (sanitize_value video_title) ;;
  (* the title is a string here: [sanitize_filename] raised otherwise *)
  emit (SigStatus ("Downloading: "
          ++ match video_title with VStr s => s | _ => "" end)) ;;
  let video_file := video_file_path (output_path self) sanitized_title in
  let audio_file := audio_file_path (output_path self) sanitized_title in
  (if download_video self then fetch_video video_file else pass) ;;
  (if download_audio self then fetch_audio video_file audio_file else pass) ;;
  emit (SigProgress 100) ;;
  emit (SigStatus "Download complete!") ;;
  emit (SigFinished (output_path self)).

(** [DownloadWorker.run]: the events of one run, in order. *)
Definition run : list event :=
  fst (try_except run_body (fun e => emit (SigError ("Error: " ++ e)))).

End Worker.

(** The form, as [start_download] reads it. *)
Record Form : Type := {
  url_text : string;
  output_path_text : string;
  mp4_checked : bool;
  mp3_checked : bool
}.

(** What [start_download] does to the window. *)
Inductive ui_event : Type :=
| MessageCritical (title text : string)
| DownloadButtonEnabled (enabled : bool)
| LogCleared
| WorkerStarted (worker : DownloadWorker).

(** [YouTubeDownloaderApp.start_download] *)
Definition start_download (f : Form) : list ui_event :=
  let url := PyStr.strip (url_text f) in
  let output_path := PyStr.strip (output_path_text f) in
  let download_mp4 := mp4_checked f in
  let download_mp3 := mp3_checked f in
  if negb (PyStr.nonempty url) then
    [MessageCritical "Error" "Please enter a YouTube URL"]
  else if negb (PyStr.nonempty output_path) then
    [MessageCritical "Error" "Please select an output folder"]
  else if negb download_mp4 && negb download_mp3 then
    [MessageCritical "Error" "Please select at least one format to download"]
  else
    [DownloadButtonEnabled false; LogCleared;
     WorkerStarted {| url := url; output_path := output_path;
                      download_video := download_mp4;
                      download_audio := download_mp3 |}].

(** The pipeline events a click on the download button leads to: those of
    the worker it starts, if it starts one. *)
Definition click_download (w : World) (f : Form) : list event :=
  flat_map (fun e => match e with
                     | WorkerStarted worker => run w worker
                     | _ => []
                     end) (start_download f).

(** The widgets of the window that the slots read or write: whether the
    download button is enabled, the text of the status label and the text of
    the log label. *)
Record Window : Type := {
  download_btn_enabled : bool;
  status_label : string;
  log_label : string
}.

(** What a slot does besides: the value it hands to the progress bar, and
    the modal boxes it shows. *)
Inductive window_effect : Type :=
| ProgressBarSetValue (value : Z)
| BoxCritical (title text : string)
| BoxInformation (title text : string).

(** The button and the two labels as [init_ui] leaves them. *)
Definition init_ui : Window :=
  {| download_btn_enabled := true;
     status_label := "Ready to download";
     log_label := "Waiting for download to start..." |}.

(** [YouTubeDownloaderApp.update_progress] *)
Definition update_progress (value : Z) (win : Window)
  : Window * list window_effect :=
  (win, [ProgressBarSetValue value]).

(** [YouTubeDownloaderApp.update_status] *)
Definition update_status (message : string) (win : Window)
  : Window * list window_effect :=
  ({| download_btn_enabled := download_btn_enabled win;
      status_label := message;
      log_label := log_label win |}, []).

(** [YouTubeDownloaderApp.append_log] *)
Definition append_log (text : string) (win : Window)
  : Window * list window_effect :=
  let current_text := log_label win in
  ({| download_btn_enabled := download_btn_enabled win;
      status_label := status_label win;
      log_label := current_text ++ PyStr.nl ++ text |}, []).

(** [YouTubeDownloaderApp.download_finished] *)
Definition download_finished (output_path : string) (win : Window)
  : Window * list window_effect :=
  ({| download_btn_enabled := true;
      status_label := status_label win;
      log_label := log_label win |},
   [BoxInformation "Success"
      ("Download complete!" ++ PyStr.nl ++ "Saved to: " ++ output_path)]).

(** [YouTubeDownloaderApp.download_error] *)
Definition download_error (error_msg : string) (win : Window)
  : Window * list window_effect :=
  let win := {| download_btn_enabled := true;
                status_label := status_label win;
                log_label := log_label win |} in
  let (win, fx) := update_status "Error: Download failed" win in
  (win, (fx ++ [BoxCritical "Error"
                  ("Download failed:" ++ PyStr.nl ++ PyStr.nl ++ error_msg)])%list).

(** The signal [progress] is declared [pyqtSignal(int)]: its argument
    travels as a C int. The Python integer given to [emit] is read as a C
    long and cut to a C int, so a value in the range of a C long (64 bits)
    reaches the slot as its low 32 bits read as a signed number, and any
    value of the range of a C int reaches it unchanged; for a value outside
    the range of a C long the call of [emit] raises, inside the [try] of the
    loop that reads the output, and nothing reaches the slot. *)
Definition c_int (n : Z) : Z := (n + 2 ^ 31) mod 2 ^ 32 - 2 ^ 31.

Definition in_c_long (n : Z) : bool := (- 2 ^ 63 <=? n) && (n <? 2 ^ 63).

Definition progress_signal (n : Z) : option Z :=
  if in_c_long n then Some (c_int n) else None.

(** The slot each signal of the worker is connected to in [start_download].
    The events of a run that are not signals do not reach the window. *)
Definition slot (e : event) (win : Window) : Window * list window_effect :=
  match e with
  | SigProgress n =>
      match progress_signal n with
      | Some value => update_progress value win
      | None => (win, [])
      end
  | SigStatus message => update_status message win
  | SigFinished output_path => download_finished output_path win
  | SigError error_msg => download_error error_msg win
  | SigLog text => append_log text win
  | Print _ | Spawn _ | MakeDirs _ => (win, [])
  end.

(** The signals of a run, handled by the window in the order of their
    emission. *)
Fixpoint deliver (t : list event) (win : Window) : Window * list window_effect :=
  match t with
  | [] => (win, [])
  | e :: t' =>
      let (win, fx) := slot e win in
      let (win, fx') := deliver t' win in
      (win, (fx ++ fx')%list)
  end.




End Gui.

(** ** The command-line front-end: [youtube_downloader_ytdlp.py] *)

Module Cli.

Section Cli.
Variable w : World.

(** [check_dependencies()]: it reports by printing and returns whether
    nothing is missing. *)
Definition check_dependencies {R} : M R bool :=
  invoke true
    (let missing_deps := [] in
     let missing_deps :=
       if negb (resolves w "yt-dlp") then (missing_deps ++ ["yt-dlp"])%list
       else missing_deps in
     let missing_deps :=
       if negb (resolves w "ffmpeg") then (missing_deps ++ ["ffmpeg"])%list
       else missing_deps in
     (match missing_deps with
      | _ :: _ =>
          emit (Print ("Missing required dependencies: "
                       ++ PyStr.join ", " missing_deps)) ;;
          emit (Print (PyStr.nl
                       ++ "To install the dependencies on macOS using Homebrew:")) ;;
          emit (Print "brew install yt-dlp ffmpeg") ;;
          return_ false
      | [] => pass
      end) ;;
     return_ true).

(** [get_video_info(url)] *)
Definition get_video_info {R} (url : string) : M R pyvalue :=
  invoke VNone
    (try_except
       (let cmd := info_cmd url in
        result <- run_process w cmd ;;
        (if negb (returncode result =? 0) then
           emit (Print ("Error getting video info: " ++ stderr result)) ;;
           return_ VNone
         else pass) ;;
        video_info <- lift (json_loads w (stdout result)) ;;
        return_ video_info)
       (fun e =>
          emit (Print ("Error while getting video info: " ++ e)) ;;
          return_ VNone)).

Definition primary_video_cmd (video_file url : string) : list string :=
  ["yt-dlp"; "-f"; best_format; "-o"; video_file; url].

(** The body of [download_video(url, output_path)]. *)
Definition download_video_body (url output_path : string) : M bool unit :=
  ok <- check_dependencies ;;
  (if negb ok then return_ false else pass) ;;
  try_except
    (ensure_directory w output_path ;;
     emit (Print "Getting video information...") ;;
     video_info <- get_video_info url ;;
     (if negb (truthy video_info) then
        emit (Print "Failed to get video information") ;;
        return_ false
      else pass) ;;
     video_title <- lift (py_get video_info "title" (VStr "video")) ;;
     sanitized_title <- lift (sanitize_value video_title) ;;
     (* the title is a string here: [sanitize_filename] raised otherwise *)
     emit (Print (PyStr.nl ++ "Downloading: "
             ++ match video_title with VStr s => s | _ => "" end)) ;;
     let video_file := video_file_path output_path sanitized_title in
     let audio_file := audio_file_path output_path sanitized_title in
     emit (Print (PyStr.nl ++ "Downloading MP4 (video)...")) ;;
     let video_cmd := primary_video_cmd video_file url in
     video_result <- run_process w video_cmd ;;
     (if negb (returncode video_result =? 0) then
        emit (Print ("Error downloading video: " ++ stderr video_result)) ;;
        let video_cmd := fallback_video_cmd video_file url in
        video_result <- run_process w video_cmd ;;
        if negb (returncode video_result =? 0) then
          emit (Print ("Error downloading video (second attempt): "
                       ++ stderr video_result)) ;;
          return_ false
        else pass
      else pass) ;;
     emit (Print ("MP4 download complete: " ++ video_file)) ;;
     emit (Print (PyStr.nl ++ "Extracting MP3 (audio)...")) ;;
     let audio_cmd := ffmpeg_cmd video_file audio_file in
     audio_result <- run_process w audio_cmd ;;
     (if negb (returncode audio_result =? 0) then
        emit (Print ("Error extracting audio: " ++ stderr audio_result)) ;;
        return_ false
      else pass) ;;
     emit (Print ("MP3 extraction complete: " ++ audio_file)) ;;
     emit (Print (PyStr.nl ++ "Files saved to: " ++ abspath w output_path)) ;;
     return_ true)
    (fun e => emit (Print ("Error: " ++ e)) ;; return_ false).

(** [download_video(url, output_path)]: the events of the call and the
    value it returns ([None] stands for Python's [None]). *)
Definition download_video (url output_path : string)
  : list event * option bool :=
  let (t, f) := download_video_body url output_path in
  (t, match f with Return r => Some r | _ => None end).

End Cli.

(** The script's entry: the block under the test of [__name__]. The second
    component is the exit status of the interpreter: 1 after [sys.exit(1)],
    0 when the script runs to its end. *)
Definition main (w : World) (argv : list string) : list event * Z :=
  if (List.length argv <? 2)%nat then
    ([Print "Usage: python youtube_downloader_ytdlp.py <youtube_url> [output_folder]";
      Print "Example: python youtube_downloader_ytdlp.py https://www.youtube.com/watch?v=dQw4w9WgXcQ my_downloads"],
     1)
  else
    let url := nth 1 argv "" in
    let output_folder :=
      if (2 <? List.length argv)%nat then nth 2 argv "" else "downloads" in
    let (t, success) := download_video w url output_folder in
    match success with
    | Some true => (t, 0)
    | _ => (t, 1)
    end.

End Cli.

(** ** Reading a run *)

(** The commands of the processes a run spawned, in order. *)
Fixpoint spawned (t : list event) : list (list string) :=
  match t with
  | [] => []
  | Spawn cmd :: t' => cmd :: spawned t'
  | _ :: t' => spawned t'
  end.

(** The progress values a run reported, in order. *)
Fixpoint progress_values (t : list event) : list Z :=
  match t with
  | [] => []
  | SigProgress n :: t' => n :: progress_values t'
  | _ :: t' => progress_values t'
  end.

(** The lines a run sent to the log stream, in order. *)
Fixpoint logged (t : list event) : list string :=
  match t with
  | [] => []
  | SigLog s :: t' => s :: logged t'
  | _ :: t' => logged t'
  end.

(** The event a run ends with. *)
Definition terminal (t : list event) : option event :=
  match rev t with
  | [] => None
  | e :: _ => Some e
  end.




(** * Vocabulary

    Readings of runs, sample worlds and the integer model of binary64
    rounding, in which the properties below are stated. *)

(** ** File names *)

(** The title with every occurrence of an invalid character deleted, in
    the words of the specification: the characters that are not in the
    set, in their order. *)
Definition delete_invalid (title : string) : string :=
  string_of_list_ascii
    (filter (fun c => negb (is_invalid c)) (list_ascii_of_string title)).

(** The title of the scenario of the specification: Test, a colon, a
    space, Video between double quotes, and a question mark. *)
Definition scenario_title : string :=
  "Test: " ++ String PyStr.DQUOTE "Video" ++ String PyStr.DQUOTE "?".

(** ** Sample worlds

    Concrete oracles, for running the model on examples. *)

Module Sample.

(** A sample of [float]: a plain decimal numeral (an optional sign, digits,
    an optional point and digits, with at least one digit) is read exactly
    and rounded once to the nearest binary64 number; any other token is
    refused, which is what the real [float] does with the other tokens that
    occur in the examples below. *)
Definition digit (c : ascii) : option Z :=
  let n := nat_of_ascii c in
  if ((48 <=? n) && (n <=? 57))%nat then Some (Z.of_nat n - 48) else None.

(** Reads digits: the number read so far, how many digits, and the rest. *)
Fixpoint digits (s : string) (acc : Z) (count : nat) : Z * nat * string :=
  match s with
  | EmptyString => (acc, count, s)
  | String c r =>
      match digit c with
      | Some d => digits r (10 * acc + d) (S count)
      | None => (acc, count, s)
      end
  end.

Definition ratio (neg : bool) (m : Z) (decimals : nat) : spec_float :=
  match m with
  | Zpos p =>
      match decimals with
      | O => binary_normalize Float.prec Float.emax (if neg then - m else m) 0 false
      | _ => SFdiv Float.prec Float.emax (S754_finite neg p 0)
               (S754_finite false (Pos.pow 10 (Pos.of_nat decimals)) 0)
      end
  | _ => S754_zero neg
  end.

Definition float (s : string) : string + spec_float :=
  let refuse := inl ("could not convert string to float: '" ++ s ++ "'") in
  let (neg, body) :=
    match s with
    | String "-" r => (true, r)
    | String "+" r => (false, r)
    | _ => (false, s)
    end in
  let '(ip, n1, rest) := digits body 0 0 in
  match rest with
  | EmptyString =>
      if (0 <? n1)%nat then inr (ratio neg ip 0) else refuse
  | String "." frac =>
      let '(m, n, rest') := digits frac ip n1 in
      match rest' with
      | EmptyString =>
          if (0 <? n)%nat then inr (ratio neg m (n - n1)) else refuse
      | _ => refuse
      end
  | _ => refuse
  end.

(** The text of a JSON object with the one key [title]. *)
Definition quoted (s : string) : string :=
  String PyStr.DQUOTE s ++ String PyStr.DQUOTE "".

Definition title_json (title : string) : string :=
  "{" ++ quoted "title" ++ ": " ++ quoted title ++ "}".

(** A sample of [json.loads]: it knows the objects [title_json t] of a few
    titles and the empty object, and refuses any other text with the error
    of a text that does not start a JSON value. *)
Definition known_titles : list string := ["Clip"; "?:*|"].

Definition loads (s : string) : string + pyvalue :=
  match find (fun t => String.eqb s (title_json t)) known_titles with
  | Some t => inr (VDict [("title", VStr t)])
  | None =>
      if String.eqb s "{}" then inr (VDict [])
      else inl "Expecting value: line 1 column 1 (char 0)"
  end.

(** The world in which the tools of [tools] are installed, no directory
    exists yet and every directory can be created; the engines behave as
    [run] and [pop] say. *)
Definition world (tools : list string)
    (run : list string -> string + CompletedProcess)
    (pop : list string -> string + PopenRun) : World :=
  {| which := fun name =>
       if existsb (String.eqb name) tools then Some ("/usr/local/bin/" ++ name)
       else None;
     path_exists := fun _ => false;
     makedirs := fun _ => None;
     subprocess_run := run;
     subprocess_popen := pop;
     json_loads := loads;
     py_float := float;
     abspath := fun p => "/home/user/" ++ p |}.

Definition both_tools : list string := ["yt-dlp"; "ffmpeg"].

(** A successful process with the given standard output. *)
Definition ok (out : string) : string + CompletedProcess :=
  inr {| returncode := 0; stdout := out; stderr := "" |}.

(** A failed process with the given diagnostic. *)
Definition failed (code : Z) (err : string) : string + CompletedProcess :=
  inr {| returncode := code; stdout := ""; stderr := err |}.

(** The second element of a command: the flag that tells the modes apart. *)
Definition mode (cmd : list string) : string := nth 1 cmd "".

End Sample.

(** ** The dependency probe *)

(** The tools that do not resolve, among the two the pipeline needs. *)
Definition required_tools : list string := ["yt-dlp"; "ffmpeg"].

Definition unresolved (w : World) : list string :=
  filter (fun name => negb (resolves w name)) required_tools.

(** What the command-line probe prints when [missing] is not empty. *)
Definition cli_missing_report (missing : list string) : list event :=
  [Print ("Missing required dependencies: " ++ PyStr.join ", " missing);
   Print (PyStr.nl ++ "To install the dependencies on macOS using Homebrew:");
   Print "brew install yt-dlp ffmpeg"].

Definition world_without_ffmpeg : World :=
  Sample.world ["yt-dlp"] (fun _ => Sample.ok "") (fun _ => inl "unused").

Definition sample_worker : Gui.DownloadWorker :=
  {| Gui.url := "https://www.youtube.com/watch?v=dQw4w9WgXcQ";
     Gui.output_path := "downloads";
     Gui.download_video := true;
     Gui.download_audio := true |}.

(** ** The stages of a run *)

(** The directory is there or can be made. *)
Definition directory_ready (w : World) (p : string) : Prop :=
  path_exists w p = true \/ makedirs w p = None.

Definition directory_events (w : World) (p : string) : list event :=
  if path_exists w p then [] else [MakeDirs p].

Section GuiStagesDefs.
Variable w : World.
Variable self : Gui.DownloadWorker.

(** The events of the metadata fetch up to the engine's answer. *)
Definition info_request : list event :=
  [SigStatus "Getting video information..."; SigProgress 10;
   Spawn (info_cmd (Gui.url self))].

(** The diagnostic of a failed metadata fetch: [result.stderr or ...]. *)
Definition info_diagnostic (cp : CompletedProcess) : string :=
  if PyStr.nonempty (stderr cp) then stderr cp
  else "Failed to get video information".

End GuiStagesDefs.

Section OutputDefs.
Variable w : World.

(** The progress value a line leads to, if it leads to one: the line has a
    percent sign, the token before it reads as a float, and the scaled float
    converts to an integer. *)
Definition line_progress (line : string) : option Z :=
  if PyStr.contains "%" line then
    match py_float w (Gui.progress_str line) with
    | inr progress =>
        match Float.to_int (Gui.scaled_progress progress) with
        | inr n => Some n
        | inl _ => None
        end
    | inl _ => None
    end
  else None.

(** The events of one line that was read. *)
Definition line_events (line : string) : list event :=
  SigLog (PyStr.strip line)
  :: match line_progress line with
     | Some n => [SigProgress n]
     | None => []
     end.

(** The events of the whole output: those of its non-empty reads. *)
Definition output_events (lines : list string) : list event :=
  flat_map (fun line => if PyStr.nonempty line then line_events line else [])
           lines.

(** The progress values of the output, one per line that leads to one. *)
Definition output_progress (lines : list string) : list Z :=
  flat_map (fun line => match line_progress line with
                        | Some n => if PyStr.nonempty line then [n] else []
                        | None => []
                        end) lines.

End OutputDefs.

Section GuiMediaDefs.
Variable w : World.
Variable self : Gui.DownloadWorker.
Variables video_file audio_file : string.

Definition video_request : list event :=
  [SigStatus "Downloading MP4 (video)...";
   SigLog (PyStr.nl ++ "Downloading video...");
   SigProgress 30;
   Spawn (Gui.primary_video_cmd self video_file)].

Definition fallback_request : list event :=
  [SigStatus "Trying alternative video format...";
   SigLog (PyStr.nl ++ "Trying alternative video format...");
   Spawn (fallback_video_cmd video_file (Gui.url self))].

(** The command of the audio stage: the transcoder on the video file when
    the video was fetched, the download engine in audio mode otherwise. *)
Definition audio_cmd : list string :=
  if Gui.download_video self then ffmpeg_cmd video_file audio_file
  else direct_audio_cmd audio_file (Gui.url self).

Definition audio_request : list event :=
  [SigStatus "Extracting MP3 (audio)...";
   SigLog (PyStr.nl ++ "Extracting MP3 audio...");
   SigProgress 70;
   Spawn audio_cmd].

Definition audio_error (diagnostic : string) : event :=
  SigError ((if Gui.download_video self then "Error extracting audio: "
             else "Error downloading audio: ") ++ diagnostic).

End GuiMediaDefs.

(** The metadata fetch succeeds: both tools resolve, the output directory
    is there or can be made, the engine exits with 0, its output parses to a
    true value, and the title read from it (the string video when there is
    no such key) is a string. *)
Definition metadata_ok (w : World) (url output_path title : string) : Prop :=
  unresolved w = []
  /\ directory_ready w output_path
  /\ exists cp v,
       subprocess_run w (info_cmd url) = inr cp
       /\ returncode cp = 0
       /\ json_loads w (stdout cp) = inr v
       /\ truthy v = true
       /\ py_get v "title" (VStr "video") = inr (VStr title).

(** The handler of the [try] of [run]. *)
Definition run_handler (e : string) : M unit unit :=
  emit (SigError ("Error: " ++ e)).

Section GuiRunDefs.
Variable w : World.
Variable self : Gui.DownloadWorker.
Variable title : string.

Definition video_file : string :=
  video_file_path (Gui.output_path self) (sanitize_filename title).

Definition audio_file : string :=
  audio_file_path (Gui.output_path self) (sanitize_filename title).

(** The events up to the computation of the file paths. *)
Definition prelude : list event :=
  (directory_events w (Gui.output_path self) ++ info_request self
   ++ [SigProgress 20; SigStatus ("Downloading: " ++ title)])%list.

(** The rest of the body of [run]. *)
Definition media_stages : M unit unit :=
  (if Gui.download_video self then Gui.fetch_video w self video_file else pass) ;;
  (if Gui.download_audio self
   then Gui.fetch_audio w self video_file audio_file else pass) ;;
  emit (SigProgress 100) ;;
  emit (SigStatus "Download complete!") ;;
  emit (SigFinished (Gui.output_path self)).

Definition completion : list event :=
  [SigProgress 100; SigStatus "Download complete!";
   SigFinished (Gui.output_path self)].

End GuiRunDefs.

(** ** Sample engines, workers and forms *)

(** The engines of a sample world: what the metadata fetch, the primary
    video fetch of the command line, the fallback and the audio command
    answer. *)
Definition sample_engine (info primary fallback audio : string + CompletedProcess)
    (cmd : list string) : string + CompletedProcess :=
  if String.eqb (Sample.mode cmd) "--dump-json" then info
  else if String.eqb (Sample.mode cmd) "-f" then
    if String.eqb (nth 2 cmd "") "best" then fallback else primary
  else audio.

(** The child of the worker's primary video fetch: its lines and status. *)
Definition sample_child (lines : list string) (status : Z)
    (cmd : list string) : string + PopenRun :=
  inr {| output_lines := lines; exit_status := status |}.

Definition clip_info : string + CompletedProcess :=
  Sample.ok (Sample.title_json "Clip").

(** What the download engine prints for a video stream and then an audio
    stream, each with its own percentages. *)
Definition two_stream_lines : list string :=
  map (fun s => s ++ PyStr.nl)
    ["[download] Destination: downloads/Clip.f137.mp4";
     "[download]  50.0% of 10.00MiB at 1.00MiB/s ETA 00:05";
     "[download] 100% of 10.00MiB in 00:10";
     "[download] Destination: downloads/Clip.f140.m4a";
     "[download]  10.0% of 3.00MiB at 1.00MiB/s ETA 00:02";
     "[download] 100% of 3.00MiB in 00:03"].

Definition happy_world : World :=
  Sample.world Sample.both_tools
    (sample_engine clip_info (Sample.ok "") (Sample.ok "") (Sample.ok ""))
    (sample_child two_stream_lines 0).

Definition forbidden : string :=
  "ERROR: unable to download video data: HTTP Error 403: Forbidden".

Definition video_broken_world : World :=
  Sample.world Sample.both_tools
    (sample_engine clip_info (Sample.failed 1 "ERROR: first attempt")
       (Sample.failed 1 forbidden) (Sample.ok ""))
    (sample_child ["[youtube] dQw4w9WgXcQ: Downloading webpage" ++ PyStr.nl] 1).

Definition idle_worker : Gui.DownloadWorker :=
  {| Gui.url := "https://www.youtube.com/watch?v=dQw4w9WgXcQ";
     Gui.output_path := "downloads";
     Gui.download_video := false;
     Gui.download_audio := false |}.

Section CliOutcomesDefs.
Variable w : World.
Variables url out title : string.

(** The events of the command line up to the primary video fetch. *)
Definition cli_prelude : list event :=
  (directory_events w out
   ++ [Print "Getting video information..."; Spawn (info_cmd url);
       Print (PyStr.nl ++ "Downloading: " ++ title);
       Print (PyStr.nl ++ "Downloading MP4 (video)...");
       Spawn (Cli.primary_video_cmd
                (video_file_path out (sanitize_filename title)) url)])%list.

End CliOutcomesDefs.

Definition no_format_form : Gui.Form :=
  {| Gui.url_text := " https://www.youtube.com/watch?v=dQw4w9WgXcQ ";
     Gui.output_path_text := "downloads";
     Gui.mp4_checked := false;
     Gui.mp3_checked := false |}.

(** The title of the video is made of invalid characters only. *)
Definition odd_title_world : World :=
  Sample.world Sample.both_tools
    (sample_engine (Sample.ok (Sample.title_json "?:*|"))
       (Sample.ok "") (Sample.ok "") (Sample.ok ""))
    (sample_child [] 0).

(** The engine exits with 0, prints nothing on its standard output and a
    warning on its standard error. *)
Definition lone_warning : string :=
  "WARNING: [youtube] Unable to extract video data".

Definition silent_world : World :=
  Sample.world Sample.both_tools
    (sample_engine
       (inr {| returncode := 0; stdout := ""; stderr := lone_warning |})
       (Sample.ok "") (Sample.ok "") (Sample.ok ""))
    (sample_child [] 0).

Definition refusing_world : World :=
  Sample.world Sample.both_tools
    (sample_engine (Sample.failed 1 "ERROR: Video unavailable")
       (Sample.ok "") (Sample.ok "") (Sample.ok ""))
    (sample_child [] 0).

(** ** White space at the ends of a string *)

Definition all_space (s : string) : Prop :=
  Forall (fun c => PyStr.isspace c = true) (PyStr.chars s).

Definition first_char (s : string) : option ascii :=
  match s with EmptyString => None | String c _ => Some c end.

Fixpoint last_char (s : string) : option ascii :=
  match s with
  | EmptyString => None
  | String c EmptyString => Some c
  | String _ r => last_char r
  end.

Definition destination_line : string :=
  "[download] Destination: downloads/Clip.mp4" ++ PyStr.nl.

(** ** Binary64 arithmetic

    The operations of [SpecFloat] on non-negative numbers, read as integer
    arithmetic on values: a finite number is its value in units of
    2^-1200, rounding is to the nearest number of the binary64 grid, ties to
    even, and it is monotone. *)

Module Binary64.

(** The number of bits of a mantissa. *)
Definition dig (m : positive) : Z := Zpos (digits2_pos m).

(** Round to nearest, ties to even, of m / 2^n. *)
Definition rne (m n : Z) : Z :=
  let q := m / 2 ^ n in
  match 2 * (m mod 2 ^ n) ?= 2 ^ n with
  | Lt => q
  | Eq => if Z.even q then q else q + 1
  | Gt => q + 1
  end.

Definition shifted (m : Z) (k : nat) : shr_record :=
  {| shr_m := m / 2 ^ Z.of_nat (S k);
     shr_r := 2 ^ Z.of_nat k <=? m mod 2 ^ Z.of_nat (S k);
     shr_s := negb (m mod 2 ^ Z.of_nat k =? 0) |}.

Definition fexp64 (e : Z) : Z := Z.max (e - 53) (-1074).

(** The value of a finite number, as an integer multiple of 2^-1200. *)
Definition scale : Z := 1200.

Definition Fnum (x : spec_float) : Z :=
  match x with
  | S754_finite s m e =>
      let v := Zpos m * 2 ^ (e + scale) in if s then - v else v
  | _ => 0
  end.

(** The exponent of the grid on which a positive value [v], given in units
    of 2^-1200, is rounded, in the same units. *)
Definition grid (v : Z) : Z := Z.max (Z.log2 v + 1 - 53) (scale - 1074).

(** The binary64 number nearest to [v], in the same units. *)
Definition RN (v : Z) : Z :=
  if v <=? 0 then 0 else rne v (grid v) * 2 ^ grid v.

Definition m04 : positive := 7205759403792794.
Definition c04 : spec_float := S754_finite false m04 (-54).

Definition m30 : positive := 8444249301319680.
Definition f30 : spec_float := S754_finite false m30 (-48).

(** The truncation of a finite number toward zero. *)
Definition trunc (x : spec_float) : Z :=
  match x with
  | S754_finite s m e =>
      let a := if 0 <=? e then Z.shiftl (Zpos m) e
               else Z.shiftr (Zpos m) (- e) in
      if s then - a else a
  | _ => 0
  end.

Definition nonneg_finite (x : spec_float) : bool :=
  match x with
  | S754_zero _ => true
  | S754_finite false _ _ => true
  | _ => false
  end.

Definition scaled (p : spec_float) : spec_float :=
  SFadd 53 1024 f30 (SFmul 53 1024 p c04).

(** The integer reported for a percentage of value [v]. *)
Definition emitted (v : Z) : Z :=
  RN (30 * 2 ^ scale + RN (v / 2 ^ 54 * Zpos m04)) / 2 ^ scale.

Definition is_result (x : spec_float) : Prop :=
  x = S754_zero false
  \/ exists m e, x = S754_finite false m e /\ -1074 <= e.

(** A float between 0 and 100. *)
Definition hundred : spec_float := S754_finite false 7036874417766400 (-46).

Definition percent (p : spec_float) : Prop :=
  valid_binary 53 1024 p = true
  /\ SFleb (S754_zero false) p = true
  /\ SFleb p hundred = true.

End Binary64.

(** ** Percentages and progress values *)

(** A parsed percentage between 0 and 100: a valid binary64 number [p] with
    [0 <= p] and [p <= 100]. *)
Definition percent (p : spec_float) : Prop :=
  valid_binary Float.prec Float.emax p = true
  /\ Float.leb (Float.of_Z 0) p = true
  /\ Float.leb p (Float.of_Z 100) = true.

(** The integer reported for a percentage: [int(30 + (progress * 0.4))]. *)
Definition report (p : spec_float) : Z :=
  Binary64.trunc (Gui.scaled_progress p).

(** Non-decreasing sequences of floats and of integers. *)
Definition nondecreasing_floats (l : list spec_float) : Prop :=
  Sorted (fun p q => Float.leb p q = true) l.

Definition nondecreasing (l : list Z) : Prop := Sorted Z.le l.

Section PercentagesDefs.
Variable w : World.

(** The percentage read from a line, if the line has a percent sign and
    the token before it reads as a float. *)
Definition line_percent (line : string) : option spec_float :=
  if PyStr.contains "%" line then
    match py_float w (Gui.progress_str line) with
    | inr x => Some x
    | inl _ => None
    end
  else None.

(** The percentages read from the output, in order. *)
Definition output_percents (lines : list string) : list spec_float :=
  flat_map (fun line => match line_percent line with
                        | Some x => if PyStr.nonempty line then [x] else []
                        | None => []
                        end) lines.

End PercentagesDefs.

(** The payloads of the finished signals of a run. *)
Fixpoint finished_signals (t : list event) : list string :=
  match t with
  | [] => []
  | SigFinished s :: t' => s :: finished_signals t'
  | _ :: t' => finished_signals t'
  end.

Section ProgressDefs.
Variable w : World.
Variable self : Gui.DownloadWorker.

(** The progress values of the primary video fetch writing to [vf]. *)
Definition video_progress (vf : string) : list Z :=
  match subprocess_popen w (Gui.primary_video_cmd self vf) with
  | inr po => output_progress w (output_lines po)
  | inl _ => []
  end.

End ProgressDefs.

Definition half_way_line : string :=
  "[download]  50.0% of 10.00MiB at 1.00MiB/s ETA 00:05" ++ PyStr.nl.

(** ** The end of a run *)

(** The two signals that report the end of a run to the window. *)
Definition is_report (e : event) : bool :=
  match e with
  | SigError _ | SigFinished _ => true
  | _ => false
  end.

Definition reports (t : list event) : list event := filter is_report t.

(** The metadata fetch exits with 0 and its output parses, but to a value
    that counts as false. *)
Definition metadata_falsy (w : World) (url output_path : string) : Prop :=
  unresolved w = []
  /\ directory_ready w output_path
  /\ exists cp v,
       subprocess_run w (info_cmd url) = inr cp
       /\ returncode cp = 0
       /\ json_loads w (stdout cp) = inr v
       /\ truthy v = false.

(** The video stage got its file: the primary attempt exited with 0, or the
    fallback did after it. *)
Definition video_fetched (w : World) (self : Gui.DownloadWorker) (vf : string)
  : Prop :=
  exists po,
    subprocess_popen w (Gui.primary_video_cmd self vf) = inr po
    /\ (exit_status po = 0
        \/ exists cp,
             subprocess_run w (fallback_video_cmd vf (Gui.url self)) = inr cp
             /\ returncode cp = 0).

(** The audio command ran and exited with 0. *)
Definition audio_made (w : World) (self : Gui.DownloadWorker) (vf af : string)
  : Prop :=
  exists cp,
    subprocess_run w (audio_cmd self vf af) = inr cp /\ returncode cp = 0.

(** Every stage of the worker that was asked for succeeds. *)
Definition gui_success (w : World) (self : Gui.DownloadWorker) : Prop :=
  exists title,
    metadata_ok w (Gui.url self) (Gui.output_path self) title
    /\ (Gui.download_video self = true ->
        video_fetched w self (video_file self title))
    /\ (Gui.download_audio self = true ->
        audio_made w self (video_file self title) (audio_file self title)).

(** The directory part of an output path: the output directory, with a
    separator after it unless it is empty or ends with one. *)
Definition directory_prefix (output_path : string) : string :=
  if negb (PyStr.nonempty output_path) || endswith_sep output_path
  then output_path else output_path ++ "/".

(** A run that reports its end once, with its last event. *)
Definition reports_last (t : list event) (e : event) : Prop :=
  reports t = [e] /\ terminal t = Some e.

(** A run that completes: it ends with the three events of the completion
    and reports nothing before them. *)
Definition completes (self : Gui.DownloadWorker) (t : list event) : Prop :=
  exists t', t = (t' ++ completion self)%list /\ reports t' = [].

(** The title cannot be read from the metadata, or is not a string: the
    text of the exception. *)
Definition title_error (v : pyvalue) (e : string) : Prop :=
  py_get v "title" (VStr "video") = inl e
  \/ exists tv, py_get v "title" (VStr "video") = inr tv
                /\ sanitize_value tv = inl e.

(** ** The end of a call of the command line *)

(** A video attempt of the command line exited with 0: the primary one, or
    the fallback. *)
Definition cli_video_fetched (w : World) (url vf : string) : Prop :=
  exists cp1,
    subprocess_run w (Cli.primary_video_cmd vf url) = inr cp1
    /\ (returncode cp1 = 0
        \/ exists cp2,
             subprocess_run w (fallback_video_cmd vf url) = inr cp2
             /\ returncode cp2 = 0).

(** The transcoder ran on the video file and exited with 0. *)
Definition transcoded (w : World) (vf af : string) : Prop :=
  exists cp, subprocess_run w (ffmpeg_cmd vf af) = inr cp /\ returncode cp = 0.

(** Every step of the command line succeeds. *)
Definition cli_success (w : World) (url out : string) : Prop :=
  exists title,
    metadata_ok w url out title
    /\ cli_video_fetched w url (video_file_path out (sanitize_filename title))
    /\ transcoded w (video_file_path out (sanitize_filename title))
                    (audio_file_path out (sanitize_filename title)).

(** ** Further sample worlds *)

(** A world with another [json.loads], another [float], another
    [os.makedirs]. *)
Definition with_json (w : World) (loads : string -> string + pyvalue) : World :=
  {| which := which w; path_exists := path_exists w; makedirs := makedirs w;
     subprocess_run := subprocess_run w; subprocess_popen := subprocess_popen w;
     json_loads := loads; py_float := py_float w; abspath := abspath w |}.

Definition with_float (w : World) (float : string -> string + spec_float)
  : World :=
  {| which := which w; path_exists := path_exists w; makedirs := makedirs w;
     subprocess_run := subprocess_run w; subprocess_popen := subprocess_popen w;
     json_loads := json_loads w; py_float := float; abspath := abspath w |}.

Definition with_makedirs (w : World) (mk : string -> option string) : World :=
  {| which := which w; path_exists := path_exists w; makedirs := mk;
     subprocess_run := subprocess_run w; subprocess_popen := subprocess_popen w;
     json_loads := json_loads w; py_float := py_float w; abspath := abspath w |}.

(** The metadata is the empty JSON object. *)
Definition empty_info_world : World :=
  Sample.world Sample.both_tools
    (sample_engine (Sample.ok "{}") (Sample.ok "") (Sample.ok "") (Sample.ok ""))
    (sample_child [] 0).

(** The metadata is an object without a title. *)
Definition untitled_world : World :=
  with_json happy_world (fun _ => inr (VDict [("id", VStr "dQw4w9WgXcQ")])).

(** The metadata is an object whose title is a number. *)
Definition numeric_title_world : World :=
  with_json happy_world (fun _ => inr (VDict [("title", VInt 2024)])).

(** The output directory cannot be created. *)
Definition denied : string := "[Errno 13] Permission denied: 'downloads'".

Definition read_only_world : World :=
  with_makedirs happy_world (fun _ => Some denied).

(** The transcoder exits with an error. *)
Definition no_audio_stream : string :=
  "Output file #0 does not contain any stream".

Definition audio_broken_world : World :=
  Sample.world Sample.both_tools
    (sample_engine clip_info (Sample.ok "") (Sample.ok "")
       (Sample.failed 1 no_audio_stream))
    (sample_child two_stream_lines 0).

(** A worker that wants the audio only. *)
Definition audio_worker : Gui.DownloadWorker :=
  {| Gui.url := "https://www.youtube.com/watch?v=dQw4w9WgXcQ";
     Gui.output_path := "downloads";
     Gui.download_video := false;
     Gui.download_audio := true |}.

Definition sample_url : string := "https://www.youtube.com/watch?v=dQw4w9WgXcQ".

(** ** The window *)

(** The worker a form describes: the two texts stripped, the two boxes. *)
Definition worker_of (f : Gui.Form) : Gui.DownloadWorker :=
  {| Gui.url := PyStr.strip (Gui.url_text f);
     Gui.output_path := PyStr.strip (Gui.output_path_text f);
     Gui.download_video := Gui.mp4_checked f;
     Gui.download_audio := Gui.mp3_checked f |}.

(** The form passes the three checks of [start_download]. *)
Definition accepted (f : Gui.Form) : Prop :=
  PyStr.strip (Gui.url_text f) <> ""
  /\ PyStr.strip (Gui.output_path_text f) <> ""
  /\ (Gui.mp4_checked f = true \/ Gui.mp3_checked f = true).


(** The modal box a report leads to. *)
Definition box_of (e : event) : list Gui.window_effect :=
  match e with
  | SigError error_msg =>
      [Gui.BoxCritical "Error"
         ("Download failed:" ++ PyStr.nl ++ PyStr.nl ++ error_msg)]
  | SigFinished output_path =>
      [Gui.BoxInformation "Success"
         ("Download complete!" ++ PyStr.nl ++ "Saved to: " ++ output_path)]
  | _ => []
  end.

(** The modal boxes among the effects, and the values given to the
    progress bar. *)
Definition is_box (x : Gui.window_effect) : bool :=
  match x with
  | Gui.ProgressBarSetValue _ => false
  | _ => true
  end.

Definition boxes (fx : list Gui.window_effect) : list Gui.window_effect :=
  filter is_box fx.

(** What the progress signal hands to its slot for an emitted value: the
    value cut to a C int, or nothing when the call of [emit] raises. *)
Definition delivered (n : Z) : list Z :=
  match Gui.progress_signal n with
  | Some value => [value]
  | None => []
  end.

(** The range of a C int. *)
Definition fits_c_int (n : Z) : Prop := - 2 ^ 31 <= n < 2 ^ 31.

Fixpoint bar_values (fx : list Gui.window_effect) : list Z :=
  match fx with
  | [] => []
  | Gui.ProgressBarSetValue value :: fx' => value :: bar_values fx'
  | _ :: fx' => bar_values fx'
  end.

(** A form with a URL of white space only. *)
Definition blank_url_form : Gui.Form :=
  {| Gui.url_text := "   ";
     Gui.output_path_text := "downloads";
     Gui.mp4_checked := true;
     Gui.mp3_checked := true |}.

(** A form that passes the checks. *)
Definition sample_form : Gui.Form :=
  {| Gui.url_text := " https://www.youtube.com/watch?v=dQw4w9WgXcQ ";
     Gui.output_path_text := "downloads ";
     Gui.mp4_checked := true;
     Gui.mp3_checked := true |}.

(** A world whose [float] reads every token as a NaN. *)
Definition nan_world : World :=
  with_float happy_world (fun _ => inr S754_nan).

Definition nan_line : string :=
  "[download]   nan% of 10.00MiB at Unknown speed" ++ PyStr.nl.

(** * Properties *)

(** ** Properties of the filename sanitation *)

Section Sanitation.

Lemma is_invalid_In (c : ascii) : is_invalid c = true <-> In c invalid_chars.
Proof.
  unfold is_invalid. rewrite existsb_exists. split.
  - intros [x [Hx Heq]]. apply Ascii.eqb_eq in Heq. now subst.
  - intros H. exists c. split; [assumption | apply Ascii.eqb_refl].
Qed.

Lemma sanitize_filename_cons (c : ascii) (r : string) :
  sanitize_filename (String c r)
  = if is_invalid c then sanitize_filename r
    else String c (sanitize_filename r).
Proof. unfold sanitize_filename. simpl. now destruct (is_invalid c). Qed.

Lemma sanitize_filename_delete (title : string) :
  sanitize_filename title = delete_invalid title.
Proof.
  induction title as [| c r IH]; [reflexivity |].
  rewrite sanitize_filename_cons. unfold delete_invalid in *. simpl.
  destruct (is_invalid c); simpl; now rewrite IH.
Qed.

Lemma sanitize_filename_clean (title : string) (c : ascii) :
  In c (PyStr.chars (sanitize_filename title)) -> ~ In c invalid_chars.
Proof.
  rewrite sanitize_filename_delete. unfold delete_invalid, PyStr.chars.
  rewrite list_ascii_of_string_of_list_ascii, filter_In.
  intros [_ H] Hin. apply is_invalid_In in Hin. rewrite Hin in H. discriminate.
Qed.

(** A title without invalid characters is its own sanitized name. *)
Lemma sanitize_filename_id (title : string) :
  (forall c, In c (PyStr.chars title) -> ~ In c invalid_chars) ->
  sanitize_filename title = title.
Proof.
  induction title as [| c r IH]; intros H; [reflexivity |].
  rewrite sanitize_filename_cons.
  destruct (is_invalid c) eqn:E.
  - apply is_invalid_In in E. exfalso. apply (H c); [now left | assumption].
  - f_equal. apply IH. intros x Hx. apply H. now right.
Qed.

Lemma sanitize_filename_app (a b : string) :
  sanitize_filename (a ++ b) = sanitize_filename a ++ sanitize_filename b.
Proof.
  induction a as [| c r IH]; [reflexivity |].
  simpl. rewrite !sanitize_filename_cons, IH. now destruct (is_invalid c).
Qed.

Lemma sanitize_filename_all_invalid (title : string) :
  Forall (fun c => In c invalid_chars) (PyStr.chars title) ->
  sanitize_filename title = "".
Proof.
  induction title as [| c r IH]; intros H; [reflexivity |].
  inversion H as [| x l Hc Hr]; subst.
  rewrite sanitize_filename_cons.
  apply is_invalid_In in Hc. rewrite Hc. now apply IH.
Qed.

End Sanitation.

(** C4. For every title, the sanitized name is the title with every
    occurrence of the nine characters backslash, slash, star, question mark,
    colon, double quote, less-than, greater-than and vertical bar deleted
    and nothing put in their place: it contains none of them, every other
    character is kept in its place in the order, and the length drops by
    exactly the number of deleted characters. *)
Theorem sanitize_filename_spec (title : string) :
  sanitize_filename title = delete_invalid title
  /\ (forall c, In c (PyStr.chars (sanitize_filename title)) ->
                ~ In c invalid_chars)
  /\ filter (fun c => negb (is_invalid c)) (PyStr.chars (sanitize_filename title))
     = filter (fun c => negb (is_invalid c)) (PyStr.chars title)
  /\ (String.length (sanitize_filename title)
      + List.length (filter is_invalid (PyStr.chars title))
      = String.length title)%nat.
Proof.
  split; [apply sanitize_filename_delete |].
  split; [intros c; apply sanitize_filename_clean |].
  split.
  - rewrite sanitize_filename_delete. unfold delete_invalid, PyStr.chars.
    rewrite list_ascii_of_string_of_list_ascii.
    induction (list_ascii_of_string title) as [| c l IH]; [reflexivity |].
    simpl. destruct (is_invalid c) eqn:E; simpl; [assumption |].
    rewrite E. simpl. now rewrite IH.
  - induction title as [| c r IH]; [reflexivity |].
    rewrite sanitize_filename_cons. unfold PyStr.chars in *. simpl.
    destruct (is_invalid c); simpl; lia.
Qed.

Example sanitize_scenario_title :
  sanitize_filename scenario_title = "Test Video"
  /\ video_file_path "downloads" (sanitize_filename scenario_title)
     = "downloads/Test Video.mp4"
  /\ audio_file_path "downloads" (sanitize_filename scenario_title)
     = "downloads/Test Video.mp3".
Proof. repeat split. Qed.

(** C10. A title made only of invalid characters has the empty sanitized
    name, so the two output paths are the output directory joined with the
    bare extensions [.mp4] and [.mp3]; no other name is put in its place. *)
Theorem invalid_only_title_paths (title output_path : string) :
  Forall (fun c => In c invalid_chars) (PyStr.chars title) ->
  sanitize_filename title = ""
  /\ video_file_path output_path (sanitize_filename title)
     = os_path_join output_path ".mp4"
  /\ audio_file_path output_path (sanitize_filename title)
     = os_path_join output_path ".mp3"
  /\ (PyStr.nonempty output_path = true -> endswith_sep output_path = false ->
      video_file_path output_path (sanitize_filename title)
      = output_path ++ "/.mp4"
      /\ audio_file_path output_path (sanitize_filename title)
         = output_path ++ "/.mp3").
Proof.
  intros H. apply sanitize_filename_all_invalid in H. rewrite H.
  split; [reflexivity |]. split; [reflexivity |]. split; [reflexivity |].
  intros Hne Hsep. unfold video_file_path, audio_file_path, os_path_join.
  simpl. now rewrite Hne, Hsep.
Qed.

Lemma invalid_only_title_paths_witness :
  sanitize_filename "?:*|" = ""
  /\ video_file_path "downloads" (sanitize_filename "?:*|") = "downloads/.mp4"
  /\ audio_file_path "downloads" (sanitize_filename "?:*|") = "downloads/.mp3".
Proof.
  destruct (invalid_only_title_paths "?:*|" "downloads") as (H1 & H2 & H3 & H4).
  - repeat constructor; simpl; tauto.
  - split; [exact H1 |]. apply H4; reflexivity.
Defined.

(** ** Properties of the dependency probe *)

Lemma gui_check_dependencies_eq (w : World) (R : Type) :
  @Gui.check_dependencies w R = ([], Next (unresolved w)).
Proof.
  unfold Gui.check_dependencies, unresolved, required_tools. simpl.
  now destruct (resolves w "yt-dlp"), (resolves w "ffmpeg").
Qed.

Lemma cli_check_dependencies_eq (w : World) (R : Type) :
  @Cli.check_dependencies w R
  = match unresolved w with
    | [] => ([], Next true)
    | _ :: _ => (cli_missing_report (unresolved w), Next false)
    end.
Proof.
  unfold Cli.check_dependencies, unresolved, required_tools. simpl.
  now destruct (resolves w "yt-dlp"), (resolves w "ffmpeg").
Qed.

(** C9, as the code has it. The probe of the worker returns exactly the
    tools, among the download engine and the transcode engine, that do not
    resolve on the search path, the empty list when both resolve, and it
    does nothing else: it has no event, so it spawns no process. The probe
    of the command line is not such a query: it returns a boolean, true
    exactly when both tools resolve, and when a tool does not resolve it
    first prints three lines, the list of the missing tools and the hint
    that installs both; it prints nothing when both resolve, and it spawns
    no process. *)
Theorem check_dependencies_spec (w : World) :
  @Gui.check_dependencies w unit
  = ([], Next (filter (fun name => negb (resolves w name)) ["yt-dlp"; "ffmpeg"]))
  /\ (forall name, In name (unresolved w)
                   <-> In name ["yt-dlp"; "ffmpeg"] /\ resolves w name = false)
  /\ (unresolved w = [] <->
      resolves w "yt-dlp" = true /\ resolves w "ffmpeg" = true)
  /\ @Cli.check_dependencies w unit
     = match filter (fun name => negb (resolves w name)) ["yt-dlp"; "ffmpeg"]
       with
       | [] => ([], Next true)
       | (_ :: _) as missing =>
           ([Print ("Missing required dependencies: "
                    ++ PyStr.join ", " missing);
             Print (PyStr.nl
                    ++ "To install the dependencies on macOS using Homebrew:");
             Print "brew install yt-dlp ffmpeg"], Next false)
       end
  /\ (fst (@Cli.check_dependencies w unit) = [] <->
      resolves w "yt-dlp" = true /\ resolves w "ffmpeg" = true)
  /\ spawned (fst (@Cli.check_dependencies w unit)) = []
  /\ snd (@Cli.check_dependencies w unit)
     = Next (match unresolved w with [] => true | _ :: _ => false end).
Proof.
  assert (Hboth : unresolved w = [] <->
                  resolves w "yt-dlp" = true /\ resolves w "ffmpeg" = true).
  { unfold unresolved, required_tools. simpl.
    destruct (resolves w "yt-dlp"), (resolves w "ffmpeg"); simpl;
      split; intros H; try discriminate; try tauto;
      destruct H; discriminate. }
  split; [apply gui_check_dependencies_eq |].
  split.
  { intros name. unfold unresolved, required_tools. rewrite filter_In.
    now rewrite negb_true_iff. }
  split; [exact Hboth |].
  rewrite cli_check_dependencies_eq. rewrite <- Hboth.
  change (filter (fun name => negb (resolves w name)) ["yt-dlp"; "ffmpeg"])
    with (unresolved w).
  destruct (unresolved w) as [| d l]; repeat split; try reflexivity;
    discriminate.
Qed.

(** C9, as stated, fails for the probe of the command line. Where the
    transcode engine does not resolve, the probe of the worker returns the
    list that holds it, without an event; the probe of the command line
    returns false, not that list, and prints three lines before it does. *)
Lemma cli_check_dependencies_counterexample :
  @Gui.check_dependencies world_without_ffmpeg unit = ([], Next ["ffmpeg"])
  /\ @Cli.check_dependencies world_without_ffmpeg unit
     = ([Print "Missing required dependencies: ffmpeg";
         Print (PyStr.nl
                ++ "To install the dependencies on macOS using Homebrew:");
         Print "brew install yt-dlp ffmpeg"], Next false)
  /\ fst (@Cli.check_dependencies world_without_ffmpeg unit) <> [].
Proof.
  split; [reflexivity |]. split; [reflexivity |]. discriminate.
Qed.

(** ** Runs that stop at the dependency check *)

Lemma unresolved_cases (w : World) :
  unresolved w = [] \/ unresolved w = ["yt-dlp"] \/ unresolved w = ["ffmpeg"]
  \/ unresolved w = ["yt-dlp"; "ffmpeg"].
Proof.
  unfold unresolved, required_tools. simpl.
  destruct (resolves w "yt-dlp"), (resolves w "ffmpeg"); simpl; tauto.
Qed.

Lemma gui_run_missing (w : World) (self : Gui.DownloadWorker) :
  unresolved w <> [] ->
  Gui.run w self = [SigError (Gui.missing_message (unresolved w))].
Proof.
  intros H. unfold Gui.run, Gui.run_body.
  rewrite gui_check_dependencies_eq.
  destruct (unresolved w) as [| d l]; [contradiction | reflexivity].
Qed.

Lemma cli_download_video_missing (w : World) (url output_path : string) :
  unresolved w <> [] ->
  Cli.download_video w url output_path
  = (cli_missing_report (unresolved w), Some false).
Proof.
  intros H. unfold Cli.download_video, Cli.download_video_body.
  rewrite cli_check_dependencies_eq.
  destruct (unresolved w) as [| d l]; [contradiction | reflexivity].
Qed.

(** C3. When the probe reports a missing engine, the run of the worker is
    the one error that lists the missing tools, and the call of the command
    line prints that list and returns false; in both, no process is spawned,
    for metadata, video or audio. *)
Theorem missing_dependencies_halt
    (w : World) (self : Gui.DownloadWorker) (missing : list string) :
  snd (@Gui.check_dependencies w unit) = Next missing ->
  missing <> [] ->
  Gui.run w self = [SigError (Gui.missing_message missing)]
  /\ spawned (Gui.run w self) = []
  /\ (forall name, In name missing ->
        PyStr.infix name (Gui.missing_message missing) = true)
  /\ Cli.download_video w (Gui.url self) (Gui.output_path self)
     = (cli_missing_report missing, Some false)
  /\ spawned (fst (Cli.download_video w (Gui.url self) (Gui.output_path self)))
     = [].
Proof.
  rewrite gui_check_dependencies_eq. simpl. intros E Hne.
  injection E as <-.
  rewrite (gui_run_missing w self Hne).
  rewrite (cli_download_video_missing w _ _ Hne).
  repeat split.
  intros name Hin.
  destruct (unresolved_cases w) as [H | [H | [H | H]]];
    rewrite H in *; simpl in Hin;
    repeat (destruct Hin as [<- | Hin]; [reflexivity |]); contradiction.
Qed.

Lemma missing_dependencies_halt_witness :
  Gui.run world_without_ffmpeg sample_worker
  = [SigError (Gui.missing_message ["ffmpeg"])]
  /\ spawned (Gui.run world_without_ffmpeg sample_worker) = [].
Proof.
  destruct (missing_dependencies_halt world_without_ffmpeg sample_worker ["ffmpeg"])
    as (H1 & H2 & _).
  - reflexivity.
  - discriminate.
  - split; [exact H1 | exact H2].
Defined.

(** ** The stages of the worker's run *)

Lemma spawned_app (a b : list event) :
  spawned (a ++ b) = (spawned a ++ spawned b)%list.
Proof.
  induction a as [| e a IH]; [reflexivity |].
  destruct e; simpl; now rewrite IH.
Qed.

Lemma progress_values_app (a b : list event) :
  progress_values (a ++ b) = (progress_values a ++ progress_values b)%list.
Proof.
  induction a as [| e a IH]; [reflexivity |].
  destruct e; simpl; now rewrite IH.
Qed.

Lemma logged_app (a b : list event) :
  logged (a ++ b) = (logged a ++ logged b)%list.
Proof.
  induction a as [| e a IH]; [reflexivity |].
  destruct e; simpl; now rewrite IH.
Qed.

Lemma terminal_app_last (a : list event) (e : event) :
  terminal (a ++ [e]) = Some e.
Proof. unfold terminal. now rewrite rev_app_distr. Qed.

Lemma terminal_app (a b : list event) :
  b <> [] -> terminal (a ++ b) = terminal b.
Proof.
  intros H. unfold terminal. rewrite rev_app_distr.
  destruct (rev b) eqn:E; [| reflexivity].
  apply (f_equal (@rev event)) in E. rewrite rev_involutive in E. contradiction.
Qed.

Lemma ensure_directory_ready (w : World) (p : string) (R : Type) :
  directory_ready w p ->
  @ensure_directory R w p = (directory_events w p, Next tt).
Proof.
  unfold directory_ready, ensure_directory, directory_events.
  intros [H | H].
  - now rewrite H.
  - destruct (path_exists w p); [reflexivity |]. simpl. now rewrite H.
Qed.

Lemma spawned_directory_events (w : World) (p : string) :
  spawned (directory_events w p) = [].
Proof. unfold directory_events. now destruct (path_exists w p). Qed.

Lemma progress_directory_events (w : World) (p : string) :
  progress_values (directory_events w p) = [].
Proof. unfold directory_events. now destruct (path_exists w p). Qed.

Section GuiStages.
Variable w : World.
Variable self : Gui.DownloadWorker.

Let url := Gui.url self.
Let out := Gui.output_path self.

Lemma get_video_info_raised (R : Type) (e : string) :
  subprocess_run w (info_cmd url) = inl e ->
  @Gui.get_video_info w self R
  = (info_request self ++ [SigError ("Error while getting video info: " ++ e)],
     Next VNone)%list.
Proof.
  intros H. unfold Gui.get_video_info, run_process. simpl.
  fold url. now rewrite H.
Qed.

Lemma get_video_info_nonzero (R : Type) (cp : CompletedProcess) :
  subprocess_run w (info_cmd url) = inr cp ->
  returncode cp <> 0 ->
  @Gui.get_video_info w self R
  = (info_request self
     ++ [SigError ("Error getting video info: " ++ info_diagnostic cp)],
     Next VNone)%list.
Proof.
  intros H1 H2. unfold Gui.get_video_info, run_process. simpl.
  fold url. rewrite H1. simpl.
  apply Z.eqb_neq in H2. now rewrite H2.
Qed.

Lemma get_video_info_unparsable (R : Type) (cp : CompletedProcess) (e : string) :
  subprocess_run w (info_cmd url) = inr cp ->
  returncode cp = 0 ->
  json_loads w (stdout cp) = inl e ->
  @Gui.get_video_info w self R
  = (info_request self ++ [SigError ("Error while getting video info: " ++ e)],
     Next VNone)%list.
Proof.
  intros H1 H2 H3. unfold Gui.get_video_info, run_process. simpl.
  fold url. rewrite H1. simpl. rewrite H2. simpl. now rewrite H3.
Qed.

Lemma get_video_info_parsed (R : Type) (cp : CompletedProcess) (v : pyvalue) :
  subprocess_run w (info_cmd url) = inr cp ->
  returncode cp = 0 ->
  json_loads w (stdout cp) = inr v ->
  @Gui.get_video_info w self R
  = (info_request self ++ [SigProgress 20], Next v)%list.
Proof.
  intros H1 H2 H3. unfold Gui.get_video_info, run_process. simpl.
  fold url. rewrite H1. simpl. rewrite H2. simpl. now rewrite H3.
Qed.

(** The run up to the metadata fetch, when it does not succeed. *)
Lemma run_metadata_failed (t : list event) :
  unresolved w = [] ->
  directory_ready w out ->
  @Gui.get_video_info w self unit = (t, Next VNone) ->
  Gui.run w self = (directory_events w out ++ t)%list.
Proof.
  intros H0 Hd H. unfold Gui.run, Gui.run_body.
  rewrite gui_check_dependencies_eq, H0.
  fold out. rewrite (ensure_directory_ready _ _ _ Hd), H.
  simpl. now rewrite app_nil_r.
Qed.

End GuiStages.

(** ** The output of the video engine *)

Section Output.
Variable w : World.

Lemma report_line_eq (R : Type) (line : string) :
  @Gui.report_line w R line = (line_events w line, Next tt).
Proof.
  unfold Gui.report_line, line_events, line_progress.
  destruct (PyStr.contains "%" line); [| reflexivity].
  simpl. destruct (py_float w (Gui.progress_str line)) as [e | x]; [reflexivity |].
  simpl. now destruct (Float.to_int (Gui.scaled_progress x)).
Qed.

Lemma read_output_eq (R : Type) (lines : list string) :
  @Gui.read_output w R lines = (output_events w lines, Next tt).
Proof.
  induction lines as [| line rest IH]; [reflexivity |].
  simpl. rewrite IH. destruct (PyStr.nonempty line).
  - now rewrite report_line_eq.
  - reflexivity.
Qed.

Lemma spawned_output_events (lines : list string) :
  spawned (output_events w lines) = [].
Proof.
  induction lines as [| line rest IH]; [reflexivity |].
  unfold output_events in *. simpl. rewrite spawned_app, IH.
  destruct (PyStr.nonempty line); [| reflexivity].
  unfold line_events. now destruct (line_progress w line).
Qed.

Lemma progress_output_events (lines : list string) :
  progress_values (output_events w lines) = output_progress w lines.
Proof.
  induction lines as [| line rest IH]; [reflexivity |].
  unfold output_events, output_progress in *. simpl.
  rewrite progress_values_app, IH. f_equal.
  destruct (PyStr.nonempty line); unfold line_events;
    now destruct (line_progress w line).
Qed.

Lemma logged_output_events (lines : list string) :
  logged (output_events w lines)
  = map PyStr.strip (filter PyStr.nonempty lines).
Proof.
  induction lines as [| line rest IH]; [reflexivity |].
  unfold output_events in *. simpl. rewrite logged_app, IH.
  destruct (PyStr.nonempty line); [| reflexivity].
  unfold line_events. now destruct (line_progress w line).
Qed.

End Output.

(** ** The video and audio stages of the worker *)

Section GuiMedia.
Variable w : World.
Variable self : Gui.DownloadWorker.
Variables video_file audio_file : string.

Let url := Gui.url self.

Lemma fetch_video_popen_raised (e : string) :
  subprocess_popen w (Gui.primary_video_cmd self video_file) = inl e ->
  Gui.fetch_video w self video_file = (video_request self video_file, Raise e).
Proof.
  intros H. unfold Gui.fetch_video, popen. simpl. now rewrite H.
Qed.

Lemma fetch_video_primary_ok (po : PopenRun) :
  subprocess_popen w (Gui.primary_video_cmd self video_file) = inr po ->
  exit_status po = 0 ->
  Gui.fetch_video w self video_file
  = (video_request self video_file ++ output_events w (output_lines po)
     ++ [SigLog "MP4 download complete!"], Next tt)%list.
Proof.
  intros H1 H2. unfold Gui.fetch_video, popen. simpl. rewrite H1. simpl.
  rewrite read_output_eq, H2. simpl.
  rewrite ?app_nil_r, <- ?app_assoc. reflexivity.
Qed.

Lemma fetch_video_fallback_raised (po : PopenRun) (e : string) :
  subprocess_popen w (Gui.primary_video_cmd self video_file) = inr po ->
  exit_status po <> 0 ->
  subprocess_run w (fallback_video_cmd video_file url) = inl e ->
  Gui.fetch_video w self video_file
  = (video_request self video_file ++ output_events w (output_lines po) ++ fallback_request self video_file,
     Raise e)%list.
Proof.
  intros H1 H2 H3. unfold Gui.fetch_video, popen, run_process. simpl.
  rewrite H1. simpl. rewrite read_output_eq.
  apply Z.eqb_neq in H2. rewrite H2. simpl. fold url. rewrite H3. simpl.
  rewrite ?app_nil_r, <- ?app_assoc. reflexivity.
Qed.

Lemma fetch_video_fallback_ok (po : PopenRun) (cp : CompletedProcess) :
  subprocess_popen w (Gui.primary_video_cmd self video_file) = inr po ->
  exit_status po <> 0 ->
  subprocess_run w (fallback_video_cmd video_file url) = inr cp ->
  returncode cp = 0 ->
  Gui.fetch_video w self video_file
  = (video_request self video_file ++ output_events w (output_lines po) ++ fallback_request self video_file
     ++ [SigLog "MP4 download complete!"], Next tt)%list.
Proof.
  intros H1 H2 H3 H4. unfold Gui.fetch_video, popen, run_process. simpl.
  rewrite H1. simpl. rewrite read_output_eq.
  apply Z.eqb_neq in H2. rewrite H2. simpl. fold url. rewrite H3. simpl.
  rewrite H4. simpl. rewrite ?app_nil_r, <- ?app_assoc. reflexivity.
Qed.

Lemma fetch_video_fallback_failed (po : PopenRun) (cp : CompletedProcess) :
  subprocess_popen w (Gui.primary_video_cmd self video_file) = inr po ->
  exit_status po <> 0 ->
  subprocess_run w (fallback_video_cmd video_file url) = inr cp ->
  returncode cp <> 0 ->
  Gui.fetch_video w self video_file
  = (video_request self video_file ++ output_events w (output_lines po) ++ fallback_request self video_file
     ++ [SigError ("Error downloading video: " ++ stderr cp)], Return tt)%list.
Proof.
  intros H1 H2 H3 H4. unfold Gui.fetch_video, popen, run_process. simpl.
  rewrite H1. simpl. rewrite read_output_eq.
  apply Z.eqb_neq in H2. rewrite H2. simpl. fold url. rewrite H3. simpl.
  apply Z.eqb_neq in H4. rewrite H4. simpl. rewrite ?app_nil_r, <- ?app_assoc. reflexivity.
Qed.

Lemma fetch_audio_eq :
  Gui.fetch_audio w self video_file audio_file
  = match subprocess_run w (audio_cmd self video_file audio_file) with
    | inl e => (audio_request self video_file audio_file, Raise e)
    | inr cp =>
        if returncode cp =? 0
        then (audio_request self video_file audio_file ++ [SigLog "MP3 extraction complete!"], Next tt)%list
        else (audio_request self video_file audio_file ++ [audio_error self (stderr cp)], Return tt)%list
    end.
Proof.
  unfold Gui.fetch_audio, audio_request, audio_error, audio_cmd, run_process.
  destruct (Gui.download_video self); simpl;
    match goal with
    | |- context [subprocess_run w ?c] => destruct (subprocess_run w c) as [e | cp]
    end; simpl; try reflexivity;
    now destruct (returncode cp =? 0).
Qed.

End GuiMedia.

(** ** The worker's run after a successful metadata fetch *)

Section GuiRun.
Variable w : World.
Variable self : Gui.DownloadWorker.
Variable title : string.

Let url := Gui.url self.
Let out := Gui.output_path self.

Lemma try_except_prefix (R A : Type) (t : list event) (m : M R A)
    (h : string -> M R A) :
  fst (try_except (let (t', f) := m in ((t ++ t')%list, f)) h)
  = (t ++ fst (try_except m h))%list.
Proof.
  destruct m as [t' [a | r | e]]; simpl; try reflexivity.
  destruct (h e) as [t'' f]. simpl. now rewrite app_assoc.
Qed.

Lemma run_after_metadata :
  metadata_ok w url out title ->
  Gui.run w self = (prelude w self title ++ fst (try_except (media_stages w self title) run_handler))%list.
Proof.
  intros (H0 & Hd & cp & v & Hrun & Hrc & Hjson & Htruthy & Hget).
  unfold Gui.run, Gui.run_body.
  rewrite gui_check_dependencies_eq, H0.
  fold out. rewrite (ensure_directory_ready _ _ _ Hd).
  rewrite (get_video_info_parsed w self unit cp v Hrun Hrc Hjson).
  cbn [bind pass ret app]. rewrite Htruthy. cbn [negb bind pass ret lift app].
  rewrite Hget. cbn [bind pass ret lift app sanitize_value emit].
  match goal with
  | |- context [let (t', f) := ?m in (SigStatus _ :: t', f)] =>
      change m with (media_stages w self title)
  end.
  change (fun e : string => emit (SigError ("Error: " ++ e))) with run_handler.
  unfold prelude. fold out.
  destruct (media_stages w self title) as [t [a | r | e]]; simpl;
    rewrite <- ?app_assoc; simpl; reflexivity.
Qed.

End GuiRun.

(** ** The processes of a run, in general *)

Lemma fst_bind (R A B : Type) (m : M R A) (k : A -> M R B) :
  fst (bind m k)
  = (fst m ++ match snd m with Next a => fst (k a) | _ => [] end)%list.
Proof.
  destruct m as [t [a | r | e]]; simpl; rewrite ?app_nil_r; try reflexivity.
  now destruct (k a).
Qed.

Lemma snd_bind (R A B : Type) (m : M R A) (k : A -> M R B) :
  snd (bind m k)
  = match snd m with
    | Next a => snd (k a)
    | Return r => Return r
    | Raise e => Raise e
    end.
Proof.
  destruct m as [t [a | r | e]]; simpl; try reflexivity.
  now destruct (k a).
Qed.

Lemma fst_try_except (R A : Type) (m : M R A) (h : string -> M R A) :
  fst (try_except m h)
  = (fst m ++ match snd m with Raise e => fst (h e) | _ => [] end)%list.
Proof.
  destruct m as [t [a | r | e]]; simpl; rewrite ?app_nil_r; try reflexivity.
  now destruct (h e).
Qed.

Lemma bind_pure (R A B : Type) (a : A) (k : A -> M R B) :
  bind ([], Next a) k = k a.
Proof. simpl. now destruct (k a). Qed.

Ltac step :=
  cbn beta iota delta [fst snd pass ret return_ raise lift emit spawned app];
  repeat (rewrite ?fst_bind, ?snd_bind, ?spawned_app);
  cbn beta iota delta [fst snd pass ret return_ raise lift emit spawned app].

Lemma spawned_ensure_directory (w : World) (p : string) (R : Type) :
  spawned (fst (@ensure_directory R w p)) = [].
Proof.
  unfold ensure_directory. destruct (path_exists w p); simpl; [reflexivity |].
  now destruct (makedirs w p).
Qed.

Lemma spawned_get_video_info (w : World) (self : Gui.DownloadWorker) (R : Type) :
  spawned (fst (@Gui.get_video_info w self R)) = [info_cmd (Gui.url self)].
Proof.
  unfold Gui.get_video_info, run_process. simpl.
  destruct (subprocess_run w (info_cmd (Gui.url self))) as [e | cp]; simpl;
    [reflexivity |].
  destruct (returncode cp =? 0); simpl; [| reflexivity].
  destruct (json_loads w (stdout cp)); reflexivity.
Qed.

Lemma spawned_fetch_video (w : World) (self : Gui.DownloadWorker) (vf : string) :
  spawned (fst (Gui.fetch_video w self vf)) = [Gui.primary_video_cmd self vf]
  \/ spawned (fst (Gui.fetch_video w self vf))
     = [Gui.primary_video_cmd self vf; fallback_video_cmd vf (Gui.url self)].
Proof.
  unfold Gui.fetch_video, popen, run_process. simpl.
  destruct (subprocess_popen w _) as [e | po]; simpl; [now left |].
  rewrite read_output_eq.
  destruct (exit_status po =? 0); simpl.
  - left. rewrite spawned_app, spawned_output_events. reflexivity.
  - right. destruct (subprocess_run w _) as [e | cp]; simpl.
    + rewrite spawned_app, spawned_output_events. reflexivity.
    + destruct (returncode cp =? 0); simpl;
        rewrite spawned_app, spawned_output_events; reflexivity.
Qed.

Lemma spawned_fetch_audio (w : World) (self : Gui.DownloadWorker) (vf af : string) :
  spawned (fst (Gui.fetch_audio w self vf af)) = [audio_cmd self vf af].
Proof.
  rewrite fetch_audio_eq.
  destruct (subprocess_run w _) as [e | cp]; [reflexivity |].
  now destruct (returncode cp =? 0).
Qed.

(** The processes of any run of the worker, in any world: the metadata
    fetch, then the primary video fetch, then its fallback, then the audio
    command, each at most once, and a later one only after the earlier ones
    of its leg. *)
Lemma gui_run_spawned (w : World) (self : Gui.DownloadWorker) :
  exists vf af,
    let i := info_cmd (Gui.url self) in
    let p := Gui.primary_video_cmd self vf in
    let f := fallback_video_cmd vf (Gui.url self) in
    let a := audio_cmd self vf af in
    In (spawned (Gui.run w self))
       [ []; [i]; [i; p]; [i; p; f]; [i; p; a]; [i; p; f; a]; [i; a] ].
Proof.
  unfold Gui.run, Gui.run_body.
  rewrite gui_check_dependencies_eq, bind_pure.
  destruct (unresolved w) as [| d l].
  2:{ exists "", "". simpl. auto. }
  unfold pass, ret. rewrite bind_pure.
  rewrite fst_try_except.
  step. rewrite spawned_ensure_directory.
  destruct (snd (ensure_directory w (Gui.output_path self))) as [[] | r | e].
  2:{ exists "", "". simpl. auto. }
  2:{ exists "", "". simpl. auto. }
  step. rewrite spawned_get_video_info.
  destruct (snd (Gui.get_video_info w self)) as [v | r | e].
  2:{ exists "", "". simpl. auto. }
  2:{ exists "", "". simpl. auto. }
  step. destruct (truthy v); cbn [negb].
  2:{ exists "", "". simpl. auto. }
  step.
  destruct (py_get v "title" (VStr "video")) as [e | tv]; step.
  { exists "", "". simpl. auto. }
  destruct (sanitize_value tv) as [e | st]; step.
  { exists "", "". simpl. auto. }
  exists (video_file_path (Gui.output_path self) st),
         (audio_file_path (Gui.output_path self) st).
  set (vf := video_file_path (Gui.output_path self) st).
  set (af := audio_file_path (Gui.output_path self) st).
  assert (Ha : forall R A (m : M R A),
             spawned match snd m with
                     | Next _ => [SigProgress 100; SigStatus "Download complete!";
                                  SigFinished (Gui.output_path self)]
                     | _ => []
                     end = []).
  { intros R A m. now destruct (snd m). }
  assert (Hh : forall f : flow unit unit,
             spawned match f with
                     | Raise e => [SigError ("Error: " ++ e)]
                     | _ => []
                     end = []).
  { intros f. now destruct f. }
  rewrite Hh, app_nil_r.
  destruct (Gui.download_video self) eqn:Edv; step.
  - destruct (snd (Gui.fetch_video w self vf)) as [[] | r | e];
      [destruct (Gui.download_audio self) |..]; step;
      rewrite ?Ha, ?spawned_fetch_audio, ?app_nil_r;
      destruct (spawned_fetch_video w self vf) as [-> | ->]; simpl; auto 10.
  - destruct (Gui.download_audio self); step;
      rewrite ?Ha, ?spawned_fetch_audio, ?app_nil_r; simpl; auto 10.
Qed.


(** ** Runs of the worker, stage by stage *)

Section GuiOutcomes.
Variable w : World.
Variable self : Gui.DownloadWorker.
Variable title : string.

Let url := Gui.url self.
Let out := Gui.output_path self.
Let vf := video_file self title.
Let af := audio_file self title.

Hypothesis Hmeta : metadata_ok w url out title.

(** Neither format is wanted: the run goes straight to its completion. *)
Lemma run_no_format :
  Gui.download_video self = false ->
  Gui.download_audio self = false ->
  Gui.run w self = (prelude w self title ++ completion self)%list.
Proof.
  intros Hv Ha. rewrite (run_after_metadata w self title Hmeta).
  unfold media_stages. now rewrite Hv, Ha.
Qed.

(** Both video attempts exit with an error: the run ends there. *)
Lemma run_video_failed (po : PopenRun) (cp : CompletedProcess) :
  Gui.download_video self = true ->
  subprocess_popen w (Gui.primary_video_cmd self vf) = inr po ->
  exit_status po <> 0 ->
  subprocess_run w (fallback_video_cmd vf url) = inr cp ->
  returncode cp <> 0 ->
  Gui.run w self
  = (prelude w self title ++ video_request self vf
     ++ output_events w (output_lines po) ++ fallback_request self vf
     ++ [SigError ("Error downloading video: " ++ stderr cp)])%list.
Proof.
  intros Hv H1 H2 H3 H4. rewrite (run_after_metadata w self title Hmeta).
  unfold media_stages. rewrite Hv. fold vf.
  rewrite (fetch_video_fallback_failed w self vf po cp H1 H2 H3 H4).
  reflexivity.
Qed.


End GuiOutcomes.


(** ** Sample runs *)

Lemma happy_metadata_ok (self : Gui.DownloadWorker) :
  metadata_ok happy_world (Gui.url self) (Gui.output_path self) "Clip".
Proof.
  split; [reflexivity |]. split; [now right |].
  eexists; eexists. repeat split; reflexivity.
Defined.

Lemma video_broken_metadata_ok (self : Gui.DownloadWorker) :
  metadata_ok video_broken_world (Gui.url self) (Gui.output_path self) "Clip".
Proof.
  split; [reflexivity |]. split; [now right |].
  eexists; eexists. repeat split; reflexivity.
Defined.

(** ** Calls of the command line, stage by stage *)

Section CliOutcomes.
Variable w : World.
Variables url out title : string.

Let vf := video_file_path out (sanitize_filename title).
Let af := audio_file_path out (sanitize_filename title).

Lemma cli_get_video_info_parsed (R : Type) (cp : CompletedProcess) (v : pyvalue) :
  subprocess_run w (info_cmd url) = inr cp ->
  returncode cp = 0 ->
  json_loads w (stdout cp) = inr v ->
  @Cli.get_video_info w R url = ([Spawn (info_cmd url)], Next v).
Proof.
  intros H1 H2 H3. unfold Cli.get_video_info, run_process. simpl.
  rewrite H1. simpl. rewrite H2. simpl. now rewrite H3.
Qed.

(** The metadata fetch fails: the diagnostic is printed, then the call
    gives up. The diagnostic is the engine's standard error after an exit
    with an error, the parser's text after output that does not parse. *)
Lemma cli_metadata_failed (cp : CompletedProcess) :
  unresolved w = [] ->
  directory_ready w out ->
  subprocess_run w (info_cmd url) = inr cp ->
  (returncode cp <> 0 ->
   Cli.download_video w url out
   = (directory_events w out
      ++ [Print "Getting video information..."; Spawn (info_cmd url);
          Print ("Error getting video info: " ++ stderr cp);
          Print "Failed to get video information"], Some false)%list)
  /\ (forall e,
        returncode cp = 0 ->
        json_loads w (stdout cp) = inl e ->
        Cli.download_video w url out
        = (directory_events w out
           ++ [Print "Getting video information..."; Spawn (info_cmd url);
               Print ("Error while getting video info: " ++ e);
               Print "Failed to get video information"], Some false)%list).
Proof.
  intros H0 Hd Hrun.
  assert (Hstart : forall t,
             @Cli.get_video_info w bool url = (t, Next VNone) ->
             Cli.download_video w url out
             = (directory_events w out
                ++ Print "Getting video information..." :: t
                ++ [Print "Failed to get video information"], Some false)%list).
  { intros t Ht. unfold Cli.download_video, Cli.download_video_body.
    rewrite cli_check_dependencies_eq, H0.
    rewrite bind_pure. cbn [negb]. unfold pass at 1, ret at 1.
    rewrite bind_pure, (ensure_directory_ready _ _ _ Hd), Ht.
    cbn [bind pass ret app emit truthy negb return_ try_except].
    rewrite <- ?app_assoc. cbn [app]. rewrite ?app_nil_r. reflexivity. }
  split.
  - intros Hrc. apply (Hstart [Spawn (info_cmd url);
                               Print ("Error getting video info: " ++ stderr cp)]).
    unfold Cli.get_video_info, run_process. simpl. rewrite Hrun. simpl.
    apply Z.eqb_neq in Hrc. now rewrite Hrc.
  - intros e Hrc Hj.
    apply (Hstart [Spawn (info_cmd url);
                   Print ("Error while getting video info: " ++ e)]).
    unfold Cli.get_video_info, run_process. simpl. rewrite Hrun. simpl.
    rewrite Hrc. simpl. now rewrite Hj.
Qed.

(** Both video attempts exit with an error: the call gives up there. *)
Lemma cli_video_failed (cp1 cp2 : CompletedProcess) :
  metadata_ok w url out title ->
  subprocess_run w (Cli.primary_video_cmd vf url) = inr cp1 ->
  returncode cp1 <> 0 ->
  subprocess_run w (fallback_video_cmd vf url) = inr cp2 ->
  returncode cp2 <> 0 ->
  Cli.download_video w url out
  = (cli_prelude w url out title
     ++ [Print ("Error downloading video: " ++ stderr cp1);
         Spawn (fallback_video_cmd vf url);
         Print ("Error downloading video (second attempt): " ++ stderr cp2)],
     Some false)%list.
Proof.
  intros (H0 & Hd & cp & v & Hrun & Hrc & Hjson & Htruthy & Hget) H1 H2 H3 H4.
  unfold Cli.download_video, Cli.download_video_body.
  rewrite cli_check_dependencies_eq, H0.
  rewrite bind_pure. cbn [negb]. unfold pass at 1, ret at 1. rewrite bind_pure.
  rewrite (ensure_directory_ready _ _ _ Hd).
  rewrite (cli_get_video_info_parsed bool cp v Hrun Hrc Hjson).
  unfold run_process.
  cbn [bind pass ret app emit]. rewrite Htruthy.
  cbn [negb bind pass ret lift app].
  rewrite Hget. cbn [bind pass ret lift app sanitize_value emit].
  fold vf af. rewrite H1. cbn [bind pass ret lift app emit].
  apply Z.eqb_neq in H2. rewrite H2. cbn [negb bind pass ret lift app emit].
  rewrite H3. cbn [bind pass ret lift app emit].
  apply Z.eqb_neq in H4. rewrite H4.
  cbn [negb bind pass ret lift app emit return_ try_except].
  unfold cli_prelude. fold vf. rewrite <- ?app_assoc. cbn [app].
  rewrite ?app_nil_r. reflexivity.
Qed.

Lemma cli_video_failed_spawned (cp1 cp2 : CompletedProcess) :
  metadata_ok w url out title ->
  subprocess_run w (Cli.primary_video_cmd vf url) = inr cp1 ->
  returncode cp1 <> 0 ->
  subprocess_run w (fallback_video_cmd vf url) = inr cp2 ->
  returncode cp2 <> 0 ->
  snd (Cli.download_video w url out) = Some false
  /\ terminal (fst (Cli.download_video w url out))
     = Some (Print ("Error downloading video (second attempt): " ++ stderr cp2))
  /\ spawned (fst (Cli.download_video w url out))
     = [info_cmd url; Cli.primary_video_cmd vf url; fallback_video_cmd vf url].
Proof.
  intros Hm H1 H2 H3 H4. rewrite (cli_video_failed cp1 cp2 Hm H1 H2 H3 H4).
  cbn [fst snd]. split; [reflexivity |]. split.
  - apply terminal_app. discriminate.
  - unfold cli_prelude. rewrite !spawned_app, spawned_directory_events.
    reflexivity.
Qed.

End CliOutcomes.

Section CliGeneral.
Variable w : World.
Variables url out : string.

Lemma fst_download_video :
  fst (Cli.download_video w url out) = fst (Cli.download_video_body w url out).
Proof.
  unfold Cli.download_video. now destruct (Cli.download_video_body w url out).
Qed.

Lemma spawned_cli_get_video_info (R : Type) :
  spawned (fst (@Cli.get_video_info w R url)) = [info_cmd url].
Proof.
  unfold Cli.get_video_info, run_process. simpl.
  destruct (subprocess_run w (info_cmd url)) as [e | cp]; simpl; [reflexivity |].
  destruct (returncode cp =? 0); simpl; [| reflexivity].
  destruct (json_loads w (stdout cp)); reflexivity.
Qed.

(** The processes of any call of the command line, in any world: the
    metadata fetch, the primary video fetch, its fallback, the transcoder,
    each at most once and in this order. *)
Lemma cli_spawned :
  exists vf af,
    let i := info_cmd url in
    let p := Cli.primary_video_cmd vf url in
    let f := fallback_video_cmd vf url in
    let a := ffmpeg_cmd vf af in
    In (spawned (fst (Cli.download_video w url out)))
       [ []; [i]; [i; p]; [i; p; f]; [i; p; a]; [i; p; f; a] ].
Proof.
  rewrite fst_download_video. unfold Cli.download_video_body.
  rewrite cli_check_dependencies_eq.
  destruct (unresolved w) as [| d l].
  2:{ exists "", "". simpl. auto. }
  rewrite bind_pure. cbn [negb]. unfold pass at 1, ret at 1. rewrite bind_pure.
  rewrite fst_try_except. step.
  rewrite spawned_ensure_directory.
  destruct (snd (ensure_directory w out)) as [[] | r | e]; step.
  2:{ exists "", "". simpl. auto. }
  2:{ exists "", "". simpl. auto. }
  rewrite spawned_cli_get_video_info.
  destruct (snd (Cli.get_video_info w url)) as [v | r | e]; step.
  2:{ exists "", "". simpl. auto. }
  2:{ exists "", "". simpl. auto. }
  destruct (truthy v); cbn [negb]; step.
  2:{ exists "", "". simpl. auto. }
  destruct (py_get v "title" (VStr "video")) as [e | tv]; step.
  { exists "", "". simpl. auto. }
  destruct (sanitize_value tv) as [e | st]; step.
  { exists "", "". simpl. auto. }
  exists (video_file_path out st), (audio_file_path out st).
  unfold run_process. step.
  destruct (subprocess_run w (Cli.primary_video_cmd _ url)) as [e | cp1]; step.
  { simpl. auto 10. }
  destruct (returncode cp1 =? 0); cbn [negb]; step.
  - destruct (subprocess_run w (ffmpeg_cmd _ _)) as [e | cp3]; step;
      [simpl; auto 10 |].
    destruct (returncode cp3 =? 0); cbn [negb]; step; simpl; auto 10.
  - destruct (subprocess_run w (fallback_video_cmd _ url)) as [e | cp2]; step;
      [simpl; auto 10 |].
    destruct (returncode cp2 =? 0); cbn [negb]; step; [| simpl; auto 10].
    destruct (subprocess_run w (ffmpeg_cmd _ _)) as [e | cp3]; step;
      [simpl; auto 10 |].
    destruct (returncode cp3 =? 0); cbn [negb]; step; simpl; auto 10.
Qed.


End CliGeneral.

(** ** Requests that want neither format *)

(** C1, as the code has it. A request that wants neither video nor audio is
    rejected by the form: [start_download] shows an error and starts no
    worker, so nothing of the pipeline happens, no probe and no engine. The
    worker's [run] has no such guard: with both flags off and a successful
    metadata fetch it goes from the metadata straight to its completion. *)
Theorem start_download_rejects_no_format (w : World) (f : Gui.Form) :
  Gui.mp4_checked f = false ->
  Gui.mp3_checked f = false ->
  (exists text, Gui.start_download f = [Gui.MessageCritical "Error" text])
  /\ (PyStr.nonempty (PyStr.strip (Gui.url_text f)) = true ->
      PyStr.nonempty (PyStr.strip (Gui.output_path_text f)) = true ->
      Gui.start_download f
      = [Gui.MessageCritical "Error"
           "Please select at least one format to download"])
  /\ Gui.click_download w f = []
  /\ (forall self title,
        Gui.download_video self = false ->
        Gui.download_audio self = false ->
        metadata_ok w (Gui.url self) (Gui.output_path self) title ->
        Gui.run w self = (prelude w self title ++ completion self)%list).
Proof.
  intros H4 H3.
  assert (Hs : exists text,
             Gui.start_download f = [Gui.MessageCritical "Error" text]).
  { unfold Gui.start_download. rewrite H4, H3.
    destruct (PyStr.nonempty (PyStr.strip (Gui.url_text f)));
      [destruct (PyStr.nonempty (PyStr.strip (Gui.output_path_text f))) |];
      simpl; eexists; reflexivity. }
  split; [exact Hs |]. split.
  - intros Hu Ho. unfold Gui.start_download. now rewrite H4, H3, Hu, Ho.
  - split.
    + destruct Hs as [text Hs]. unfold Gui.click_download. now rewrite Hs.
    + intros self title Hv Ha Hm. now apply run_no_format.
Qed.

Lemma start_download_rejects_no_format_witness :
  Gui.start_download no_format_form
  = [Gui.MessageCritical "Error" "Please select at least one format to download"]
  /\ Gui.click_download happy_world no_format_form = [].
Proof.
  destruct (start_download_rejects_no_format happy_world no_format_form)
    as (_ & H2 & H3 & _); [reflexivity | reflexivity |].
  split; [apply H2; reflexivity | exact H3].
Defined.

(** C1, as stated, fails on the worker: with both flags off, in a world
    where everything works, the run probes the tools, makes the directory,
    spawns the download engine for the metadata and ends with the finished
    signal; it emits no error at all. *)
Lemma run_no_format_counterexample :
  Gui.download_video idle_worker = false
  /\ Gui.download_audio idle_worker = false
  /\ Gui.run happy_world idle_worker
     = [MakeDirs "downloads";
        SigStatus "Getting video information...";
        SigProgress 10;
        Spawn ["yt-dlp"; "--dump-json";
               "https://www.youtube.com/watch?v=dQw4w9WgXcQ"];
        SigProgress 20;
        SigStatus "Downloading: Clip";
        SigProgress 100;
        SigStatus "Download complete!";
        SigFinished "downloads"]
  /\ spawned (Gui.run happy_world idle_worker) <> []
  /\ terminal (Gui.run happy_world idle_worker) = Some (SigFinished "downloads").
Proof.
  repeat split; try reflexivity. vm_compute. discriminate.
Qed.

(** ** The fallback of the video fetch *)



(** C8. In a run that wants audio and fetches video, when the metadata
    fetch succeeds and both video attempts exit with an error, the run ends
    with the video error; the only processes are the metadata fetch and the
    two video attempts, so neither the transcoder nor the direct audio fetch
    is spawned. The call of the command line, which always wants audio,
    ends the same way. *)
Theorem video_failure_skips_audio
    (w : World) (self : Gui.DownloadWorker) (title : string)
    (po : PopenRun) (cp : CompletedProcess) :
  Gui.download_audio self = true ->
  Gui.download_video self = true ->
  metadata_ok w (Gui.url self) (Gui.output_path self) title ->
  subprocess_popen w (Gui.primary_video_cmd self (video_file self title))
    = inr po ->
  exit_status po <> 0 ->
  subprocess_run w (fallback_video_cmd (video_file self title) (Gui.url self))
    = inr cp ->
  returncode cp <> 0 ->
  terminal (Gui.run w self)
  = Some (SigError ("Error downloading video: " ++ stderr cp))
  /\ spawned (Gui.run w self)
     = [info_cmd (Gui.url self);
        Gui.primary_video_cmd self (video_file self title);
        fallback_video_cmd (video_file self title) (Gui.url self)]
  /\ ~ In (ffmpeg_cmd (video_file self title) (audio_file self title))
          (spawned (Gui.run w self))
  /\ ~ In (direct_audio_cmd (audio_file self title) (Gui.url self))
          (spawned (Gui.run w self))
  /\ (forall cp1,
        subprocess_run w
          (Cli.primary_video_cmd (video_file self title) (Gui.url self))
          = inr cp1 ->
        returncode cp1 <> 0 ->
        let call := Cli.download_video w (Gui.url self) (Gui.output_path self) in
        snd call = Some false
        /\ terminal (fst call)
           = Some (Print ("Error downloading video (second attempt): "
                          ++ stderr cp))
        /\ spawned (fst call)
           = [info_cmd (Gui.url self);
              Cli.primary_video_cmd (video_file self title) (Gui.url self);
              fallback_video_cmd (video_file self title) (Gui.url self)]).
Proof.
  intros Ha Hv Hm Hp He Hc Hr.
  pose proof (run_video_failed w self title Hm po cp Hv Hp He Hc Hr) as Hrun.
  assert (Hs : spawned (Gui.run w self)
               = [info_cmd (Gui.url self);
                  Gui.primary_video_cmd self (video_file self title);
                  fallback_video_cmd (video_file self title) (Gui.url self)]).
  { rewrite Hrun. unfold prelude.
    rewrite !spawned_app, spawned_directory_events, spawned_output_events.
    reflexivity. }
  split; [rewrite Hrun, !app_assoc; apply terminal_app_last |].
  split; [exact Hs |].
  split; [rewrite Hs; simpl; intros [H | [H | [H | []]]]; discriminate |].
  split; [rewrite Hs; simpl; intros [H | [H | [H | []]]]; discriminate |].
  intros cp1 H1 H2.
  exact (cli_video_failed_spawned w _ _ title cp1 cp Hm H1 H2 Hc Hr).
Qed.

Lemma video_failure_skips_audio_witness :
  Gui.run video_broken_world sample_worker
  = [MakeDirs "downloads";
     SigStatus "Getting video information...";
     SigProgress 10;
     Spawn (info_cmd (Gui.url sample_worker));
     SigProgress 20;
     SigStatus "Downloading: Clip";
     SigStatus "Downloading MP4 (video)...";
     SigLog (PyStr.nl ++ "Downloading video...");
     SigProgress 30;
     Spawn (Gui.primary_video_cmd sample_worker "downloads/Clip.mp4");
     SigLog "[youtube] dQw4w9WgXcQ: Downloading webpage";
     SigStatus "Trying alternative video format...";
     SigLog (PyStr.nl ++ "Trying alternative video format...");
     Spawn (fallback_video_cmd "downloads/Clip.mp4" (Gui.url sample_worker));
     SigError ("Error downloading video: " ++ forbidden)]
  /\ terminal (Gui.run video_broken_world sample_worker)
     = Some (SigError ("Error downloading video: " ++ forbidden))
  /\ spawned (Gui.run video_broken_world sample_worker)
     = [info_cmd (Gui.url sample_worker);
        Gui.primary_video_cmd sample_worker "downloads/Clip.mp4";
        fallback_video_cmd "downloads/Clip.mp4" (Gui.url sample_worker)].
Proof.
  split; [reflexivity |].
  destruct (video_failure_skips_audio video_broken_world sample_worker "Clip"
              {| output_lines :=
                   ["[youtube] dQw4w9WgXcQ: Downloading webpage" ++ PyStr.nl];
                 exit_status := 1 |}
              {| returncode := 1; stdout := ""; stderr := forbidden |})
    as (H1 & H2 & _); try reflexivity; try discriminate.
  - apply video_broken_metadata_ok.
  - split; [exact H1 | exact H2].
Defined.

(** ** A run with an empty file name *)

Example run_with_empty_name :
  spawned (Gui.run odd_title_world sample_worker)
  = [info_cmd (Gui.url sample_worker);
     Gui.primary_video_cmd sample_worker "downloads/.mp4";
     ffmpeg_cmd "downloads/.mp4" "downloads/.mp3"]
  /\ terminal (Gui.run odd_title_world sample_worker)
     = Some (SigFinished "downloads").
Proof. split; reflexivity. Qed.

(** ** Failures of the metadata fetch *)

(** C6, as the code has it. When the metadata fetch of the download engine
    exits with an error, the run ends with a metadata error that carries the
    engine's standard error, or a fixed text when that is empty; when the
    engine exits with 0 and its output does not parse, the run ends with a
    metadata error that carries the text of the parser's exception. In both
    cases the metadata fetch is the only process of the run. The command
    line prints the same two diagnostics and returns false. *)
Theorem metadata_failure_halts
    (w : World) (self : Gui.DownloadWorker) (cp : CompletedProcess) :
  unresolved w = [] ->
  directory_ready w (Gui.output_path self) ->
  subprocess_run w (info_cmd (Gui.url self)) = inr cp ->
  (returncode cp <> 0 ->
   Gui.run w self
   = (directory_events w (Gui.output_path self) ++ info_request self
      ++ [SigError ("Error getting video info: " ++ info_diagnostic cp)])%list
   /\ (PyStr.nonempty (stderr cp) = true -> info_diagnostic cp = stderr cp)
   /\ (stderr cp = "" -> info_diagnostic cp = "Failed to get video information"))
  /\ (forall e,
        returncode cp = 0 ->
        json_loads w (stdout cp) = inl e ->
        Gui.run w self
        = (directory_events w (Gui.output_path self) ++ info_request self
           ++ [SigError ("Error while getting video info: " ++ e)])%list)
  /\ ((returncode cp <> 0 \/
       exists e, returncode cp = 0 /\ json_loads w (stdout cp) = inl e) ->
      spawned (Gui.run w self) = [info_cmd (Gui.url self)]
      /\ exists msg, terminal (Gui.run w self) = Some (SigError msg))
  /\ (returncode cp <> 0 ->
      Cli.download_video w (Gui.url self) (Gui.output_path self)
      = (directory_events w (Gui.output_path self)
         ++ [Print "Getting video information...";
             Spawn (info_cmd (Gui.url self));
             Print ("Error getting video info: " ++ stderr cp);
             Print "Failed to get video information"], Some false)%list)
  /\ (forall e,
        returncode cp = 0 ->
        json_loads w (stdout cp) = inl e ->
        Cli.download_video w (Gui.url self) (Gui.output_path self)
        = (directory_events w (Gui.output_path self)
           ++ [Print "Getting video information...";
               Spawn (info_cmd (Gui.url self));
               Print ("Error while getting video info: " ++ e);
               Print "Failed to get video information"], Some false)%list).
Proof.
  intros H0 Hd Hrun.
  assert (A : returncode cp <> 0 ->
              Gui.run w self
              = (directory_events w (Gui.output_path self) ++ info_request self
                 ++ [SigError ("Error getting video info: " ++ info_diagnostic cp)])%list).
  { intros Hrc. apply run_metadata_failed; try assumption.
    now apply get_video_info_nonzero. }
  assert (B : forall e,
              returncode cp = 0 ->
              json_loads w (stdout cp) = inl e ->
              Gui.run w self
              = (directory_events w (Gui.output_path self) ++ info_request self
                 ++ [SigError ("Error while getting video info: " ++ e)])%list).
  { intros e Hrc Hj. apply run_metadata_failed; try assumption.
    now apply get_video_info_unparsable with (cp := cp). }
  split; [| split; [exact B |]];
    [| split; [| exact (cli_metadata_failed w _ _ cp H0 Hd Hrun)]].
  - intros Hrc. split; [now apply A |]. unfold info_diagnostic.
    split; [now intros -> | now intros ->].
  - intros [Hrc | (e & Hrc & Hj)].
    + rewrite (A Hrc). split.
      * now rewrite !spawned_app, spawned_directory_events.
      * eexists. rewrite !app_assoc. apply terminal_app_last.
    + rewrite (B e Hrc Hj). split.
      * now rewrite !spawned_app, spawned_directory_events.
      * eexists. rewrite !app_assoc. apply terminal_app_last.
Qed.

Lemma metadata_failure_halts_witness :
  Gui.run refusing_world sample_worker
  = [MakeDirs "downloads";
     SigStatus "Getting video information...";
     SigProgress 10;
     Spawn (info_cmd (Gui.url sample_worker));
     SigError "Error getting video info: ERROR: Video unavailable"]
  /\ Gui.run silent_world sample_worker
     = [MakeDirs "downloads";
        SigStatus "Getting video information...";
        SigProgress 10;
        Spawn (info_cmd (Gui.url sample_worker));
        SigError "Error while getting video info: Expecting value: line 1 column 1 (char 0)"].
Proof.
  split.
  - destruct (metadata_failure_halts refusing_world sample_worker
                {| returncode := 1; stdout := "";
                   stderr := "ERROR: Video unavailable" |})
      as (H & _); [reflexivity | now right | reflexivity |].
    destruct H as (H & _); [discriminate | exact H].
  - destruct (metadata_failure_halts silent_world sample_worker
                {| returncode := 0; stdout := ""; stderr := lone_warning |})
      as (_ & H & _); [reflexivity | now right | reflexivity |].
    apply (H "Expecting value: line 1 column 1 (char 0)"); reflexivity.
Defined.

(** C6, as stated, fails for output that does not parse: the error the run
    ends with carries the parser's text and nothing of what the engine wrote
    on its standard error. *)
Lemma unparsable_metadata_counterexample :
  subprocess_run silent_world (info_cmd (Gui.url sample_worker))
  = inr {| returncode := 0; stdout := ""; stderr := lone_warning |}
  /\ json_loads silent_world ""
     = inl "Expecting value: line 1 column 1 (char 0)"
  /\ terminal (Gui.run silent_world sample_worker)
     = Some (SigError "Error while getting video info: Expecting value: line 1 column 1 (char 0)")
  /\ PyStr.infix lone_warning
       "Error while getting video info: Expecting value: line 1 column 1 (char 0)"
     = false.
Proof. repeat split; reflexivity. Qed.

(** ** White space at the ends of a line *)

Lemma lstrip_spec (s : string) :
  exists a, s = a ++ PyStr.lstrip s /\ all_space a.
Proof.
  induction s as [| c r (a & Ha & Hs)].
  - exists "". split; [reflexivity | constructor].
  - simpl. destruct (PyStr.isspace c) eqn:E.
    + exists (String c a). split; [simpl; now rewrite <- Ha |].
      constructor; assumption.
    + exists "". split; [reflexivity | constructor].
Qed.

Lemma rstrip_spec (s : string) :
  exists b, s = PyStr.rstrip s ++ b /\ all_space b.
Proof.
  induction s as [| c r (b & Hb & Hs)].
  - exists "". split; [reflexivity | constructor].
  - simpl. destruct (PyStr.rstrip r) as [| c' r'] eqn:E.
    + destruct (PyStr.isspace c) eqn:Ec.
      * exists (String c r). split; [reflexivity |].
        constructor; [assumption |]. simpl in Hb. now rewrite Hb.
      * exists b. split; [simpl; now rewrite Hb |]. assumption.
    + exists b. split; [simpl; now rewrite Hb |]. assumption.
Qed.

(** The stripped line is the line without a run of white space at each
    end. *)
Lemma strip_spec (s : string) :
  exists a b, s = a ++ PyStr.strip s ++ b /\ all_space a /\ all_space b.
Proof.
  destruct (lstrip_spec s) as (a & Ha & Hsa).
  destruct (rstrip_spec (PyStr.lstrip s)) as (b & Hb & Hsb).
  exists a, b. unfold PyStr.strip. split; [| now split].
  now rewrite <- Hb.
Qed.

Lemma lstrip_first (s : string) (c : ascii) :
  first_char (PyStr.lstrip s) = Some c -> PyStr.isspace c = false.
Proof.
  induction s as [| x r IH]; [discriminate |].
  simpl. destruct (PyStr.isspace x) eqn:E; [exact IH |].
  simpl. intros H. injection H as <-. exact E.
Qed.

Lemma rstrip_first (s : string) (c : ascii) :
  first_char s = Some c -> PyStr.isspace c = false ->
  first_char (PyStr.rstrip s) = Some c.
Proof.
  destruct s as [| x r]; [discriminate |].
  simpl. intros H Hc. injection H as ->.
  destruct (PyStr.rstrip r); [now rewrite Hc | reflexivity].
Qed.

Lemma rstrip_last (s : string) (c : ascii) :
  last_char (PyStr.rstrip s) = Some c -> PyStr.isspace c = false.
Proof.
  induction s as [| x r IH]; [discriminate |].
  simpl. destruct (PyStr.rstrip r) as [| y r'] eqn:E.
  - destruct (PyStr.isspace x) eqn:Ex; [discriminate |].
    simpl. intros H. injection H as <-. exact Ex.
  - intros H. apply IH. exact H.
Qed.

(** The stripped line neither starts nor ends with white space. *)
Lemma strip_tight (s : string) (c : ascii) :
  first_char (PyStr.strip s) = Some c \/ last_char (PyStr.strip s) = Some c ->
  PyStr.isspace c = false.
Proof.
  unfold PyStr.strip. intros [H | H]; [| now apply rstrip_last in H].
  destruct (first_char (PyStr.lstrip s)) as [x |] eqn:E.
  - pose proof (lstrip_first s x E) as Hx.
    rewrite (rstrip_first _ x E Hx) in H. now injection H as <-.
  - destruct (PyStr.lstrip s); [discriminate H | discriminate E].
Qed.

(** ** Lines of the video engine without a percentage *)

(** C7, as the code has it. A line that was read and does not lead to a
    progress value has exactly one event: the line, stripped of the white
    space at its two ends, sent to the log stream. The log of the whole
    output is the stripped non-empty reads, in order. Stripping removes a
    run of white space at each end, all of it, and nothing else. *)
Theorem unparsable_line_logged_stripped
    (w : World) (line : string) (lines : list string) :
  PyStr.nonempty line = true ->
  line_progress w line = None ->
  fst (@Gui.report_line w unit line) = [SigLog (PyStr.strip line)]
  /\ progress_values (fst (@Gui.report_line w unit line)) = []
  /\ logged (fst (@Gui.read_output w unit lines))
     = map PyStr.strip (filter PyStr.nonempty lines)
  /\ (In line lines ->
      In (PyStr.strip line) (logged (fst (@Gui.read_output w unit lines))))
  /\ (exists a b,
        line = a ++ PyStr.strip line ++ b /\ all_space a /\ all_space b)
  /\ (forall c,
        first_char (PyStr.strip line) = Some c
        \/ last_char (PyStr.strip line) = Some c ->
        PyStr.isspace c = false).
Proof.
  intros Hne Hnone.
  rewrite report_line_eq, read_output_eq. unfold line_events. rewrite Hnone.
  split; [reflexivity |]. split; [reflexivity |].
  split; [apply logged_output_events |]. split.
  - intros Hin. simpl. rewrite logged_output_events.
    apply in_map. apply filter_In. now split.
  - split; [apply strip_spec | apply strip_tight].
Qed.

Lemma unparsable_line_logged_stripped_witness :
  fst (@Gui.report_line happy_world unit destination_line)
  = [SigLog "[download] Destination: downloads/Clip.mp4"].
Proof.
  destruct (unparsable_line_logged_stripped happy_world destination_line [])
    as (H & _); [reflexivity | reflexivity | exact H].
Defined.

(** C7, as stated, fails: the line as read ends with a line feed, the line
    sent to the log does not; the two are not the same string. *)
Lemma verbatim_log_counterexample :
  line_progress happy_world destination_line = None
  /\ logged (fst (@Gui.read_output happy_world unit [destination_line]))
     = ["[download] Destination: downloads/Clip.mp4"]
  /\ ~ In destination_line
          (logged (fst (@Gui.read_output happy_world unit [destination_line]))).
Proof.
  repeat split; try reflexivity.
  simpl. intros [H | []]. discriminate.
Qed.

(** ** Binary64 rounding is monotone

    The operations of [SpecFloat] agree with the integer model of
    [Binary64] on non-negative numbers. *)

Module Rounding.
Import Binary64.

Lemma dig_pos m : 1 <= dig m.
Proof. unfold dig. lia. Qed.

Lemma dig_bounds (m : positive) : 2 ^ (dig m - 1) <= Zpos m < 2 ^ dig m.
Proof.
  unfold dig. induction m as [m IH | m IH |]; simpl digits2_pos.
  - rewrite Pos2Z.inj_succ.
    replace (Z.succ (Zpos (digits2_pos m)) - 1) with (Z.succ (Zpos (digits2_pos m) - 1)) by lia.
    rewrite !Z.pow_succ_r by lia. lia.
  - rewrite Pos2Z.inj_succ.
    replace (Z.succ (Zpos (digits2_pos m)) - 1) with (Z.succ (Zpos (digits2_pos m) - 1)) by lia.
    rewrite !Z.pow_succ_r by lia. lia.
  - simpl. lia.
Qed.

Lemma pow2_pos (n : Z) : 0 <= n -> 0 < 2 ^ n.
Proof. intros. apply Z.pow_pos_nonneg; lia. Qed.

Lemma pow2_le (a b : Z) : 0 <= a <= b -> 2 ^ a <= 2 ^ b.
Proof. intros. apply Z.pow_le_mono_r; lia. Qed.

Lemma pow2_lt_inv (a b : Z) : 0 <= a -> 0 <= b -> 2 ^ a < 2 ^ b -> a < b.
Proof. intros Ha Hb H. apply (Z.pow_lt_mono_r_iff 2); lia. Qed.

Lemma dig_unique (m : positive) (d : Z) :
  1 <= d -> 2 ^ (d - 1) <= Zpos m < 2 ^ d -> dig m = d.
Proof.
  intros Hd [H1 H2]. pose proof (dig_bounds m) as [B1 B2]. pose proof (dig_pos m).
  assert (d - 1 < dig m) by (apply pow2_lt_inv; lia).
  assert (dig m - 1 < d) by (apply pow2_lt_inv; lia).
  lia.
Qed.

(** shr_1 on a non-negative mantissa *)
Lemma shr_1_spec (m : Z) (r s : bool) :
  0 <= m ->
  shr_1 {| shr_m := m; shr_r := r; shr_s := s |}
  = {| shr_m := m / 2; shr_r := Z.odd m; shr_s := r || s |}.
Proof.
  intros Hm. destruct m as [| p | p]; [reflexivity | | lia].
  destruct p as [p | p |]; simpl shr_1; f_equal.
  - rewrite Pos2Z.inj_xI. apply Z.div_unique with (r := 1); lia.
  - rewrite Pos2Z.inj_xO. apply Z.div_unique with (r := 0); lia.
Qed.

Lemma iter_pos_nat (A : Type) (f : A -> A) (p : positive) (x : A) :
  iter_pos f p x = Nat.iter (Pos.to_nat p) f x.
Proof.
  revert x. induction p as [p IH | p IH |]; intros x; simpl iter_pos.
  - rewrite !IH, Pos2Nat.inj_xI.
    replace (S (2 * Pos.to_nat p))%nat with (Pos.to_nat p + (Pos.to_nat p + 1))%nat by lia.
    rewrite !Nat.iter_add. simpl. reflexivity.
  - rewrite !IH, Pos2Nat.inj_xO.
    replace (2 * Pos.to_nat p)%nat with (Pos.to_nat p + Pos.to_nat p)%nat by lia.
    rewrite Nat.iter_add. reflexivity.
  - reflexivity.
Qed.

Lemma rne_0 (m : Z) : rne m 0 = m.
Proof.
  unfold rne. rewrite Z.pow_0_r, Z.mod_1_r, Z.div_1_r. reflexivity.
Qed.

Lemma rne_bounds (m n : Z) : m / 2 ^ n <= rne m n <= m / 2 ^ n + 1.
Proof.
  unfold rne. destruct (2 * (m mod 2 ^ n) ?= 2 ^ n); try lia.
  destruct (Z.even (m / 2 ^ n)); lia.
Qed.

Lemma rne_exact (q n : Z) : 0 <= n -> rne (q * 2 ^ n) n = q.
Proof.
  intros Hn. unfold rne. pose proof (pow2_pos n Hn).
  rewrite Z.mod_mul, Z.div_mul by lia.
  destruct (Z.compare_spec (2 * 0) (2 ^ n)); [lia | reflexivity | lia].
Qed.

Lemma rne_mono (m m' n : Z) : 0 <= n -> m <= m' -> rne m n <= rne m' n.
Proof.
  intros Hn Hm. pose proof (pow2_pos n Hn) as Hp.
  pose proof (Z.div_le_mono m m' (2 ^ n) Hp Hm) as Hq.
  pose proof (rne_bounds m n). pose proof (rne_bounds m' n).
  destruct (Z.eq_dec (m / 2 ^ n) (m' / 2 ^ n)) as [E | E]; [| lia].
  assert (Hr : m mod 2 ^ n <= m' mod 2 ^ n).
  { pose proof (Z.div_mod m (2 ^ n)). pose proof (Z.div_mod m' (2 ^ n)). nia. }
  unfold rne. rewrite <- E.
  destruct (Z.compare_spec (2 * (m mod 2 ^ n)) (2 ^ n));
    destruct (Z.compare_spec (2 * (m' mod 2 ^ n)) (2 ^ n));
    destruct (Z.even (m / 2 ^ n)); lia.
Qed.

Lemma rne_scale (m n k : Z) :
  0 <= n -> 0 <= k -> rne (m * 2 ^ k) (n + k) = rne m n.
Proof.
  intros Hn Hk. unfold rne.
  pose proof (pow2_pos n Hn). pose proof (pow2_pos k Hk).
  rewrite Z.pow_add_r by lia.
  rewrite Z.div_mul_cancel_r by lia.
  rewrite Z.mul_mod_distr_r by lia.
  replace (2 * (m mod 2 ^ n * 2 ^ k) ?= 2 ^ n * 2 ^ k)
    with (2 * (m mod 2 ^ n) ?= 2 ^ n).
  - reflexivity.
  - replace (2 * (m mod 2 ^ n * 2 ^ k)) with (2 * (m mod 2 ^ n) * 2 ^ k) by ring.
    apply Zmult_compare_compat_r; lia.
Qed.

(** The record after [k] one-bit shifts of a non-negative mantissa. *)
Lemma odd_div_pow2 (m k : Z) :
  0 <= m -> 0 <= k ->
  Z.odd (m / 2 ^ k) = (2 ^ k <=? m mod 2 ^ (k + 1)).
Proof.
  intros Hm Hk. pose proof (pow2_pos k Hk) as Hp.
  rewrite Z.pow_add_r, Z.pow_1_r by lia.
  rewrite Z.rem_mul_r by lia.
  pose proof (Z.mod_pos_bound m (2 ^ k) Hp).
  pose proof (Zmod_odd (m / 2 ^ k)) as Ho.
  destruct (Z.odd (m / 2 ^ k)); rewrite Ho; symmetry.
  - apply Z.leb_le. lia.
  - apply Z.leb_gt. lia.
Qed.

Lemma mod_pow2_succ (m k : Z) :
  0 <= k ->
  m mod 2 ^ (k + 1) = m mod 2 ^ k + 2 ^ k * ((m / 2 ^ k) mod 2).
Proof.
  intros Hk. pose proof (pow2_pos k Hk).
  rewrite Z.pow_add_r, Z.pow_1_r by lia. apply Z.rem_mul_r; lia.
Qed.

Lemma shr_iter_spec (m : Z) (k : nat) :
  0 <= m ->
  Nat.iter (S k) shr_1 {| shr_m := m; shr_r := false; shr_s := false |}
  = shifted m k.
Proof.
  intros Hm. induction k as [| k IH].
  - change (Nat.iter 1 shr_1 ?x) with (shr_1 x).
    rewrite shr_1_spec by assumption. unfold shifted.
    change (Z.of_nat 1) with (0 + 1). change (Z.of_nat 0) with 0.
    rewrite <- odd_div_pow2 by lia.
    rewrite Z.pow_0_r, Z.div_1_r, Z.mod_1_r. reflexivity.
  - change (Nat.iter (S (S k)) shr_1 ?x) with (shr_1 (Nat.iter (S k) shr_1 x)).
    rewrite IH. unfold shifted at 1.
    assert (Hk : 0 <= Z.of_nat (S k)) by lia.
    pose proof (pow2_pos _ Hk) as Hp.
    rewrite shr_1_spec by (apply Z.div_pos; lia).
    unfold shifted.
    replace (Z.of_nat (S (S k))) with (Z.of_nat (S k) + 1) by lia.
    f_equal.
    + rewrite Z.pow_add_r, Z.pow_1_r by lia. apply Z.div_div; lia.
    + apply odd_div_pow2; lia.
    + replace (Z.of_nat (S k)) with (Z.of_nat k + 1) by lia.
      rewrite (mod_pow2_succ m (Z.of_nat k)) by lia.
      assert (Hk' : 0 <= Z.of_nat k) by lia.
      pose proof (pow2_pos _ Hk') as Hp'.
      pose proof (Z.mod_pos_bound m (2 ^ Z.of_nat k) Hp').
      pose proof (Z.mod_pos_bound (m / 2 ^ Z.of_nat k) 2 ltac:(lia)).
      set (b := (m / 2 ^ Z.of_nat k) mod 2) in *.
      set (r := m mod 2 ^ Z.of_nat k) in *.
      assert (Hb : b = 0 \/ b = 1) by lia.
      destruct (Z.leb_spec (2 ^ Z.of_nat k) (r + 2 ^ Z.of_nat k * b));
        destruct (Z.eqb_spec r 0);
        destruct (Z.eqb_spec (r + 2 ^ Z.of_nat k * b) 0);
        simpl; try reflexivity; destruct Hb; subst b; lia.
Qed.

(** Rounding the shifted record is rounding to nearest even. *)
Lemma round_shifted (m : Z) (k : nat) :
  0 <= m ->
  round_nearest_even (shr_m (shifted m k)) (loc_of_shr_record (shifted m k))
  = rne m (Z.of_nat (S k)).
Proof.
  intros Hm. unfold shifted, rne. cbn [shr_m loc_of_shr_record].
  replace (Z.of_nat (S k)) with (Z.of_nat k + 1) by lia.
  set (K := Z.of_nat k). assert (HK : 0 <= K) by (unfold K; lia).
  pose proof (pow2_pos K HK) as Hp.
  rewrite (mod_pow2_succ m K HK).
  rewrite Z.pow_add_r, Z.pow_1_r by lia.
  pose proof (Z.mod_pos_bound m (2 ^ K) Hp).
  pose proof (Z.mod_pos_bound (m / 2 ^ K) 2 ltac:(lia)).
  set (b := (m / 2 ^ K) mod 2) in *. set (r := m mod 2 ^ K) in *.
  set (q := m / (2 ^ K * 2)).
  assert (Hb : b = 0 \/ b = 1) by lia.
  destruct (Z.compare_spec (2 * (r + 2 ^ K * b)) (2 ^ K * 2));
    destruct (Z.leb_spec (2 ^ K) (r + 2 ^ K * b));
    destruct (Z.eqb_spec r 0); cbn [negb round_nearest_even];
    try reflexivity; destruct Hb; subst b; lia.
Qed.

(** ** binary64 *)

Lemma fexp64_eq (e : Z) : fexp 53 1024 e = fexp64 e.
Proof. reflexivity. Qed.

Lemma shr_exact (m e n : Z) :
  0 <= m ->
  shr {| shr_m := m; shr_r := false; shr_s := false |} e n
  = if n <=? 0 then ({| shr_m := m; shr_r := false; shr_s := false |}, e)
    else (shifted m (Z.to_nat n - 1), e + n).
Proof.
  intros Hm. unfold shr. destruct n as [| p | p]; try reflexivity.
  rewrite iter_pos_nat. change (Z.pos p <=? 0) with false. cbv iota.
  remember (Z.to_nat (Z.pos p) - 1)%nat as k eqn:Ek.
  replace (Pos.to_nat p) with (S k) by lia.
  rewrite shr_iter_spec by assumption. reflexivity.
Qed.

Lemma round_aux_exact (m : positive) (e : Z) :
  let E := fexp64 (dig m + e) in
  let r := rne (Zpos m) (E - e) in
  e <= E ->
  dig m + e <= 1023 ->
  let x := binary_round_aux 53 1024 false (Zpos m) e loc_Exact in
  Fnum x = r * 2 ^ (E + scale)
  /\ (x = S754_zero false
      \/ exists m' e', x = S754_finite false m' e' /\ E <= e' <= E + 1).
Proof.
  intros E r He Hmag x. subst x.
  unfold binary_round_aux, shr_fexp.
  cbn [Zdigits2 shr_record_of_loc]. fold (dig m).
  rewrite fexp64_eq. fold E.
  rewrite shr_exact by lia.
  assert (HE : -1074 <= E <= 970) by (unfold E, fexp64; lia).
  destruct (Z.leb_spec (E - e) 0) as [Hn | Hn].
  - (* no shift: the number is already on the grid *)
    assert (e = E) by lia. subst r. replace (E - e) with 0 by lia.
    rewrite rne_0. cbn [shr_m loc_of_shr_record round_nearest_even].
    cbn [Zdigits2 shr_record_of_loc]. fold (dig m).
    rewrite fexp64_eq. fold E. rewrite shr_exact by lia.
    replace (E - e <=? 0) with true by (symmetry; apply Z.leb_le; lia).
    cbn [shr_m].
    replace (e <=? 1024 - 53) with true by (symmetry; apply Z.leb_le; lia).
    split; [cbn [Fnum]; now replace (E + scale) with (e + scale) by lia |].
    right. exists m, e. split; [reflexivity | lia].
  - (* a shift by n > 0 *)
    rewrite round_shifted by lia.
    replace (Z.of_nat (S (Z.to_nat (E - e) - 1))) with (E - e) by lia.
    fold r. replace (e + (E - e)) with E by lia.
    assert (Hr : 0 <= r <= 2 ^ 53).
    { pose proof (rne_bounds (Zpos m) (E - e)) as Hb. fold r in Hb.
      pose proof (dig_bounds m) as [_ Hd].
      assert (Hp : 0 < 2 ^ (E - e)) by (apply pow2_pos; lia).
      assert (0 <= Zpos m / 2 ^ (E - e)) by (apply Z.div_pos; lia).
      assert (Zpos m / 2 ^ (E - e) < 2 ^ 53).
      { apply Z.div_lt_upper_bound; [lia |].
        rewrite <- Z.pow_add_r by lia.
        apply Z.lt_le_trans with (1 := Hd). apply pow2_le.
        pose proof (dig_pos m). unfold E, fexp64 in *. lia. }
      lia. }
    destruct r as [| r' | r'] eqn:Er; [| | lia].
    + (* rounded to zero *)
      cbn [Zdigits2 shr_record_of_loc]. rewrite fexp64_eq, shr_exact by lia.
      replace (fexp64 (0 + E) - E <=? 0) with true
        by (symmetry; apply Z.leb_le; unfold fexp64; lia).
      cbn [shr_m]. split; [reflexivity | now left].
    + cbn [Zdigits2 shr_record_of_loc]. fold (dig r').
      rewrite fexp64_eq, shr_exact by lia.
      pose proof (dig_bounds r') as [Hd1 Hd2]. pose proof (dig_pos r').
      assert (Hd54 : dig r' <= 54).
      { assert (dig r' - 1 < 54); [| lia].
        apply pow2_lt_inv; lia. }
      destruct (Z.leb_spec (fexp64 (dig r' + E) - E) 0) as [Hn2 | Hn2].
      * cbn [shr_m].
        replace (E <=? 1024 - 53) with true by (symmetry; apply Z.leb_le; lia).
        split; [reflexivity |]. right. exists r', E. split; [reflexivity | lia].
      * (* the rounding carried into a new bit: the mantissa is 2^53 *)
        assert (dig r' = 54) by (unfold fexp64 in Hn2; lia).
        assert (Hn1 : fexp64 (dig r' + E) - E = 1) by (unfold fexp64; lia).
        rewrite Hn1. change (Z.to_nat 1 - 1)%nat with 0%nat.
        unfold shifted. cbn [shr_m].
        change (Z.of_nat 1) with 1. rewrite Z.pow_1_r.
        assert (Hr53 : Zpos r' = 2 ^ 53).
        { replace (dig r' - 1) with 53 in Hd1 by lia. lia. }
        rewrite Hr53. change (2 ^ 53 / 2) with (2 ^ 52).
        change (2 ^ 52) with (Zpos (2 ^ 52)%positive) at 1.
        cbv beta iota.
        replace (E + 1 <=? 1024 - 53) with true by (symmetry; apply Z.leb_le; lia).
        split.
        -- cbn [Fnum]. change (Z.pos (2 ^ 52)) with (2 ^ 52).
           replace (E + 1 + scale) with (E + scale + 1) by lia.
           rewrite (Z.pow_add_r 2 (E + scale) 1) by (unfold scale; lia).
           change (2 ^ 53) with (2 ^ 52 * 2). rewrite Z.pow_1_r. ring.
        -- right. exists (2 ^ 52)%positive, (E + 1).
           split; [reflexivity | lia].
Qed.

(** ** Rounding a value *)

Lemma grid_nonneg (v : Z) : 0 <= grid v.
Proof. unfold grid, scale. lia. Qed.

Lemma RN_mono (v v' : Z) : v <= v' -> RN v <= RN v'.
Proof.
  intros Hv. unfold RN.
  destruct (Z.leb_spec v 0) as [H0 | H0]; destruct (Z.leb_spec v' 0) as [H0' | H0'];
    try lia.
  - (* 0 against a positive value *)
    pose proof (grid_nonneg v'). pose proof (pow2_pos (grid v') H).
    pose proof (rne_bounds v' (grid v')).
    assert (0 <= v' / 2 ^ grid v') by (apply Z.div_pos; lia).
    nia.
  - pose proof (grid_nonneg v) as G. pose proof (grid_nonneg v') as G'.
    pose proof (pow2_pos _ G) as P. pose proof (pow2_pos _ G') as P'.
    pose proof (Z.log2_le_mono v v' Hv) as Hl.
    assert (Hg : grid v <= grid v') by (unfold grid; lia).
    destruct (Z.eq_dec (grid v) (grid v')) as [E | E].
    + rewrite <- E. apply Z.mul_le_mono_nonneg_r; [lia |].
      apply rne_mono; lia.
    + (* the values are on different grids, a power of two between them *)
      assert (Hg' : grid v' = Z.log2 v' + 1 - 53) by (unfold grid in *; lia).
      pose proof (Z.log2_spec v H0) as [_ Hu].
      pose proof (Z.log2_spec v' H0') as [Hl' _].
      pose proof (Z.log2_nonneg v). pose proof (Z.log2_nonneg v').
      (* v < 2^53 * 2^grid v, so its rounding is at most that *)
      assert (Hup : rne v (grid v) <= 2 ^ 53).
      { rewrite <- (rne_exact (2 ^ 53) (grid v)) by lia.
        apply rne_mono; [lia |].
        rewrite <- Z.pow_add_r by lia.
        apply Z.lt_le_incl, Z.lt_le_trans with (1 := Hu).
        apply pow2_le. unfold grid. lia. }
      (* v' >= 2^52 * 2^grid v', so its rounding is at least that *)
      assert (Hlow : 2 ^ 52 <= rne v' (grid v')).
      { rewrite <- (rne_exact (2 ^ 52) (grid v')) at 1 by lia.
        apply rne_mono; [lia |].
        rewrite <- Z.pow_add_r by lia.
        apply Z.le_trans with (2 := Hl').
        apply pow2_le. lia. }
      apply Z.le_trans with (2 ^ 53 * 2 ^ grid v);
        [apply Z.mul_le_mono_nonneg_r; lia |].
      apply Z.le_trans with (2 ^ 52 * 2 ^ grid v');
        [| apply Z.mul_le_mono_nonneg_r; lia].
      rewrite <- !Z.pow_add_r by lia. apply pow2_le. lia.
Qed.

Lemma dig_log2 (m : positive) : dig m = Z.log2 (Zpos m) + 1.
Proof.
  pose proof (Z.log2_spec (Zpos m) ltac:(lia)) as [H1 H2].
  pose proof (Z.log2_nonneg (Zpos m)).
  apply dig_unique; [lia |].
  replace (Z.log2 (Z.pos m) + 1 - 1) with (Z.log2 (Z.pos m)) by lia.
  replace (Z.log2 (Z.pos m) + 1) with (Z.succ (Z.log2 (Z.pos m))) by lia.
  lia.
Qed.

Lemma log2_shift (m : positive) (k : Z) :
  0 <= k -> Z.log2 (Zpos m * 2 ^ k) = Z.log2 (Zpos m) + k.
Proof. intros Hk. rewrite Z.log2_mul_pow2 by lia. lia. Qed.

(** Rounding by [binary_round_aux] is [RN] on the value. *)
Lemma round_aux_RN (m : positive) (e : Z) :
  e <= fexp64 (dig m + e) ->
  dig m + e <= 1023 ->
  0 <= e + scale ->
  let x := binary_round_aux 53 1024 false (Zpos m) e loc_Exact in
  Fnum x = RN (Zpos m * 2 ^ (e + scale))
  /\ (x = S754_zero false
      \/ exists m' e', x = S754_finite false m' e' /\ -1074 <= e').
Proof.
  intros He Hmag Hs x.
  destruct (round_aux_exact m e He Hmag) as [Hv Hx]. fold x in Hv, Hx.
  split.
  - rewrite Hv. unfold RN.
    pose proof (pow2_pos _ Hs).
    replace (Zpos m * 2 ^ (e + scale) <=? 0) with false
      by (symmetry; apply Z.leb_gt; nia).
    assert (Hg : grid (Zpos m * 2 ^ (e + scale)) = fexp64 (dig m + e) + scale).
    { unfold grid. rewrite log2_shift by lia. rewrite dig_log2.
      unfold fexp64. lia. }
    rewrite Hg. f_equal.
    replace (fexp64 (dig m + e) + scale)
      with (fexp64 (dig m + e) - e + (e + scale)) by lia.
    symmetry. apply rne_scale; lia.
  - destruct Hx as [Hx | (m' & e' & Hx & He')]; [now left |].
    right. exists m', e'. split; [assumption |]. unfold fexp64 in He'. lia.
Qed.

(** ** Multiplication by the literal 0.4 *)

Lemma dig_mul_lower (a b : positive) : dig b <= dig (a * b).
Proof.
  rewrite !dig_log2. apply Z.add_le_mono_r. apply Z.log2_le_mono.
  rewrite Pos2Z.inj_mul. nia.
Qed.

Lemma dig_mul_upper (a b : positive) : dig (a * b) <= dig a + dig b.
Proof.
  rewrite !dig_log2, Pos2Z.inj_mul.
  pose proof (Z.log2_mul_above (Zpos a) (Zpos b) ltac:(lia) ltac:(lia)). lia.
Qed.

Lemma mul04_RN (m : positive) (e : Z) :
  -1074 <= e ->
  dig m + e <= 900 ->
  let x := SFmul 53 1024 (S754_finite false m e) c04 in
  Fnum x = RN (Zpos m * 2 ^ (e + scale - 54) * Zpos m04)
  /\ (x = S754_zero false
      \/ exists m' e', x = S754_finite false m' e' /\ -1074 <= e').
Proof.
  intros He Hmag x. subst x. unfold c04. cbn [SFmul xorb].
  pose proof (dig_mul_lower m m04) as Hl. pose proof (dig_mul_upper m m04) as Hu.
  change (dig m04) with 53 in Hl, Hu.
  destruct (round_aux_RN (m * m04) (e + -54)) as [Hv Hx].
  - unfold fexp64. lia.
  - lia.
  - unfold scale. lia.
  - split; [| exact Hx]. rewrite Hv. f_equal.
    rewrite Pos2Z.inj_mul.
    replace (e + -54 + scale) with (e + scale - 54) by lia. ring.
Qed.

(** ** Addition *)

Lemma iter_xO (m d : positive) :
  Zpos (Pos.iter xO m d) = Zpos m * 2 ^ Zpos d.
Proof.
  change (Pos.iter xO m d) with (shift_pos d m).
  rewrite shift_pos_correct, Z.pow_pos_fold. ring.
Qed.

Lemma shl_align_spec (m : positive) (e e0 : Z) :
  snd (shl_align m e e0) = Z.min e e0
  /\ Zpos (fst (shl_align m e e0)) = Zpos m * 2 ^ (e - Z.min e e0).
Proof.
  unfold shl_align. destruct (e0 - e) as [| d | d] eqn:Hd; cbn [fst snd].
  - replace (Z.min e e0) with e by lia. rewrite Z.sub_diag. split; lia.
  - replace (Z.min e e0) with e by lia. rewrite Z.sub_diag. split; lia.
  - replace (Z.min e e0) with e0 by lia. split; [reflexivity |].
    rewrite iter_xO. f_equal. f_equal. lia.
Qed.

Lemma binary_round_RN (m : positive) (e : Z) :
  dig m + e <= 1023 ->
  0 <= e + scale ->
  let x := binary_round 53 1024 false m e in
  Fnum x = RN (Zpos m * 2 ^ (e + scale))
  /\ (x = S754_zero false
      \/ exists m' e', x = S754_finite false m' e' /\ -1074 <= e').
Proof.
  intros Hmag Hs x. subst x. unfold binary_round.
  fold (dig m). rewrite fexp64_eq.
  set (E := fexp64 (dig m + e)).
  destruct (shl_align_spec m e E) as [He' Hm'].
  destruct (shl_align m e E) as [mz ez]. cbn [fst snd] in He', Hm'.
  assert (HE : -1074 <= E) by (unfold E, fexp64; lia).
  assert (Hd : dig mz + ez = dig m + e).
  { rewrite !dig_log2, Hm', log2_shift by lia. lia. }
  destruct (round_aux_RN mz ez) as [Hv Hx].
  - rewrite Hd. fold E. lia.
  - lia.
  - unfold scale in *. lia.
  - split; [| exact Hx]. rewrite Hv, Hm'. f_equal.
    rewrite <- Z.mul_assoc, <- Z.pow_add_r by (unfold scale in *; lia).
    f_equal. f_equal. lia.
Qed.

Lemma add30_RN (m : positive) (e : Z) :
  -1074 <= e ->
  dig m + e <= 900 ->
  let x := SFadd 53 1024 f30 (S754_finite false m e) in
  Fnum x = RN (30 * 2 ^ scale + Zpos m * 2 ^ (e + scale))
  /\ (x = S754_zero false
      \/ exists m' e', x = S754_finite false m' e' /\ -1074 <= e').
Proof.
  intros He Hmag x. subst x. unfold f30. cbn [SFadd cond_Zopp].
  set (ez := Z.min (-48) e).
  destruct (shl_align_spec m30 (-48) ez) as [_ Ha].
  destruct (shl_align_spec m e ez) as [_ Hb].
  replace (Z.min (-48) ez) with ez in Ha by (unfold ez; lia).
  replace (Z.min e ez) with ez in Hb by (unfold ez; lia).
  set (a := fst (shl_align m30 (-48) ez)) in *.
  set (b := fst (shl_align m e ez)) in *.
  change (Zpos a + Zpos b) with (Zpos (a + b)). cbn [binary_normalize].
  assert (Hez : -1074 <= ez <= -48) by (unfold ez; lia).
  assert (Hsum : Zpos (a + b) * 2 ^ (ez + scale)
                 = 30 * 2 ^ scale + Zpos m * 2 ^ (e + scale)).
  { rewrite Pos2Z.inj_add, Ha, Hb, Z.mul_add_distr_r.
    rewrite <- !Z.mul_assoc, <- !Z.pow_add_r by (unfold scale; lia).
    replace (-48 - ez + (ez + scale)) with (scale - 48) by lia.
    replace (e - ez + (ez + scale)) with (e + scale) by lia.
    f_equal. }
  destruct (binary_round_RN (a + b) ez) as [Hv Hx].
  - (* the sum is below 2^901 *)
    assert (Hlt : Zpos (a + b) * 2 ^ (ez + scale) < 2 ^ (901 + scale)).
    { rewrite Hsum.
      pose proof (dig_bounds m) as [_ Hm].
      assert (Zpos m * 2 ^ (e + scale) < 2 ^ (dig m + (e + scale))).
      { pose proof (dig_pos m) as Hdp. assert (Hes : 0 <= e + scale) by (unfold scale; lia).
        rewrite (Z.pow_add_r 2 (dig m) (e + scale)); [| lia | exact Hes ].
        apply Z.mul_lt_mono_pos_r; [apply pow2_pos; exact Hes | exact Hm]. }
      assert (2 ^ (dig m + (e + scale)) <= 2 ^ (900 + scale))
        by (apply pow2_le; pose proof (dig_pos m); unfold scale; lia).
      assert (H30 : 30 * 2 ^ scale < 2 ^ (900 + scale)).
      { rewrite (Z.pow_add_r 2 900 scale) by (unfold scale; lia).
        apply Z.mul_lt_mono_pos_r; [apply pow2_pos; unfold scale; lia | lia]. }
      replace (901 + scale) with (900 + scale + 1) by lia.
      rewrite (Z.pow_add_r 2 (900 + scale) 1) by (unfold scale; lia).
      rewrite Z.pow_1_r. lia. }
    assert (Hlog : Z.log2 (Zpos (a + b) * 2 ^ (ez + scale)) < 901 + scale).
    { apply Z.log2_lt_pow2; [| exact Hlt].
      pose proof (pow2_pos (ez + scale) ltac:(unfold scale; lia)). nia. }
    rewrite log2_shift in Hlog by (unfold scale; lia).
    rewrite dig_log2. lia.
  - unfold scale. lia.
  - split; [| exact Hx]. now rewrite Hv, Hsum.
Qed.

(** ** Conversion to an integer, comparison *)

Lemma trunc_Fnum (x : spec_float) :
  (x = S754_zero false
   \/ exists m e, x = S754_finite false m e /\ -1074 <= e) ->
  trunc x = Fnum x / 2 ^ scale.
Proof.
  intros [-> | (m & e & -> & He)]; [reflexivity |].
  cbn [trunc Fnum].
  assert (Hs : 0 < 2 ^ scale) by (apply pow2_pos; unfold scale; lia).
  destruct (Z.leb_spec 0 e) as [H | H].
  - rewrite Z.shiftl_mul_pow2 by lia.
    rewrite Z.pow_add_r by (unfold scale; lia).
    rewrite Z.mul_assoc, Z.div_mul by lia. reflexivity.
  - rewrite Z.shiftr_div_pow2 by lia.
    replace (2 ^ scale) with (2 ^ (- e) * 2 ^ (e + scale)).
    + rewrite Z.div_mul_cancel_r; [reflexivity | |].
      * pose proof (pow2_pos (- e) ltac:(lia)). lia.
      * pose proof (pow2_pos (e + scale) ltac:(unfold scale; lia)). lia.
    + rewrite <- Z.pow_add_r by (unfold scale; lia). f_equal. lia.
Qed.

Lemma valid_finite (s : bool) (m : positive) (e : Z) :
  valid_binary 53 1024 (S754_finite s m e) = true ->
  fexp64 (dig m + e) = e /\ e <= 971.
Proof.
  cbn [valid_binary]. unfold bounded, canonical_mantissa.
  rewrite andb_true_iff, Z.eqb_eq, Z.leb_le. fold (dig m).
  rewrite fexp64_eq. lia.
Qed.

Lemma Fnum_nonneg (x : spec_float) : nonneg_finite x = true -> 0 <= Fnum x.
Proof.
  destruct x as [s | s | | [] m e]; cbn [nonneg_finite Fnum];
    try lia; try discriminate.
Qed.

Lemma leb_Fnum (p q : spec_float) :
  valid_binary 53 1024 p = true ->
  valid_binary 53 1024 q = true ->
  nonneg_finite p = true ->
  nonneg_finite q = true ->
  SFleb p q = true ->
  Fnum p <= Fnum q.
Proof.
  intros Vp Vq Np Nq Hle.
  destruct p as [sp | sp | | [] mp ep]; try discriminate Np;
    destruct q as [sq | sq | | [] mq eq]; try discriminate Nq.
  - cbn. lia.
  - apply (Fnum_nonneg (S754_finite false mq eq)). reflexivity.
  - discriminate Hle.
  - apply valid_finite in Vp, Vq. destruct Vp as [Cp _], Vq as [Cq _].
    unfold SFleb, SFcompare in Hle. cbn [Fnum].
    pose proof (dig_bounds mp) as [_ Up]. pose proof (dig_bounds mq) as [Lq _].
    pose proof (dig_pos mp). pose proof (dig_pos mq).
    destruct (Z.compare_spec ep eq) as [E | E | E]; [| | discriminate Hle].
    + subst eq. apply Z.mul_le_mono_nonneg_r; [apply Z.pow_nonneg; lia |].
      rewrite Pos.compare_cont_spec in Hle. cbn [Pos.switch_Eq] in Hle.
      destruct (Pos.compare_spec mp mq); try discriminate Hle; lia.
    + (* a smaller exponent: q is normal, p is below its leading bit *)
      assert (Hdq : dig mq = 53) by (unfold fexp64 in *; lia).
      assert (Hdp : dig mp <= 53) by (unfold fexp64 in *; lia).
      assert (Hep : 0 <= ep + scale) by (unfold fexp64, scale in *; lia).
      apply Z.le_trans with (2 ^ 53 * 2 ^ (ep + scale)).
      * apply Z.mul_le_mono_nonneg_r; [apply Z.pow_nonneg; lia |].
        apply Z.lt_le_incl, Z.lt_le_trans with (1 := Up). apply pow2_le. lia.
      * apply Z.le_trans with (2 ^ 52 * 2 ^ (eq + scale)).
        -- rewrite <- !Z.pow_add_r by lia. apply pow2_le. lia.
        -- apply Z.mul_le_mono_nonneg_r; [apply Z.pow_nonneg; lia |].
           replace (dig mq - 1) with 52 in Lq by lia. exact Lq.
Qed.

(** ** The scaled percentage *)

Lemma emitted_mono (v v' : Z) : v <= v' -> emitted v <= emitted v'.
Proof.
  intros H. unfold emitted.
  apply Z.div_le_mono; [apply pow2_pos; unfold scale; lia |].
  apply RN_mono. apply Z.add_le_mono_l. apply RN_mono.
  apply Z.mul_le_mono_nonneg_r; [lia |].
  apply Z.div_le_mono; lia.
Qed.

Lemma emitted_0 : emitted 0 = 30.
Proof. vm_compute. reflexivity. Qed.

Lemma emitted_100 : emitted (100 * 2 ^ scale) = 70.
Proof. vm_compute. reflexivity. Qed.

Lemma RN_bound : RN (2 ^ (scale + 6)) = 2 ^ (scale + 6).
Proof. vm_compute. reflexivity. Qed.

Lemma value_mag (m : positive) (e k : Z) :
  0 <= e + scale -> 0 <= k ->
  Zpos m * 2 ^ (e + scale) <= 2 ^ (scale + k) ->
  dig m + e <= k + 1.
Proof.
  intros He Hk H.
  assert (Hl : Z.log2 (Zpos m * 2 ^ (e + scale)) <= scale + k).
  { rewrite <- (Z.log2_pow2 (scale + k)) by (unfold scale; lia).
    apply Z.log2_le_mono. exact H. }
  rewrite log2_shift in Hl by lia. rewrite dig_log2. lia.
Qed.

Lemma scaled_emitted (p : spec_float) :
  valid_binary 53 1024 p = true ->
  nonneg_finite p = true ->
  Fnum p <= 100 * 2 ^ scale ->
  trunc (scaled p) = emitted (Fnum p) /\ is_result (scaled p).
Proof.
  intros Vp Np Hp. unfold scaled.
  destruct p as [s | s | | [] m e]; try discriminate Np.
  - (* a zero *)
    cbn [SFmul c04 SFadd f30 Fnum]. rewrite emitted_0.
    split; [reflexivity |]. right. exists m30, (-48). split; [reflexivity | lia].
  - apply valid_finite in Vp. destruct Vp as [Cp _].
    assert (He : -1074 <= e) by (unfold fexp64 in Cp; lia).
    cbn [Fnum] in Hp.
    assert (Hes : 0 <= e + scale) by (unfold scale; lia).
    assert (H54 : 2 ^ (e + scale) = 2 ^ (e + scale - 54) * 2 ^ 54).
    { rewrite <- Z.pow_add_r by (unfold scale; lia). f_equal. lia. }
    assert (Hmag : dig m + e <= 8).
    { apply (value_mag m e 7); try lia.
      apply Z.le_trans with (1 := Hp).
      rewrite (Z.pow_add_r 2 scale 7) by (unfold scale; lia).
      rewrite Z.mul_comm. apply Z.mul_le_mono_nonneg_l; [| lia].
      apply Z.pow_nonneg. lia. }
    destruct (mul04_RN m e He ltac:(lia)) as [Hv Hr].
    set (r := SFmul 53 1024 (S754_finite false m e) c04) in *.
    assert (Hval : Fnum (S754_finite false m e) / 2 ^ 54 * Zpos m04
                   = Zpos m * 2 ^ (e + scale - 54) * Zpos m04).
    { cbn [Fnum]. rewrite H54, Z.mul_assoc, Z.div_mul by lia. reflexivity. }
    assert (Hsmall : Fnum r <= 2 ^ (scale + 6)).
    { rewrite Hv, <- RN_bound. apply RN_mono.
      rewrite H54 in Hp.
      assert (P : 0 < 2 ^ (e + scale - 54))
        by (apply pow2_pos; unfold scale; lia).
      assert (Q : Zpos m * 2 ^ (e + scale - 54) <= 100 * 2 ^ (scale - 54)).
      { assert (HB : 2 ^ scale = 2 ^ (scale - 54) * 2 ^ 54).
        { rewrite <- Z.pow_add_r by (unfold scale; lia). f_equal. }
        rewrite HB in Hp.
        set (A := 2 ^ (e + scale - 54)) in *.
        set (B := 2 ^ (scale - 54)) in *.
        change (2 ^ 54) with 18014398509481984 in Hp. lia. }
      apply Z.le_trans with (100 * 2 ^ (scale - 54) * Zpos m04).
      - apply Z.mul_le_mono_nonneg_r; [lia | exact Q].
      - vm_compute. discriminate. }
    unfold emitted. rewrite Hval, <- Hv.
    destruct Hr as [Hr | (m' & e' & Hr & He')].
    + (* the product underflows to zero *)
      rewrite Hr. cbn [SFadd f30 Fnum]. rewrite Z.add_0_r.
      split; [vm_compute; reflexivity |].
      right. exists m30, (-48). split; [reflexivity | lia].
    + rewrite Hr in *. cbn [Fnum] in Hsmall.
      assert (Hmag' : dig m' + e' <= 7)
        by (apply (value_mag m' e' 6); unfold scale in *; lia).
      destruct (add30_RN m' e' He' ltac:(lia)) as [Hv' Hx].
      rewrite trunc_Fnum by exact Hx.
      rewrite Hv'. cbn [Fnum]. split; [reflexivity | exact Hx].
Qed.

Lemma percent_nonneg_finite (p : spec_float) :
  percent p -> nonneg_finite p = true.
Proof.
  intros (_ & H0 & H1).
  destruct p as [s | [] | | [] m e]; try reflexivity; discriminate.
Qed.

Lemma percent_value (p : spec_float) :
  percent p -> 0 <= Fnum p <= 100 * 2 ^ scale.
Proof.
  intros Hp. pose proof (percent_nonneg_finite p Hp) as Hn.
  destruct Hp as (Hv & H0 & H1). split; [now apply Fnum_nonneg |].
  change (100 * 2 ^ scale) with (Fnum hundred).
  apply leb_Fnum; try assumption; reflexivity.
Qed.

Theorem scaled_percent_monotone (p q : spec_float) :
  percent p -> percent q -> SFleb p q = true ->
  30 <= trunc (scaled p) <= trunc (scaled q) /\ trunc (scaled q) <= 70.
Proof.
  intros Hp Hq Hle.
  pose proof (percent_nonneg_finite p Hp) as Np.
  pose proof (percent_nonneg_finite q Hq) as Nq.
  pose proof (percent_value p Hp) as [Lp Up].
  pose proof (percent_value q Hq) as [Lq Uq].
  destruct Hp as (Vp & _), Hq as (Vq & _).
  destruct (scaled_emitted p Vp Np Up) as [-> _].
  destruct (scaled_emitted q Vq Nq Uq) as [-> _].
  pose proof (leb_Fnum p q Vp Vq Np Nq Hle) as Hpq.
  rewrite <- emitted_0, <- emitted_100.
  repeat split; apply emitted_mono; assumption.
Qed.

End Rounding.

(** ** Progress values of the video fetch *)

Lemma scaled_progress_eq (p : spec_float) :
  Gui.scaled_progress p = Binary64.scaled p.
Proof. reflexivity. Qed.

Lemma to_int_result (x : spec_float) :
  Binary64.is_result x -> Float.to_int x = inr (Binary64.trunc x).
Proof. intros [-> | (m & e & -> & _)]; reflexivity. Qed.

Lemma percent_result (p : spec_float) :
  percent p -> Float.to_int (Gui.scaled_progress p) = inr (report p).
Proof.
  intros Hp. apply to_int_result. rewrite scaled_progress_eq.
  pose proof (Rounding.percent_nonneg_finite p Hp) as Hn.
  pose proof (Rounding.percent_value p Hp) as [_ Hu].
  destruct Hp as (Hv & _).
  now destruct (Rounding.scaled_emitted p Hv Hn Hu).
Qed.

Lemma report_range (p : spec_float) : percent p -> 30 <= report p <= 70.
Proof.
  intros Hp. unfold report. rewrite scaled_progress_eq.
  assert (Hr : Float.leb p p = true).
  { destruct Hp as (_ & H0 & H1).
    destruct p as [s | [] | | [] m e]; try discriminate; try reflexivity.
    unfold Float.leb, SFleb, SFcompare. rewrite Z.compare_refl.
    now rewrite Pos.compare_cont_refl. }
  pose proof (Rounding.scaled_percent_monotone p p Hp Hp Hr). lia.
Qed.

Lemma report_mono (p q : spec_float) :
  percent p -> percent q -> Float.leb p q = true -> report p <= report q.
Proof.
  intros Hp Hq Hle. unfold report.
  rewrite (scaled_progress_eq p), (scaled_progress_eq q).
  pose proof (Rounding.scaled_percent_monotone p q Hp Hq Hle). lia.
Qed.

Section Percentages.
Variable w : World.

Lemma line_progress_percent (line : string) (p : spec_float) :
  line_percent w line = Some p -> percent p ->
  line_progress w line = Some (report p).
Proof.
  unfold line_percent, line_progress. intros H Hp.
  destruct (PyStr.contains "%" line); [| discriminate].
  destruct (py_float w (Gui.progress_str line)) as [e | x]; [discriminate |].
  injection H as ->. now rewrite (percent_result p Hp).
Qed.

Lemma line_progress_none (line : string) :
  line_percent w line = None -> line_progress w line = None.
Proof.
  unfold line_percent, line_progress.
  destruct (PyStr.contains "%" line); [| reflexivity].
  now destruct (py_float w (Gui.progress_str line)).
Qed.

Lemma output_progress_percents (lines : list string) :
  Forall percent (output_percents w lines) ->
  output_progress w lines = map report (output_percents w lines).
Proof.
  induction lines as [| line rest IH]; [reflexivity |].
  unfold output_percents, output_progress in *. simpl.
  intros H. apply Forall_app in H. destruct H as [Hl Hr].
  rewrite map_app, <- (IH Hr). f_equal.
  destruct (line_percent w line) as [p |] eqn:E.
  - destruct (PyStr.nonempty line).
    + inversion Hl as [| x l Hp _]; subst.
      now rewrite (line_progress_percent line p E Hp).
    + now destruct (line_progress w line).
  - now rewrite (line_progress_none line E).
Qed.

Lemma reports_sorted (l : list spec_float) :
  Forall percent l -> nondecreasing_floats l ->
  Forall (fun n => 30 <= n <= 70) (map report l)
  /\ nondecreasing (map report l).
Proof.
  unfold nondecreasing_floats, nondecreasing.
  induction l as [| p l IH]; intros Hp Hs; [split; constructor |].
  inversion Hp as [| x xs Hx Hxs]; subst.
  inversion Hs as [| x xs Hs' Hhd]; subst.
  destruct (IH Hxs Hs') as [IH1 IH2]. split.
  - constructor; [now apply report_range | assumption].
  - simpl. constructor; [assumption |].
    destruct l as [| q l]; [constructor |].
    inversion Hhd; subst. inversion Hxs; subst.
    constructor. now apply report_mono.
Qed.

End Percentages.

(** ** The progress of a run, in general *)

Lemma finished_signals_app (a b : list event) :
  finished_signals (a ++ b) = (finished_signals a ++ finished_signals b)%list.
Proof.
  induction a as [| e a IH]; [reflexivity |].
  destruct e; simpl; now rewrite IH.
Qed.

Lemma terminal_finished (t : list event) (s : string) :
  terminal t = Some (SigFinished s) -> In s (finished_signals t).
Proof.
  unfold terminal. intros H.
  assert (Hin : In (SigFinished s) t).
  { apply in_rev. destruct (rev t) as [| e l]; [discriminate |].
    injection H as ->. now left. }
  clear H. induction t as [| e t IH]; [destruct Hin |].
  destruct Hin as [-> | Hin]; [now left |].
  destruct e; simpl; auto.
Qed.

Ltac pstep :=
  cbn beta iota delta [fst snd pass ret return_ raise lift emit
                       progress_values finished_signals app];
  repeat (rewrite ?fst_bind, ?snd_bind, ?progress_values_app,
            ?finished_signals_app);
  cbn beta iota delta [fst snd pass ret return_ raise lift emit
                       progress_values finished_signals app].

Section Progress.
Variable w : World.
Variable self : Gui.DownloadWorker.

Lemma progress_ensure_directory (p : string) (R : Type) :
  progress_values (fst (@ensure_directory R w p)) = []
  /\ finished_signals (fst (@ensure_directory R w p)) = [].
Proof.
  unfold ensure_directory. destruct (path_exists w p); simpl; [now split |].
  now destruct (makedirs w p).
Qed.

Lemma progress_get_video_info (R : Type) :
  finished_signals (fst (@Gui.get_video_info w self R)) = []
  /\ ((progress_values (fst (@Gui.get_video_info w self R)) = [10]
       /\ snd (@Gui.get_video_info w self R) = Next VNone)
      \/ (progress_values (fst (@Gui.get_video_info w self R)) = [10; 20]
          /\ exists v, snd (@Gui.get_video_info w self R) = Next v)).
Proof.
  unfold Gui.get_video_info, run_process. simpl.
  destruct (subprocess_run w (info_cmd (Gui.url self))) as [e | cp]; simpl;
    [now split; [| left] |].
  destruct (returncode cp =? 0); simpl; [| now split; [| left]].
  destruct (json_loads w (stdout cp)) as [e | v]; simpl;
    [now split; [| left] |].
  split; [reflexivity |]. right. split; [reflexivity | now exists v].
Qed.

Lemma finished_output_events (lines : list string) :
  finished_signals (output_events w lines) = [].
Proof.
  induction lines as [| line rest IH]; [reflexivity |].
  unfold output_events in *. simpl. rewrite finished_signals_app, IH.
  destruct (PyStr.nonempty line); [| reflexivity].
  unfold line_events. now destruct (line_progress w line).
Qed.

Lemma progress_fetch_video (vf : string) :
  progress_values (fst (Gui.fetch_video w self vf)) = 30 :: video_progress w self vf
  /\ finished_signals (fst (Gui.fetch_video w self vf)) = [].
Proof.
  unfold Gui.fetch_video, popen, run_process, video_progress. simpl.
  destruct (subprocess_popen w _) as [e | po]; simpl; [now split |].
  rewrite read_output_eq.
  destruct (exit_status po =? 0); simpl.
  - rewrite progress_values_app, finished_signals_app,
      progress_output_events, finished_output_events.
    simpl. now rewrite app_nil_r.
  - destruct (subprocess_run w _) as [e | cp]; simpl;
      [| destruct (returncode cp =? 0); simpl];
      rewrite progress_values_app, finished_signals_app,
        progress_output_events, finished_output_events;
      simpl; now rewrite app_nil_r.
Qed.

Lemma progress_fetch_audio (vf af : string) :
  progress_values (fst (Gui.fetch_audio w self vf af)) = [70]
  /\ finished_signals (fst (Gui.fetch_audio w self vf af)) = [].
Proof.
  rewrite fetch_audio_eq.
  destruct (subprocess_run w _) as [e | cp]; [now split |].
  now destruct (returncode cp =? 0).
Qed.

(** The progress values of any run of the worker, in any world: 10 and 20
    around the metadata fetch, 30 and the values of the lines when video is
    fetched, 70 when audio is extracted, and 100 exactly when the run
    finishes. *)
Lemma gui_run_progress :
  exists vf,
    let P := 30 :: video_progress w self vf in
    (finished_signals (Gui.run w self) = []
     /\ In (progress_values (Gui.run w self))
           [ []; [10]; [10; 20]; 10 :: 20 :: P;
             (10 :: 20 :: P ++ [70])%list; [10; 20; 70] ])
    \/ (finished_signals (Gui.run w self) = [Gui.output_path self]
        /\ In (progress_values (Gui.run w self))
              [ (10 :: 20 :: P ++ [70; 100])%list;
                (10 :: 20 :: P ++ [100])%list;
                [10; 20; 70; 100]; [10; 20; 100] ]).
Proof.
  unfold Gui.run, Gui.run_body.
  rewrite gui_check_dependencies_eq, bind_pure.
  destruct (unresolved w) as [| d l].
  2:{ exists "". left. simpl. auto. }
  unfold pass, ret. rewrite bind_pure.
  rewrite fst_try_except.
  pstep.
  destruct (progress_ensure_directory (Gui.output_path self) unit) as [-> ->].
  destruct (snd (ensure_directory w (Gui.output_path self))) as [[] | r | e].
  2:{ exists "". left. simpl. auto. }
  2:{ exists "". left. simpl. auto. }
  pstep.
  destruct (progress_get_video_info unit) as [-> [[-> ->] | [-> [v ->]]]].
  { exists "". left. simpl. auto. }
  pstep. destruct (truthy v); cbn [negb].
  2:{ exists "". left. simpl. auto. }
  pstep.
  destruct (py_get v "title" (VStr "video")) as [e | tv]; pstep.
  { exists "". left. simpl. auto. }
  destruct (sanitize_value tv) as [e | st]; pstep.
  { exists "". left. simpl. auto. }
  exists (video_file_path (Gui.output_path self) st).
  set (vf := video_file_path (Gui.output_path self) st).
  set (af := audio_file_path (Gui.output_path self) st).
  destruct (Gui.download_video self) eqn:Edv; pstep.
  - destruct (progress_fetch_video vf) as [-> ->].
    destruct (snd (Gui.fetch_video w self vf)) as [[] | r | e];
      [destruct (Gui.download_audio self) |..]; pstep.
    + destruct (progress_fetch_audio vf af) as [-> ->].
      destruct (snd (Gui.fetch_audio w self vf af)) as [[] | r | e];
        simpl; rewrite ?app_nil_r; [right | left | left];
        split; try reflexivity; simpl; rewrite <- ?app_assoc; simpl; auto 10.
    + right. simpl. rewrite ?app_nil_r. split; [reflexivity |].
      simpl. auto 10.
    + left. simpl. rewrite ?app_nil_r. split; [reflexivity |].
      simpl. auto 10.
    + left. simpl. rewrite ?app_nil_r. split; [reflexivity |].
      simpl. auto 10.
  - destruct (Gui.download_audio self); pstep.
    + destruct (progress_fetch_audio vf af) as [-> ->].
      destruct (snd (Gui.fetch_audio w self vf af)) as [[] | r | e];
        simpl; [right | left | left]; split; try reflexivity; simpl; auto 10.
    + right. simpl. split; [reflexivity |]. simpl. auto 10.
Qed.

End Progress.

Lemma sorted_app_between (b : Z) (l r : list Z) :
  Sorted Z.le l -> Forall (fun n => n <= b) l ->
  Sorted Z.le r -> Forall (fun n => b <= n) r ->
  Sorted Z.le (l ++ r).
Proof.
  intros Hl Hb Hr Hb'. induction l as [| x l IH]; [exact Hr |].
  inversion Hl as [| ? ? Hl' Hhd]; subst. inversion Hb as [| ? ? Hx Hb'']; subst.
  simpl. constructor; [now apply IH |].
  destruct l as [| y l]; simpl.
  - destruct r as [| z r]; constructor. inversion Hb'; subst. lia.
  - inversion Hhd; subst. now constructor.
Qed.

Lemma sorted_progress (l tail : list Z) :
  Forall (fun n => 30 <= n <= 70) l -> nondecreasing l ->
  In tail [ []; [70]; [100]; [70; 100] ] ->
  nondecreasing (10 :: 20 :: 30 :: l ++ tail).
Proof.
  unfold nondecreasing. intros Hr Hs Ht.
  assert (Htail : Sorted Z.le tail /\ Forall (fun n => 70 <= n) tail).
  { simpl in Ht. destruct Ht as [<- | [<- | [<- | [<- | []]]]];
      split; repeat constructor; lia. }
  destruct Htail as [Hts Htb].
  assert (H30 : Sorted Z.le ((30 :: l) ++ tail)).
  { apply sorted_app_between with (b := 70); try assumption.
    - constructor; [assumption |].
      destruct l as [| x l]; constructor. inversion Hr; subst. lia.
    - constructor; [lia |]. eapply Forall_impl; [| exact Hr].
      simpl. intros a Ha. lia. }
  simpl in H30.
  constructor; [constructor; [exact H30 | constructor; lia] | constructor; lia].
Qed.

(** The progress values of a run that fetches video: 10 and 20 of the
    metadata fetch, 30, the values the loop emits for the output of the
    primary attempt, then 70 if the audio stage is reached and 100 if the
    run completes. *)
Lemma run_video_progress
    (w : World) (self : Gui.DownloadWorker) (title : string) (po : PopenRun) :
  metadata_ok w (Gui.url self) (Gui.output_path self) title ->
  Gui.download_video self = true ->
  subprocess_popen w (Gui.primary_video_cmd self (video_file self title))
    = inr po ->
  exists tail,
    In tail [ []; [70]; [100]; [70; 100] ]
    /\ progress_values (Gui.run w self)
       = (10 :: 20 :: 30
          :: progress_values (fst (@Gui.read_output w unit (output_lines po)))
          ++ tail)%list.
Proof.
  intros Hmeta Hv Hpo.
  rewrite (run_after_metadata w self title Hmeta).
  rewrite read_output_eq. cbn [fst]. rewrite progress_output_events.
  rewrite progress_values_app.
  assert (Hp : progress_values (prelude w self title) = [10; 20]).
  { unfold prelude.
    now rewrite !progress_values_app, progress_directory_events. }
  rewrite Hp, fst_try_except, progress_values_app.
  assert (Hh : forall f : flow unit unit,
             progress_values match f with
                             | Raise e => fst (run_handler e)
                             | _ => []
                             end = []).
  { intros f. now destruct f. }
  rewrite Hh, app_nil_r.
  unfold media_stages. rewrite Hv.
  set (vf := video_file self title) in *.
  set (af := audio_file self title).
  pstep.
  destruct (progress_fetch_video w self vf) as [-> _].
  unfold video_progress. rewrite Hpo.
  destruct (snd (Gui.fetch_video w self vf)) as [[] | r | e];
    [destruct (Gui.download_audio self) |..]; pstep.
  - destruct (progress_fetch_audio w self vf af) as [-> _].
    destruct (snd (Gui.fetch_audio w self vf af)) as [[] | r | e];
      [exists [70; 100] | exists [70] | exists [70]];
      (split; [cbn [In]; auto 10 |]); cbn [app]; now rewrite ?app_nil_r.
  - exists [100]. split; [cbn [In]; auto 10 |]. reflexivity.
  - exists []. split; [cbn [In]; auto 10 |]. reflexivity.
  - exists []. split; [cbn [In]; auto 10 |]. reflexivity.
Qed.

(** C5, as the code has it. For a line with a percent sign whose token
    reads as a float [p] between 0 and 100, the body of the loop emits the
    stripped line and then one progress value, [int(30 + p * 0.4)], which is
    between 30 and 70. The loop emits, for the lines it reads, exactly the
    values of their percentages, in order; they are between 30 and 70 when
    the percentages are between 0 and 100, and they do not decrease when
    the percentages do not. The run emits 10, 20 and 30, then the values of
    the loop, then 70 and 100 as it gets there. When every output of the
    video engine is such, the progress values of the whole run do not
    decrease, and a run that finishes reports from 10 up to 100. Nothing
    clamps or orders the values otherwise. *)
Theorem progress_for_percentages (w : World) (self : Gui.DownloadWorker) :
  (forall line p,
      PyStr.contains "%" line = true ->
      py_float w (Gui.progress_str line) = inr p ->
      percent p ->
      fst (@Gui.report_line w unit line)
      = [SigLog (PyStr.strip line); SigProgress (report p)]
      /\ progress_values (fst (@Gui.report_line w unit line)) = [report p]
      /\ Float.to_int (Float.add (Float.of_Z 30) (Float.mul p Float.lit_0_4))
         = inr (report p)
      /\ 30 <= report p <= 70)
  /\ (forall lines,
        Forall percent (output_percents w lines) ->
        progress_values (fst (@Gui.read_output w unit lines))
        = map report (output_percents w lines)
        /\ Forall (fun n => 30 <= n <= 70)
                  (progress_values (fst (@Gui.read_output w unit lines)))
        /\ (nondecreasing_floats (output_percents w lines) ->
            nondecreasing
              (progress_values (fst (@Gui.read_output w unit lines)))))
  /\ (forall title po,
        metadata_ok w (Gui.url self) (Gui.output_path self) title ->
        Gui.download_video self = true ->
        subprocess_popen w (Gui.primary_video_cmd self (video_file self title))
          = inr po ->
        exists tail,
          In tail [ []; [70]; [100]; [70; 100] ]
          /\ progress_values (Gui.run w self)
             = (10 :: 20 :: 30
                :: progress_values
                     (fst (@Gui.read_output w unit (output_lines po)))
                ++ tail)%list)
  /\ ((forall vf po,
          subprocess_popen w (Gui.primary_video_cmd self vf) = inr po ->
          Forall percent (output_percents w (output_lines po))
          /\ nondecreasing_floats (output_percents w (output_lines po))) ->
      nondecreasing (progress_values (Gui.run w self))
      /\ (forall s,
            terminal (Gui.run w self) = Some (SigFinished s) ->
            hd 0 (progress_values (Gui.run w self)) = 10
            /\ last (progress_values (Gui.run w self)) 0 = 100)).
Proof.
  split; [| split; [| split]].
  - intros line p Hc Hf Hp.
    assert (Hl : line_percent w line = Some p).
    { unfold line_percent. now rewrite Hc, Hf. }
    pose proof (line_progress_percent w line p Hl Hp) as Hlp.
    rewrite report_line_eq. cbn [fst]. unfold line_events. rewrite Hlp.
    split; [reflexivity |]. split; [reflexivity |].
    split; [exact (percent_result p Hp) | now apply report_range].
  - intros lines Hp. rewrite read_output_eq. cbn [fst].
    rewrite progress_output_events, (output_progress_percents w lines Hp).
    split; [reflexivity |]. split.
    + clear - Hp. induction Hp; constructor; [now apply report_range | assumption].
    + intros Hs. now apply reports_sorted.
  - intros title po. apply run_video_progress.
  - intros Hout.
    destruct (gui_run_progress w self) as [vf Hshape]. cbv zeta in Hshape.
    assert (Hv : Forall (fun n => 30 <= n <= 70) (video_progress w self vf)
                 /\ nondecreasing (video_progress w self vf)).
    { unfold video_progress.
      destruct (subprocess_popen w (Gui.primary_video_cmd self vf)) as [e | po] eqn:E;
        [split; constructor |].
      destruct (Hout vf po E) as [Hp Hs].
      rewrite (output_progress_percents w _ Hp). now apply reports_sorted. }
    destruct Hv as [Hr Hs].
    pose proof (sorted_progress _ [] Hr Hs ltac:(simpl; auto)) as S0.
    pose proof (sorted_progress _ [70] Hr Hs ltac:(simpl; auto)) as S1.
    pose proof (sorted_progress _ [100] Hr Hs ltac:(simpl; auto)) as S2.
    pose proof (sorted_progress _ [70; 100] Hr Hs ltac:(simpl; auto)) as S3.
    rewrite app_nil_r in S0.
    split.
    + destruct Hshape as [[_ H] | [_ H]]; simpl in H;
        repeat (destruct H as [<- | H]; [try assumption |]);
        try (destruct H); unfold nondecreasing; repeat constructor; lia.
    + intros s Hterm. apply terminal_finished in Hterm.
      destruct Hshape as [[Hf _] | [_ H]]; [rewrite Hf in Hterm; destruct Hterm |].
      simpl in H.
      destruct H as [<- | [<- | [<- | [<- | []]]]]; split; try reflexivity.
      * replace (10 :: 20 :: 30 :: video_progress w self vf ++ [70; 100])%list
          with ((10 :: 20 :: 30 :: video_progress w self vf ++ [70]) ++ [100])%list
          by (simpl; now rewrite <- app_assoc).
        apply last_last.
      * change (10 :: 20 :: 30 :: video_progress w self vf ++ [100])%list
          with ((10 :: 20 :: 30 :: video_progress w self vf) ++ [100])%list.
        apply last_last.
Qed.

Lemma happy_percent_50 : percent (S754_finite false 7036874417766400 (-47)).
Proof. repeat split. Defined.

(** The line that reports one half of the video stream makes the body of
    the loop emit the value 50. *)
Lemma progress_for_percentages_witness :
  fst (@Gui.report_line happy_world unit half_way_line)
  = [SigLog "[download]  50.0% of 10.00MiB at 1.00MiB/s ETA 00:05";
     SigProgress 50]
  /\ progress_values (fst (@Gui.report_line happy_world unit half_way_line))
     = [50].
Proof.
  destruct (progress_for_percentages happy_world sample_worker) as (H & _).
  destruct (H half_way_line (S754_finite false 7036874417766400 (-47)))
    as (H1 & H2 & _); [reflexivity | reflexivity | exact happy_percent_50 |].
  split; [exact H1 | exact H2].
Defined.

(** C5, as stated, fails. The download engine reports each stream it
    fetches with percentages of its own, so the values go up to 70 and back
    down; the progress of the whole run, which finishes, goes down from 70
    to 34. A percentage above 100 leads to a value above 70. *)
Lemma progress_counterexample :
  output_progress happy_world two_stream_lines = [50; 70; 34; 70]
  /\ ~ nondecreasing (output_progress happy_world two_stream_lines)
  /\ progress_values (Gui.run happy_world sample_worker)
     = [10; 20; 30; 50; 70; 34; 70; 70; 100]
  /\ terminal (Gui.run happy_world sample_worker)
     = Some (SigFinished "downloads")
  /\ ~ nondecreasing (progress_values (Gui.run happy_world sample_worker))
  /\ line_progress happy_world
       "[download] 105.0% of ~10.00MiB at 1.00MiB/s ETA 00:00 (frag 12/12)"
     = Some 72.
Proof.
  assert (H1 : output_progress happy_world two_stream_lines = [50; 70; 34; 70])
    by (vm_compute; reflexivity).
  assert (H2 : progress_values (Gui.run happy_world sample_worker)
               = [10; 20; 30; 50; 70; 34; 70; 70; 100])
    by (vm_compute; reflexivity).
  split; [exact H1 |]. split.
  { rewrite H1. intros H.
    apply Sorted_inv in H as [H _]. apply Sorted_inv in H as [_ H].
    inversion H. lia. }
  split; [exact H2 |]. split; [vm_compute; reflexivity |]. split.
  { rewrite H2. intros H.
    do 4 (apply Sorted_inv in H as [H _]). apply Sorted_inv in H as [_ H].
    inversion H. lia. }
  vm_compute. reflexivity.
Qed.

(** * Further properties *)

(** ** File names and output paths *)

Lemma chars_app (a b : string) :
  PyStr.chars (a ++ b) = (PyStr.chars a ++ PyStr.chars b)%list.
Proof.
  unfold PyStr.chars. induction a as [| c a IH]; simpl; [reflexivity |].
  now rewrite IH.
Qed.

Lemma string_app_inv_head (a b c : string) : a ++ b = a ++ c -> b = c.
Proof.
  induction a as [| x a IH]; simpl; intros H; [assumption |].
  injection H as H. auto.
Qed.

Lemma string_app_assoc (a b c : string) : (a ++ b) ++ c = a ++ b ++ c.
Proof.
  induction a as [| x a IH]; simpl; [reflexivity |]. now rewrite IH.
Qed.

Lemma prefix_sep_chars (s : string) :
  String.prefix "/" s = true -> In "/"%char (PyStr.chars s).
Proof.
  destruct s as [| c r]; cbn [String.prefix]; [discriminate |].
  destruct (Ascii.ascii_dec "/" c) as [<- | Hne]; intros H; [now left |].
  discriminate.
Qed.

Lemma sanitized_no_sep (title ext : string) :
  ~ In "/"%char (PyStr.chars ext) ->
  ~ In "/"%char (PyStr.chars (sanitize_filename title ++ ext)).
Proof.
  intros Hext. rewrite chars_app. intros H. apply in_app_or in H.
  destruct H as [H | H]; [| now apply Hext].
  apply sanitize_filename_clean in H. apply H. simpl. tauto.
Qed.

Lemma os_path_join_relative (a b : string) :
  ~ In "/"%char (PyStr.chars b) ->
  os_path_join a b = directory_prefix a ++ b.
Proof.
  intros Hb. unfold os_path_join, directory_prefix.
  destruct (String.prefix "/" b) eqn:Hp.
  - exfalso. now apply Hb, prefix_sep_chars.
  - destruct (negb (PyStr.nonempty a) || endswith_sep a); [reflexivity |].
    now rewrite string_app_assoc.
Qed.

Lemma output_path_relative (output_path title ext : string) :
  (forall c, In c (PyStr.chars ext) -> c <> "/"%char) ->
  os_path_join output_path (sanitize_filename title ++ ext)
  = directory_prefix output_path ++ sanitize_filename title ++ ext.
Proof.
  intros Hext. apply os_path_join_relative, sanitized_no_sep.
  intros H. now apply Hext in H.
Qed.

(** X1. Sanitizing is idempotent and goes through concatenation: a
    sanitized name is left as it is by a second pass, and the sanitized
    form of a title made of two parts is the one part sanitized followed by
    the other sanitized. *)
Theorem sanitize_filename_idempotent (a b : string) :
  sanitize_filename (sanitize_filename a) = sanitize_filename a
  /\ sanitize_filename (a ++ b) = sanitize_filename a ++ sanitize_filename b.
Proof.
  split.
  - apply sanitize_filename_id. intros c Hc.
    now apply sanitize_filename_clean in Hc.
  - apply sanitize_filename_app.
Qed.

(** X2. Whatever the title, the two output files lie directly in the output
    directory: each path is the directory, one separator unless the
    directory is empty or ends with one, and the sanitized title with its
    extension, which holds no separator; and the audio file is never the
    video file. *)
Theorem output_files_inside_directory (output_path title : string) :
  let name := sanitize_filename title in
  video_file_path output_path name
  = directory_prefix output_path ++ name ++ ".mp4"
  /\ audio_file_path output_path name
     = directory_prefix output_path ++ name ++ ".mp3"
  /\ ~ In "/"%char (PyStr.chars (name ++ ".mp4"))
  /\ ~ In "/"%char (PyStr.chars (name ++ ".mp3"))
  /\ video_file_path output_path name <> audio_file_path output_path name.
Proof.
  intros name.
  assert (H4 : ~ In "/"%char (PyStr.chars (name ++ ".mp4"))).
  { apply sanitized_no_sep. simpl. intros H.
    repeat (destruct H as [H | H]; [discriminate |]). exact H. }
  assert (H3 : ~ In "/"%char (PyStr.chars (name ++ ".mp3"))).
  { apply sanitized_no_sep. simpl. intros H.
    repeat (destruct H as [H | H]; [discriminate |]). exact H. }
  unfold video_file_path, audio_file_path.
  rewrite (os_path_join_relative _ _ H4), (os_path_join_relative _ _ H3).
  repeat split; try assumption.
  intros H. apply string_app_inv_head, string_app_inv_head in H.
  discriminate.
Qed.

(** ** The token the percentage is read from *)

Lemma split_nonempty (sep : ascii) (s : string) : PyStr.split sep s <> [].
Proof.
  induction s as [| c r IH]; simpl; [discriminate |].
  destruct (Ascii.eqb c sep); [discriminate |].
  destruct (PyStr.split sep r); discriminate.
Qed.

Lemma split_app_sep (sep : ascii) (a b : string) :
  PyStr.split sep (a ++ String sep b)
  = (PyStr.split sep a ++ PyStr.split sep b)%list.
Proof.
  induction a as [| c r IH]; simpl.
  - now rewrite Ascii.eqb_refl.
  - rewrite IH. destruct (Ascii.eqb c sep); [reflexivity |].
    destruct (PyStr.split sep r) eqn:E; [| reflexivity].
    now apply split_nonempty in E.
Qed.

Lemma split_no_sep (sep : ascii) (s : string) :
  ~ In sep (PyStr.chars s) -> PyStr.split sep s = [s].
Proof.
  induction s as [| c r IH]; simpl; intros H; [reflexivity |].
  destruct (Ascii.eqb c sep) eqn:E.
  - apply Ascii.eqb_eq in E. exfalso. apply H. now left.
  - rewrite IH; [reflexivity |]. intros Hin. apply H. now right.
Qed.

Lemma split_pieces (sep : ascii) (s : string) :
  Forall (fun p => ~ In sep (PyStr.chars p)
                   /\ forall c, In c (PyStr.chars p) -> In c (PyStr.chars s))
         (PyStr.split sep s).
Proof.
  induction s as [| c r IH]; simpl.
  - constructor; [| constructor]. split; [intros [] | auto].
  - destruct (Ascii.eqb c sep) eqn:E.
    + constructor.
      * split; [intros [] | intros x []].
      * eapply Forall_impl; [| exact IH]. intros p [Hp Hsub].
        split; [assumption |]. intros x Hx. right. now apply Hsub.
    + destruct (PyStr.split sep r) as [| h t] eqn:Es;
        [now apply split_nonempty in Es |].
      inversion IH as [| ? ? [Hh Hsub] Ht]; subst. constructor.
      * split.
        -- simpl. intros [Heq | Hin]; [| now apply Hh].
           subst. now rewrite Ascii.eqb_refl in E.
        -- simpl. intros x [Hx | Hx]; [now left | right; now apply Hsub].
      * eapply Forall_impl; [| exact Ht]. intros p [Hp Hsub'].
        split; [assumption |]. intros x Hx. right. now apply Hsub'.
Qed.

Lemma final_In (l : list string) : l <> [] -> In (PyStr.final l) l.
Proof.
  unfold PyStr.final. induction l as [| a l IH]; [congruence |].
  intros _. destruct l as [| b l]; [now left |].
  right. apply IH. discriminate.
Qed.

Lemma first_In (l : list string) : l <> [] -> In (PyStr.first l) l.
Proof. destruct l; [congruence | intros _; now left]. Qed.

Lemma strip_chars (s : string) (c : ascii) :
  In c (PyStr.chars (PyStr.strip s)) -> In c (PyStr.chars s).
Proof.
  destruct (strip_spec s) as [a [b [Heq _]]]. intros H.
  rewrite Heq at 1. rewrite !chars_app. apply in_or_app. right.
  apply in_or_app. now left.
Qed.

Lemma ends_blank_tail (x : ascii) (r : string) :
  (exists p, String x r = p ++ " ") -> r = "" \/ exists p, r = p ++ " ".
Proof.
  intros [p Hp]. destruct r as [| y r']; [now left |]. right.
  destruct p as [| z p']; simpl in Hp; [discriminate |].
  injection Hp as _ Hp. now exists p'.
Qed.

Lemma lstrip_app_token (c : ascii) (t pre : string) :
  PyStr.isspace c = false ->
  pre = "" \/ (exists p, pre = p ++ " ") ->
  exists u, (u = "" \/ exists p, u = p ++ " ")
            /\ PyStr.lstrip (pre ++ String c t) = u ++ String c t.
Proof.
  intros Hc. induction pre as [| x r IH]; intros Hpre.
  - exists "". split; [now left |]. simpl. now rewrite Hc.
  - destruct Hpre as [Hpre | Hpre]; [discriminate |].
    simpl. destruct (PyStr.isspace x).
    + apply IH. now apply ends_blank_tail in Hpre.
    + exists (String x r). split; [now right | reflexivity].
Qed.

Lemma rstrip_token (tok : string) :
  Forall (fun c => PyStr.isspace c = false) (PyStr.chars tok) ->
  PyStr.rstrip tok = tok.
Proof.
  induction tok as [| c r IH]; simpl; intros H; [reflexivity |].
  inversion H as [| ? ? Hc Hr]; subst. rewrite (IH Hr).
  destruct r; [now rewrite Hc | reflexivity].
Qed.

Lemma rstrip_app_token (u tok : string) :
  tok <> "" ->
  Forall (fun c => PyStr.isspace c = false) (PyStr.chars tok) ->
  PyStr.rstrip (u ++ tok) = u ++ tok.
Proof.
  intros Hne Htok. induction u as [| x r IH]; simpl.
  - now apply rstrip_token.
  - rewrite IH. destruct (r ++ tok) eqn:E; [| reflexivity].
    destruct r; simpl in E; [congruence | discriminate].
Qed.

Lemma final_split_token (u tok : string) :
  ~ In " "%char (PyStr.chars tok) ->
  u = "" \/ (exists p, u = p ++ " ") ->
  PyStr.final (PyStr.split " " (u ++ tok)) = tok.
Proof.
  intros Htok [-> | [p ->]].
  - simpl. now rewrite split_no_sep.
  - rewrite string_app_assoc. change (" " ++ tok) with (String " " tok).
    rewrite split_app_sep, (split_no_sep _ tok Htok).
    unfold PyStr.final. apply last_last.
Qed.

(** X3. In a line of the download engine, the token the percentage is read
    from is the number just before the first percent sign: when the text
    before it is empty or ends with a space and holds no percent sign, and
    the number is a non-empty run without white space or percent sign, the
    token is that number, whatever follows the percent sign. *)
Theorem progress_str_token (pre tok post : string) :
  pre = "" \/ (exists p, pre = p ++ " ") ->
  ~ In "%"%char (PyStr.chars pre) ->
  tok <> "" ->
  Forall (fun c => PyStr.isspace c = false /\ c <> "%"%char) (PyStr.chars tok) ->
  Gui.progress_str (pre ++ tok ++ "%" ++ post) = tok.
Proof.
  intros Hpre Hnp Hne Htok.
  assert (Hsp : Forall (fun c => PyStr.isspace c = false) (PyStr.chars tok)).
  { eapply Forall_impl; [| exact Htok]. now intros c [H _]. }
  assert (Hnb : ~ In " "%char (PyStr.chars tok)).
  { intros H. rewrite Forall_forall in Hsp. now apply Hsp in H. }
  assert (Hpt : ~ In "%"%char (PyStr.chars (pre ++ tok))).
  { rewrite chars_app. intros H. apply in_app_or in H.
    destruct H as [H | H]; [now apply Hnp |].
    rewrite Forall_forall in Htok. now apply Htok in H. }
  unfold Gui.progress_str.
  replace (pre ++ tok ++ "%" ++ post) with ((pre ++ tok) ++ String "%" post)
    by now rewrite string_app_assoc.
  rewrite split_app_sep, (split_no_sep _ _ Hpt). cbn [app PyStr.first hd].
  destruct tok as [| c t]; [congruence |].
  assert (Hc : PyStr.isspace c = false) by now inversion Hsp.
  destruct (lstrip_app_token c t pre Hc Hpre) as [u [Hu Hl]].
  unfold PyStr.strip. rewrite Hl, (rstrip_app_token u _ Hne Hsp).
  now apply final_split_token.
Qed.

(** The token of the line that reports one half of the video stream. *)
Lemma progress_str_token_witness : Gui.progress_str half_way_line = "50.0".
Proof.
  apply (progress_str_token "[download]  " "50.0"
           (" of 10.00MiB at 1.00MiB/s ETA 00:05" ++ PyStr.nl)).
  - right. exists "[download] ". reflexivity.
  - simpl. intros H.
    repeat (destruct H as [H | H]; [discriminate |]). exact H.
  - discriminate.
  - repeat constructor; discriminate.
Defined.

(** X4. The token the percentage is read from never holds a space or a
    percent sign, and it depends only on the text before the first percent
    sign of the line. *)
Theorem progress_str_first_percent (line : string) :
  ~ In " "%char (PyStr.chars (Gui.progress_str line))
  /\ ~ In "%"%char (PyStr.chars (Gui.progress_str line))
  /\ (forall a b, line = a ++ "%" ++ b -> ~ In "%"%char (PyStr.chars a) ->
        Gui.progress_str line = Gui.progress_str a).
Proof.
  unfold Gui.progress_str. repeat split.
  - set (x := PyStr.strip _).
    pose proof (split_pieces " " x) as H. rewrite Forall_forall in H.
    apply (H _ (final_In _ (split_nonempty " " x))).
  - set (y := PyStr.first _). intros Hin.
    pose proof (split_pieces " " (PyStr.strip y)) as H.
    rewrite Forall_forall in H.
    apply (H _ (final_In _ (split_nonempty " " _))) in Hin.
    apply strip_chars in Hin.
    pose proof (split_pieces "%" line) as H'. rewrite Forall_forall in H'.
    now apply (H' _ (first_In _ (split_nonempty "%" line))).
  - intros a b -> Ha. change ("%" ++ b) with (String "%" b).
    now rewrite split_app_sep, !(split_no_sep _ a Ha).
Qed.

(** ** How a run of the worker ends *)

Lemma reports_app (a b : list event) :
  reports (a ++ b) = (reports a ++ reports b)%list.
Proof. apply filter_app. Qed.

Lemma reports_directory_events (w : World) (p : string) :
  reports (directory_events w p) = [].
Proof. unfold directory_events. now destruct (path_exists w p). Qed.

Lemma reports_output_events (w : World) (lines : list string) :
  reports (output_events w lines) = [].
Proof.
  induction lines as [| l ls IH]; [reflexivity |].
  unfold output_events in *. cbn [flat_map]. rewrite reports_app, IH, app_nil_r.
  destruct (PyStr.nonempty l); [| reflexivity].
  unfold line_events. now destruct (line_progress w l).
Qed.

Lemma reports_prelude (w : World) (self : Gui.DownloadWorker) (title : string) :
  reports (prelude w self title) = [].
Proof.
  unfold prelude. now rewrite !reports_app, reports_directory_events.
Qed.

Lemma prelude_reports_last (p t : list event) (e : event) :
  reports p = [] -> reports_last t e -> reports_last (p ++ t) e.
Proof.
  intros Hp [Hr Ht]. split.
  - now rewrite reports_app, Hp.
  - rewrite terminal_app; [assumption |]. intros ->. discriminate.
Qed.

Lemma completes_reports_last (self : Gui.DownloadWorker) (t : list event) :
  completes self t -> reports_last t (SigFinished (Gui.output_path self)).
Proof.
  intros (t' & -> & Ht'). split.
  - now rewrite reports_app, Ht'.
  - unfold completion. now rewrite terminal_app by discriminate.
Qed.

Lemma prelude_completes (self : Gui.DownloadWorker) (p t : list event) :
  reports p = [] -> completes self t -> completes self (p ++ t).
Proof.
  intros Hp (t' & -> & Ht'). exists (p ++ t')%list. split.
  - now rewrite app_assoc.
  - now rewrite reports_app, Hp, Ht'.
Qed.

Section GuiEnds.
Variable w : World.
Variable self : Gui.DownloadWorker.

Let url := Gui.url self.
Let out := Gui.output_path self.

(** The output directory cannot be created. *)
Lemma run_makedirs_failed (e : string) :
  unresolved w = [] ->
  path_exists w out = false ->
  makedirs w out = Some e ->
  Gui.run w self = [MakeDirs out; SigError ("Error: " ++ e)].
Proof.
  intros H0 Hp Hm. unfold Gui.run, Gui.run_body.
  rewrite gui_check_dependencies_eq, H0.
  unfold ensure_directory. fold out. rewrite Hp. simpl. now rewrite Hm.
Qed.

(** The metadata parses to a value that counts as false. *)
Lemma run_metadata_falsy :
  metadata_falsy w url out ->
  Gui.run w self
  = (directory_events w out ++ info_request self ++ [SigProgress 20])%list.
Proof.
  intros (H0 & Hd & cp & v & Hrun & Hrc & Hjson & Hv).
  unfold Gui.run, Gui.run_body.
  rewrite gui_check_dependencies_eq, H0.
  fold out. rewrite (ensure_directory_ready _ _ _ Hd).
  rewrite (get_video_info_parsed w self unit cp v Hrun Hrc Hjson).
  cbn [bind pass ret app]. rewrite Hv. simpl. now rewrite ?app_nil_r.
Qed.

(** The metadata parses to a true value from which no title can be had. *)
Lemma run_title_error (cp : CompletedProcess) (v : pyvalue) (e : string) :
  unresolved w = [] ->
  directory_ready w out ->
  subprocess_run w (info_cmd url) = inr cp ->
  returncode cp = 0 ->
  json_loads w (stdout cp) = inr v ->
  truthy v = true ->
  title_error v e ->
  Gui.run w self
  = (directory_events w out ++ info_request self
     ++ [SigProgress 20; SigError ("Error: " ++ e)])%list.
Proof.
  intros H0 Hd Hrun Hrc Hjson Hv He.
  unfold Gui.run, Gui.run_body.
  rewrite gui_check_dependencies_eq, H0.
  fold out. rewrite (ensure_directory_ready _ _ _ Hd).
  rewrite (get_video_info_parsed w self unit cp v Hrun Hrc Hjson).
  cbn [bind pass ret app]. rewrite Hv. cbn [negb bind pass ret lift app].
  destruct He as [He | [tv [Hget He]]].
  - rewrite He. simpl. now rewrite <- ?app_assoc.
  - rewrite Hget. cbn [bind pass ret lift app]. rewrite He. simpl.
    now rewrite <- ?app_assoc.
Qed.

End GuiEnds.

Ltac run_cbn :=
  cbn [bind fst snd try_except run_handler emit pass ret return_ raise app].

Ltac last_report :=
  split;
  [ rewrite ?reports_app, ?reports_output_events; reflexivity
  | first [ reflexivity
          | rewrite ?app_assoc; apply terminal_app_last
          | rewrite ?app_assoc; rewrite terminal_app by discriminate;
            reflexivity ] ].

Section GuiMediaEnds.
Variable w : World.
Variable self : Gui.DownloadWorker.
Variable title : string.

Let url := Gui.url self.
Let out := Gui.output_path self.
Let vf := video_file self title.
Let af := audio_file self title.

(** The audio stage and the completion. *)
Let tail_stages : M unit unit :=
  (if Gui.download_audio self then Gui.fetch_audio w self vf af else pass) ;;
  emit (SigProgress 100) ;;
  emit (SigStatus "Download complete!") ;;
  emit (SigFinished out).

Lemma tail_stages_outcome :
  (exists msg, reports_last (fst (try_except tail_stages run_handler))
                            (SigError msg))
  \/ (completes self (fst (try_except tail_stages run_handler))
      /\ (Gui.download_audio self = true -> audio_made w self vf af)).
Proof.
  unfold tail_stages. destruct (Gui.download_audio self) eqn:Ha.
  - rewrite fetch_audio_eq.
    destruct (subprocess_run w (audio_cmd self vf af)) as [e | cp] eqn:Hrun.
    + left. exists ("Error: " ++ e). run_cbn. last_report.
    + destruct (returncode cp =? 0) eqn:Hrc.
      * right. split.
        -- run_cbn. eexists. split; [reflexivity |].
           now rewrite reports_app.
        -- intros _. exists cp. split; [assumption | now apply Z.eqb_eq].
      * left. exists ((if Gui.download_video self
                       then "Error extracting audio: "
                       else "Error downloading audio: ") ++ stderr cp).
        run_cbn. last_report.
  - right. split; [now exists [] | discriminate].
Qed.

Lemma media_stages_outcome :
  (exists msg, reports_last (fst (try_except (media_stages w self title)
                                             run_handler)) (SigError msg))
  \/ (completes self (fst (try_except (media_stages w self title)
                                      run_handler))
      /\ (Gui.download_video self = true -> video_fetched w self vf)
      /\ (Gui.download_audio self = true -> audio_made w self vf af)).
Proof.
  change (media_stages w self title)
    with ((if Gui.download_video self then Gui.fetch_video w self vf else pass)
          ;; tail_stages).
  assert (Hnext : forall v : list event,
            reports v = [] ->
            (Gui.download_video self = true -> video_fetched w self vf) ->
            (exists msg,
                reports_last
                  (fst (try_except (bind ((v, Next tt) : M unit unit)
                                         (fun _ => tail_stages)) run_handler))
                  (SigError msg))
            \/ (completes self
                  (fst (try_except (bind ((v, Next tt) : M unit unit)
                                         (fun _ => tail_stages)) run_handler))
                /\ (Gui.download_video self = true -> video_fetched w self vf)
                /\ (Gui.download_audio self = true -> audio_made w self vf af))).
  { intros v Hv Hf. cbn [bind]. rewrite try_except_prefix.
    destruct tail_stages_outcome as [[msg H] | [H Ha]].
    - left. exists msg. now apply prelude_reports_last.
    - right. split; [now apply prelude_completes |]. now split. }
  destruct (Gui.download_video self) eqn:Hdv.
  - destruct (subprocess_popen w (Gui.primary_video_cmd self vf))
      as [e | po] eqn:Hpo.
    + rewrite (fetch_video_popen_raised w self vf e Hpo).
      left. exists ("Error: " ++ e). run_cbn. last_report.
    + destruct (Z.eq_dec (exit_status po) 0) as [Hst | Hst].
      * rewrite (fetch_video_primary_ok w self vf po Hpo Hst).
        apply Hnext.
        -- now rewrite !reports_app, reports_output_events.
        -- intros _. exists po. split; [assumption | now left].
      * destruct (subprocess_run w (fallback_video_cmd vf url))
          as [e | cp] eqn:Hfb.
        -- rewrite (fetch_video_fallback_raised w self vf po e Hpo Hst Hfb).
           left. exists ("Error: " ++ e). run_cbn. last_report.
        -- destruct (Z.eq_dec (returncode cp) 0) as [Hrc | Hrc].
           ++ rewrite (fetch_video_fallback_ok w self vf po cp Hpo Hst Hfb Hrc).
              apply Hnext.
              ** now rewrite !reports_app, reports_output_events.
              ** intros _. exists po. split; [assumption |].
                 right. now exists cp.
           ++ rewrite (fetch_video_fallback_failed w self vf po cp
                         Hpo Hst Hfb Hrc).
              left. exists ("Error downloading video: " ++ stderr cp).
              run_cbn. last_report.
  - apply (Hnext []); [reflexivity | discriminate].
Qed.

End GuiMediaEnds.

Lemma sanitize_value_str (tv : pyvalue) (s : string) :
  sanitize_value tv = inr s -> exists title, tv = VStr title.
Proof. destruct tv; simpl; intros H; try discriminate. now eexists. Qed.

(** Every run of the worker ends in one of three ways: without any report,
    when the metadata counts as false; with one error, its last event; or
    with the finished signal, its last event, after every stage that was
    asked for succeeded. *)
Lemma gui_run_outcome (w : World) (self : Gui.DownloadWorker) :
  (metadata_falsy w (Gui.url self) (Gui.output_path self)
   /\ reports (Gui.run w self) = [])
  \/ (exists msg, reports_last (Gui.run w self) (SigError msg))
  \/ (completes self (Gui.run w self) /\ gui_success w self).
Proof.
  unfold gui_success.
  set (url := Gui.url self). set (out := Gui.output_path self).
  destruct (unresolved w) as [| d l] eqn:H0.
  2: { right. left. eexists.
       rewrite gui_run_missing by (rewrite H0; discriminate).
       split; reflexivity. }
  assert (Hdir : directory_ready w out
                 \/ exists e, path_exists w out = false
                              /\ makedirs w out = Some e).
  { unfold directory_ready. destruct (path_exists w out); [now left; left |].
    destruct (makedirs w out) as [e |]; [right; now exists e | left; now right]. }
  destruct Hdir as [Hd | [e [Hp Hm]]].
  2: { right. left. eexists.
       rewrite (run_makedirs_failed w self e H0 Hp Hm). split; reflexivity. }
  assert (Hfail : forall msg,
             @Gui.get_video_info w self unit
             = ((info_request self ++ [SigError msg])%list, Next VNone) ->
             exists msg', reports_last (Gui.run w self) (SigError msg')).
  { intros msg H. exists msg.
    rewrite (run_metadata_failed w self _ H0 Hd H).
    apply prelude_reports_last; [apply reports_directory_events |].
    split; [reflexivity | apply terminal_app_last]. }
  destruct (subprocess_run w (info_cmd url)) as [e | cp] eqn:Hrun.
  { right. left. eapply Hfail.
    exact (get_video_info_raised w self unit e Hrun). }
  destruct (Z.eq_dec (returncode cp) 0) as [Hrc | Hrc].
  2: { right. left. eapply Hfail.
       exact (get_video_info_nonzero w self unit cp Hrun Hrc). }
  destruct (json_loads w (stdout cp)) as [e | v] eqn:Hjson.
  { right. left. eapply Hfail.
    exact (get_video_info_unparsable w self unit cp e Hrun Hrc Hjson). }
  destruct (truthy v) eqn:Hv.
  2: { left.
       assert (Hf : metadata_falsy w url out).
       { split; [assumption |]. split; [assumption |]. now exists cp, v. }
       split; [assumption |]. rewrite (run_metadata_falsy w self Hf).
       now rewrite !reports_app, reports_directory_events. }
  assert (Herr : forall e, title_error v e ->
             exists msg, reports_last (Gui.run w self) (SigError msg)).
  { intros e He. exists ("Error: " ++ e).
    rewrite (run_title_error w self cp v e H0 Hd Hrun Hrc Hjson Hv He).
    apply prelude_reports_last; [apply reports_directory_events |].
    split; [reflexivity |].
    now rewrite terminal_app by discriminate. }
  destruct (py_get v "title" (VStr "video")) as [e | tv] eqn:Hget.
  { right. left. apply (Herr e). now left. }
  destruct (sanitize_value tv) as [e | s] eqn:Hs.
  { right. left. apply (Herr e). right. now exists tv. }
  destruct (sanitize_value_str tv s Hs) as [title ->].
  assert (Hmeta : metadata_ok w url out title).
  { split; [assumption |]. split; [assumption |]. now exists cp, v. }
  rewrite (run_after_metadata w self title Hmeta).
  destruct (media_stages_outcome w self title) as [[msg H] | [H [Hvid Haud]]].
  - right. left. exists msg.
    apply prelude_reports_last; [apply reports_prelude | assumption].
  - right. right. split.
    + apply prelude_completes; [apply reports_prelude | assumption].
    + now exists title.
Qed.


(** X5. A run of the worker reports its end at most once: it emits either
    no error and no finished signal at all, or exactly one of them, and then
    as its last event. It emits none exactly when the probe finds both
    tools, the output directory is there or can be made, and the metadata
    fetch exits with 0 with an output that parses to a value that counts as
    false. *)
Theorem run_reports_at_most_once (w : World) (self : Gui.DownloadWorker) :
  (reports (Gui.run w self) = []
   \/ exists e, reports (Gui.run w self) = [e]
                /\ terminal (Gui.run w self) = Some e)
  /\ (reports (Gui.run w self) = []
      <-> metadata_falsy w (Gui.url self) (Gui.output_path self)).
Proof.
  destruct (gui_run_outcome w self) as [[Hf H] | [[msg [H1 H2]] | [Hc _]]];
    [| | destruct (completes_reports_last self _ Hc) as [H1 H2]].
  - split; [now left |]. tauto.
  - split; [right; exists (SigError msg); now split |].
    split; [rewrite H1; discriminate |].
    intros Hf. rewrite (run_metadata_falsy w self Hf) in H1.
    rewrite !reports_app, reports_directory_events in H1. discriminate.
  - split; [right; exists (SigFinished (Gui.output_path self)); now split |].
    split; [rewrite H1; discriminate |].
    intros Hf. rewrite (run_metadata_falsy w self Hf) in H1.
    rewrite !reports_app, reports_directory_events in H1. discriminate.
Qed.

Ltac in_last :=
  repeat (apply in_or_app; right);
  cbn [In]; repeat (first [left; reflexivity | right]).




(** ** How a call of the command line ends *)

Section CliEnds.
Variable w : World.
Variables url out : string.

Lemma cli_get_video_info_cases :
  (exists t, @Cli.get_video_info w bool url = (t, Next VNone)
             /\ forall cp, subprocess_run w (info_cmd url) = inr cp ->
                           returncode cp = 0 ->
                           exists e, json_loads w (stdout cp) = inl e)
  \/ (exists cp v,
        subprocess_run w (info_cmd url) = inr cp
        /\ returncode cp = 0
        /\ json_loads w (stdout cp) = inr v
        /\ @Cli.get_video_info w bool url = ([Spawn (info_cmd url)], Next v)).
Proof.
  destruct (subprocess_run w (info_cmd url)) as [e | cp] eqn:Hrun.
  { left. eexists. split; [| discriminate].
    unfold Cli.get_video_info, run_process. simpl. rewrite Hrun. reflexivity. }
  destruct (Z.eq_dec (returncode cp) 0) as [Hrc | Hrc].
  2: { left. eexists. split.
       - unfold Cli.get_video_info, run_process. simpl. rewrite Hrun. simpl.
         apply Z.eqb_neq in Hrc. rewrite Hrc. reflexivity.
       - intros cp' Hcp'. injection Hcp' as <-. contradiction. }
  destruct (json_loads w (stdout cp)) as [e | v] eqn:Hjson.
  { left. eexists. split.
    - unfold Cli.get_video_info, run_process. simpl. rewrite Hrun. simpl.
      rewrite Hrc. simpl. rewrite Hjson. reflexivity.
    - intros cp' Hcp' _. injection Hcp' as <-. now exists e. }
  right. exists cp, v. repeat split; try assumption.
  exact (cli_get_video_info_parsed w url bool cp v Hrun Hrc Hjson).
Qed.

Ltac cli_cbn :=
  cbn [bind pass ret app emit lift negb return_ raise try_except fst snd
       truthy sanitize_value].

(** The call returns false, or it returns true after every step succeeded;
    it then ends with the line that tells where the files are, and the last
    process it spawned is the transcoder. *)
Lemma cli_outcome :
  snd (Cli.download_video w url out) = Some false
  \/ (snd (Cli.download_video w url out) = Some true
      /\ terminal (fst (Cli.download_video w url out))
         = Some (Print (PyStr.nl ++ "Files saved to: " ++ abspath w out))
      /\ exists title,
           metadata_ok w url out title
           /\ cli_video_fetched w url
                (video_file_path out (sanitize_filename title))
           /\ transcoded w (video_file_path out (sanitize_filename title))
                (audio_file_path out (sanitize_filename title))
           /\ last (spawned (fst (Cli.download_video w url out))) []
              = ffmpeg_cmd (video_file_path out (sanitize_filename title))
                  (audio_file_path out (sanitize_filename title))).
Proof.
  unfold Cli.download_video, Cli.download_video_body.
  rewrite cli_check_dependencies_eq.
  destruct (unresolved w) as [| d l] eqn:H0; [| now left].
  rewrite bind_pure. cbn [negb]. unfold pass at 1, ret at 1. rewrite bind_pure.
  assert (Hdir : directory_ready w out
                 \/ exists e, path_exists w out = false
                              /\ makedirs w out = Some e).
  { unfold directory_ready. destruct (path_exists w out); [now left; left |].
    destruct (makedirs w out) as [e |]; [right; now exists e | left; now right]. }
  destruct Hdir as [Hd | [e [Hp Hm]]].
  2: { left. unfold ensure_directory. rewrite Hp. cli_cbn. rewrite Hm.
       reflexivity. }
  rewrite (ensure_directory_ready _ _ _ Hd).
  destruct cli_get_video_info_cases as [[t [Ht _]] | (cp & v & Hrun & Hrc & Hjson & Hinfo)].
  { left. rewrite Ht. reflexivity. }
  rewrite Hinfo. unfold run_process. cli_cbn.
  destruct (truthy v) eqn:Hv; [| now left]. cli_cbn.
  destruct (py_get v "title" (VStr "video")) as [e | tv] eqn:Hget;
    [now left |]. cli_cbn.
  destruct (sanitize_value tv) as [e | s] eqn:Hs; [now left |].
  destruct (sanitize_value_str tv s Hs) as [title ->].
  simpl in Hs. injection Hs as <-. cli_cbn.
  assert (Hmeta : metadata_ok w url out title).
  { split; [assumption |]. split; [assumption |]. now exists cp, v. }
  set (vf := video_file_path out (sanitize_filename title)).
  set (af := audio_file_path out (sanitize_filename title)).
  destruct (subprocess_run w (Cli.primary_video_cmd vf url))
    as [e | cp1] eqn:H1; [now left |].
  cli_cbn.
  destruct (returncode cp1 =? 0) eqn:Hrc1; cli_cbn.
  - destruct (subprocess_run w (ffmpeg_cmd vf af)) as [e | cp3] eqn:H3;
      [now left |].
    cli_cbn.
    destruct (returncode cp3 =? 0) eqn:Hrc3; cli_cbn; [| now left].
    right. split; [reflexivity |]. split.
    { cbn [fst]. rewrite terminal_app by discriminate. reflexivity. }
    exists title. split; [exact Hmeta |]. split.
    { exists cp1. split; [assumption |]. left. now apply Z.eqb_eq. }
    split.
    { exists cp3. split; [assumption | now apply Z.eqb_eq]. }
    cbn [fst]. rewrite spawned_app, spawned_directory_events. reflexivity.
  - destruct (subprocess_run w (fallback_video_cmd vf url))
      as [e | cp2] eqn:H2; [now left |].
    cli_cbn.
    destruct (returncode cp2 =? 0) eqn:Hrc2; cli_cbn; [| now left].
    destruct (subprocess_run w (ffmpeg_cmd vf af)) as [e | cp3] eqn:H3;
      [now left |].
    cli_cbn.
    destruct (returncode cp3 =? 0) eqn:Hrc3; cli_cbn; [| now left].
    right. split; [reflexivity |]. split.
    { cbn [fst]. rewrite terminal_app by discriminate. reflexivity. }
    exists title. split; [exact Hmeta |]. split.
    { exists cp1. split; [assumption |]. right. exists cp2.
      split; [assumption | now apply Z.eqb_eq]. }
    split.
    { exists cp3. split; [assumption | now apply Z.eqb_eq]. }
    cbn [fst]. rewrite spawned_app, spawned_directory_events. reflexivity.
Qed.

(** When every step succeeds, the call returns true. *)
Lemma cli_success_true :
  cli_success w url out -> snd (Cli.download_video w url out) = Some true.
Proof.
  intros (title & (H0 & Hd & cp & v & Hrun & Hrc & Hjson & Hv & Hget)
          & (cp1 & H1 & Hor) & (cp3 & H3 & Hrc3)).
  unfold Cli.download_video, Cli.download_video_body.
  rewrite cli_check_dependencies_eq, H0.
  rewrite bind_pure. cbn [negb]. unfold pass at 1, ret at 1. rewrite bind_pure.
  rewrite (ensure_directory_ready _ _ _ Hd).
  rewrite (cli_get_video_info_parsed w url bool cp v Hrun Hrc Hjson).
  unfold run_process. cli_cbn. rewrite Hv. cli_cbn. rewrite Hget. cli_cbn.
  rewrite H1. cli_cbn.
  destruct (returncode cp1 =? 0) eqn:Hrc1; cli_cbn.
  - rewrite H3. cli_cbn. rewrite Hrc3. reflexivity.
  - destruct Hor as [Hz | (cp2 & H2 & Hrc2)].
    + rewrite Hz in Hrc1. discriminate.
    + rewrite H2. cli_cbn. rewrite Hrc2. cli_cbn.
      rewrite H3. cli_cbn. rewrite Hrc3. reflexivity.
Qed.

(** The output directory cannot be created. *)
Lemma cli_makedirs_failed (e : string) :
  unresolved w = [] ->
  path_exists w out = false ->
  makedirs w out = Some e ->
  Cli.download_video w url out
  = ([MakeDirs out; Print ("Error: " ++ e)], Some false).
Proof.
  intros H0 Hp Hm. unfold Cli.download_video, Cli.download_video_body.
  rewrite cli_check_dependencies_eq, H0.
  rewrite bind_pure. cbn [negb]. unfold pass at 1, ret at 1. rewrite bind_pure.
  unfold ensure_directory. rewrite Hp. cli_cbn. now rewrite Hm.
Qed.

(** The metadata parses to a value that counts as false. *)
Lemma cli_metadata_falsy :
  metadata_falsy w url out ->
  Cli.download_video w url out
  = ((directory_events w out
      ++ [Print "Getting video information..."; Spawn (info_cmd url);
          Print "Failed to get video information"])%list, Some false).
Proof.
  intros (H0 & Hd & cp & v & Hrun & Hrc & Hjson & Hv).
  unfold Cli.download_video, Cli.download_video_body.
  rewrite cli_check_dependencies_eq, H0.
  rewrite bind_pure. cbn [negb]. unfold pass at 1, ret at 1. rewrite bind_pure.
  rewrite (ensure_directory_ready _ _ _ Hd).
  rewrite (cli_get_video_info_parsed w url bool cp v Hrun Hrc Hjson).
  cli_cbn. rewrite Hv. cli_cbn. now rewrite <- ?app_assoc.
Qed.

(** The metadata parses to a true value from which no title can be had. *)
Lemma cli_title_error (cp : CompletedProcess) (v : pyvalue) (e : string) :
  unresolved w = [] ->
  directory_ready w out ->
  subprocess_run w (info_cmd url) = inr cp ->
  returncode cp = 0 ->
  json_loads w (stdout cp) = inr v ->
  truthy v = true ->
  title_error v e ->
  Cli.download_video w url out
  = ((directory_events w out
      ++ [Print "Getting video information..."; Spawn (info_cmd url);
          Print ("Error: " ++ e)])%list, Some false).
Proof.
  intros H0 Hd Hrun Hrc Hjson Hv He.
  unfold Cli.download_video, Cli.download_video_body.
  rewrite cli_check_dependencies_eq, H0.
  rewrite bind_pure. cbn [negb]. unfold pass at 1, ret at 1. rewrite bind_pure.
  rewrite (ensure_directory_ready _ _ _ Hd).
  rewrite (cli_get_video_info_parsed w url bool cp v Hrun Hrc Hjson).
  cli_cbn. rewrite Hv. cli_cbn.
  destruct He as [He | [tv [Hget He]]].
  - rewrite He. cli_cbn. now rewrite <- ?app_assoc.
  - rewrite Hget. cli_cbn.
    destruct tv; simpl in He; try discriminate; injection He as <-;
      cli_cbn; now rewrite <- ?app_assoc.
Qed.

End CliEnds.

(** X7. The command line returns true exactly when every step succeeds:
    both tools resolve, the output directory is there or can be made, the
    metadata fetch yields a true value with a string title, a video attempt
    (the primary one, or the fallback after it) exits with 0, and the
    transcoder exits with 0. It then ends with the line that tells where the
    files are, and the last process it spawned is the transcoder on the
    video file. Otherwise it returns false: it never raises and never
    returns anything else. *)
Theorem download_video_true_iff (w : World) (url out : string) :
  (snd (Cli.download_video w url out) = Some true <-> cli_success w url out)
  /\ (snd (Cli.download_video w url out) = Some true
      \/ snd (Cli.download_video w url out) = Some false)
  /\ (snd (Cli.download_video w url out) = Some true ->
      terminal (fst (Cli.download_video w url out))
      = Some (Print (PyStr.nl ++ "Files saved to: " ++ abspath w out))
      /\ exists title,
           metadata_ok w url out title
           /\ last (spawned (fst (Cli.download_video w url out))) []
              = ffmpeg_cmd (video_file_path out (sanitize_filename title))
                  (audio_file_path out (sanitize_filename title))).
Proof.
  destruct (cli_outcome w url out)
    as [Hf | (Ht & Hlast & title & Hmeta & Hvid & Haud & Hsp)].
  - split; [| split; [now right |]].
    + split; [rewrite Hf; discriminate |].
      intros Hs. apply cli_success_true in Hs. rewrite Hf in Hs. discriminate.
    + rewrite Hf. discriminate.
  - split; [| split; [now left |]].
    + split; [| intros _; assumption]. intros _. now exists title.
    + intros _. split; [assumption |]. now exists title.
Qed.

(** In the sample world every step of the command line succeeds. *)
Lemma download_video_true_iff_witness :
  cli_success happy_world sample_url "downloads".
Proof.
  apply (proj1 (proj1 (download_video_true_iff happy_world sample_url
                         "downloads"))).
  vm_compute. reflexivity.
Defined.

(** X8. The script exits with status 0 or 1. It exits with 0 exactly when
    it was given a URL and every step of the download succeeds, the output
    folder being the second argument, or [downloads] when there is none.
    Without a URL it prints its two usage lines, spawns nothing and exits
    with 1. Arguments after the output folder are ignored. *)
Theorem main_exit_status (w : World) (argv : list string) :
  (snd (Cli.main w argv) = 0 \/ snd (Cli.main w argv) = 1)
  /\ (snd (Cli.main w argv) = 0 <->
      (2 <= List.length argv)%nat
      /\ cli_success w (nth 1 argv "")
           (if (2 <? List.length argv)%nat then nth 2 argv ""
            else "downloads"))
  /\ ((List.length argv < 2)%nat ->
      snd (Cli.main w argv) = 1
      /\ spawned (fst (Cli.main w argv)) = []
      /\ List.length (fst (Cli.main w argv)) = 2%nat)
  /\ (forall prog url,
        Cli.main w [prog; url] = Cli.main w [prog; url; "downloads"])
  /\ (forall prog url folder rest,
        Cli.main w (prog :: url :: folder :: rest)
        = Cli.main w [prog; url; folder]).
Proof.
  split; [| split; [| split; [| split]]].
  4, 5: intros; reflexivity.
  all: unfold Cli.main; destruct (Nat.ltb_spec (List.length argv) 2) as [Hl | Hl].
  - now right.
  - destruct (cli_outcome w (nth 1 argv "")
                (if (2 <? List.length argv)%nat then nth 2 argv ""
                 else "downloads")) as [Hf | [Ht _]];
      destruct (Cli.download_video w _ _) as [t s]; cbn [snd] in *; subst s;
      [now right | now left].
  - split; [discriminate | intros [H _]; lia].
  - pose proof (cli_success_true w (nth 1 argv "")
                  (if (2 <? List.length argv)%nat then nth 2 argv ""
                   else "downloads")) as Hs.
    destruct (cli_outcome w (nth 1 argv "")
                (if (2 <? List.length argv)%nat then nth 2 argv ""
                 else "downloads"))
      as [Hf | (Ht & _ & title & Hm & Hv & Ha & _)];
      destruct (Cli.download_video w _ _) as [t s]; cbn [snd] in *; subst s.
    + split; [discriminate |]. intros [_ Hc]. apply Hs in Hc. discriminate.
    + split; [| reflexivity]. intros _. split; [assumption |]. now exists title.
  - intros _. repeat split.
  - intros Hlt. lia.
Qed.

(** ** Runs of the worker that end early *)

Section GuiEarly.
Variable w : World.
Variable self : Gui.DownloadWorker.

Let url := Gui.url self.
Let out := Gui.output_path self.

(** A run gets to the media stages, or it spawns the metadata fetch at
    most. *)
Lemma gui_run_early :
  (exists title, metadata_ok w url out title)
  \/ spawned (Gui.run w self) = []
  \/ spawned (Gui.run w self) = [info_cmd url].
Proof.
  destruct (unresolved w) as [| d l] eqn:H0.
  2: { right. left.
       now rewrite gui_run_missing by (rewrite H0; discriminate). }
  assert (Hdir : directory_ready w out
                 \/ exists e, path_exists w out = false
                              /\ makedirs w out = Some e).
  { unfold directory_ready. destruct (path_exists w out); [now left; left |].
    destruct (makedirs w out) as [e |]; [right; now exists e | left; now right]. }
  destruct Hdir as [Hd | [e [Hp Hm]]].
  2: { right. left. now rewrite (run_makedirs_failed w self e H0 Hp Hm). }
  assert (Hfail : forall msg,
             @Gui.get_video_info w self unit
             = ((info_request self ++ [SigError msg])%list, Next VNone) ->
             spawned (Gui.run w self) = [info_cmd url]).
  { intros msg H. rewrite (run_metadata_failed w self _ H0 Hd H).
    now rewrite !spawned_app, spawned_directory_events. }
  destruct (subprocess_run w (info_cmd url)) as [e | cp] eqn:Hrun.
  { right. right. eapply Hfail.
    exact (get_video_info_raised w self unit e Hrun). }
  destruct (Z.eq_dec (returncode cp) 0) as [Hrc | Hrc].
  2: { right. right. eapply Hfail.
       exact (get_video_info_nonzero w self unit cp Hrun Hrc). }
  destruct (json_loads w (stdout cp)) as [e | v] eqn:Hjson.
  { right. right. eapply Hfail.
    exact (get_video_info_unparsable w self unit cp e Hrun Hrc Hjson). }
  destruct (truthy v) eqn:Hv.
  2: { right. right.
       assert (Hf : metadata_falsy w url out).
       { split; [assumption |]. split; [assumption |]. now exists cp, v. }
       rewrite (run_metadata_falsy w self Hf).
       now rewrite !spawned_app, spawned_directory_events. }
  assert (Herr : forall e, title_error v e ->
             spawned (Gui.run w self) = [info_cmd url]).
  { intros e He.
    rewrite (run_title_error w self cp v e H0 Hd Hrun Hrc Hjson Hv He).
    now rewrite !spawned_app, spawned_directory_events. }
  destruct (py_get v "title" (VStr "video")) as [e | tv] eqn:Hget.
  { right. right. apply (Herr e). now left. }
  destruct (sanitize_value tv) as [e | s] eqn:Hs.
  { right. right. apply (Herr e). right. now exists tv. }
  destruct (sanitize_value_str tv s Hs) as [title ->].
  left. exists title.
  split; [assumption |]. split; [assumption |]. now exists cp, v.
Qed.

End GuiEarly.

(** X9. When the metadata fetch exits with 0 and its output parses to a
    value that counts as false, such as an empty object, the worker stops
    without a word: its run ends after the progress value 20, with no error
    and no finished signal, and only the metadata fetch was spawned. The
    command line, in the same case, prints that it failed to get the video
    information and returns false. *)
Theorem falsy_metadata_ends_silently (w : World) (self : Gui.DownloadWorker) :
  metadata_falsy w (Gui.url self) (Gui.output_path self) ->
  Gui.run w self
  = (directory_events w (Gui.output_path self) ++ info_request self
     ++ [SigProgress 20])%list
  /\ reports (Gui.run w self) = []
  /\ spawned (Gui.run w self) = [info_cmd (Gui.url self)]
  /\ progress_values (Gui.run w self) = [10; 20]
  /\ Cli.download_video w (Gui.url self) (Gui.output_path self)
     = ((directory_events w (Gui.output_path self)
         ++ [Print "Getting video information...";
             Spawn (info_cmd (Gui.url self));
             Print "Failed to get video information"])%list, Some false).
Proof.
  intros Hf. rewrite (run_metadata_falsy w self Hf). repeat split.
  - now rewrite !reports_app, reports_directory_events.
  - now rewrite !spawned_app, spawned_directory_events.
  - now rewrite !progress_values_app, progress_directory_events.
  - now apply cli_metadata_falsy.
Qed.

(** The run on a video whose metadata is the empty object. *)
Lemma falsy_metadata_ends_silently_witness :
  Gui.run empty_info_world sample_worker
  = [MakeDirs "downloads";
     SigStatus "Getting video information...";
     SigProgress 10;
     Spawn (info_cmd (Gui.url sample_worker));
     SigProgress 20].
Proof.
  apply (falsy_metadata_ends_silently empty_info_world sample_worker).
  split; [reflexivity |]. split; [right; reflexivity |].
  exists {| returncode := 0; stdout := "{}"; stderr := "" |}, (VDict []).
  repeat split.
Defined.

(** X10. When the output directory does not exist and cannot be created,
    the run of the worker is the attempt followed by one error that carries
    the text of the exception, and the call of the command line prints that
    text and returns false; neither spawns a process. *)
Theorem directory_creation_failure
    (w : World) (self : Gui.DownloadWorker) (e : string) :
  unresolved w = [] ->
  path_exists w (Gui.output_path self) = false ->
  makedirs w (Gui.output_path self) = Some e ->
  Gui.run w self
  = [MakeDirs (Gui.output_path self); SigError ("Error: " ++ e)]
  /\ spawned (Gui.run w self) = []
  /\ Cli.download_video w (Gui.url self) (Gui.output_path self)
     = ([MakeDirs (Gui.output_path self); Print ("Error: " ++ e)], Some false).
Proof.
  intros H0 Hp Hm. rewrite (run_makedirs_failed w self e H0 Hp Hm).
  repeat split. now apply cli_makedirs_failed.
Qed.

(** The run when the output directory cannot be created. *)
Lemma directory_creation_failure_witness :
  Gui.run read_only_world sample_worker
  = [MakeDirs "downloads"; SigError ("Error: " ++ denied)].
Proof.
  apply (directory_creation_failure read_only_world sample_worker denied);
    reflexivity.
Defined.

(** X11. When the metadata parses to a true value that has no [get], or
    whose title is not a string, the run of the worker ends with one error
    that carries the text of the exception, after the progress value 20, and
    the call of the command line prints that text and returns false; only
    the metadata fetch was spawned. *)
Theorem title_error_halts
    (w : World) (self : Gui.DownloadWorker) (cp : CompletedProcess)
    (v : pyvalue) (e : string) :
  unresolved w = [] ->
  directory_ready w (Gui.output_path self) ->
  subprocess_run w (info_cmd (Gui.url self)) = inr cp ->
  returncode cp = 0 ->
  json_loads w (stdout cp) = inr v ->
  truthy v = true ->
  title_error v e ->
  Gui.run w self
  = (directory_events w (Gui.output_path self) ++ info_request self
     ++ [SigProgress 20; SigError ("Error: " ++ e)])%list
  /\ spawned (Gui.run w self) = [info_cmd (Gui.url self)]
  /\ Cli.download_video w (Gui.url self) (Gui.output_path self)
     = ((directory_events w (Gui.output_path self)
         ++ [Print "Getting video information...";
             Spawn (info_cmd (Gui.url self));
             Print ("Error: " ++ e)])%list, Some false).
Proof.
  intros H0 Hd Hrun Hrc Hjson Hv He.
  rewrite (run_title_error w self cp v e H0 Hd Hrun Hrc Hjson Hv He).
  repeat split.
  - now rewrite !spawned_app, spawned_directory_events.
  - now apply cli_title_error with cp v.
Qed.

(** The run on a video whose title is a number. *)
Lemma title_error_halts_witness :
  Gui.run numeric_title_world sample_worker
  = [MakeDirs "downloads";
     SigStatus "Getting video information...";
     SigProgress 10;
     Spawn (info_cmd (Gui.url sample_worker));
     SigProgress 20;
     SigError "Error: expected string or bytes-like object, got 'int'"].
Proof.
  apply (title_error_halts numeric_title_world sample_worker
           {| returncode := 0; stdout := Sample.title_json "Clip";
              stderr := "" |}
           (VDict [("title", VInt 2024)])
           "expected string or bytes-like object, got 'int'");
    try reflexivity.
  - right. reflexivity.
  - right. exists (VInt 2024). split; reflexivity.
Defined.

(** ** Runs of the worker through the media stages *)

Lemma spawned_handler (f : flow unit unit) :
  spawned match f with
          | Raise e => fst (run_handler e)
          | _ => []
          end = [].
Proof. now destruct f. Qed.

Lemma spawned_prelude (w : World) (self : Gui.DownloadWorker) (title : string) :
  spawned (prelude w self title) = [info_cmd (Gui.url self)].
Proof.
  unfold prelude. now rewrite !spawned_app, spawned_directory_events.
Qed.

Section GuiMediaRuns.
Variable w : World.
Variable self : Gui.DownloadWorker.
Variable title : string.

Let url := Gui.url self.
Let out := Gui.output_path self.
Let vf := video_file self title.
Let af := audio_file self title.

Hypothesis Hmeta : metadata_ok w url out title.

(** A run that fetches video spawns the primary attempt right after the
    metadata fetch. *)
Lemma run_video_spawned :
  Gui.download_video self = true ->
  exists rest,
    spawned (Gui.run w self)
    = info_cmd url :: Gui.primary_video_cmd self vf :: rest.
Proof.
  intros Hv. rewrite (run_after_metadata w self title Hmeta).
  rewrite spawned_app, spawned_prelude, fst_try_except, spawned_app,
    spawned_handler, app_nil_r.
  unfold media_stages. rewrite Hv. fold vf af. step.
  destruct (spawned_fetch_video w self vf) as [-> | ->];
    cbn [app]; eexists; reflexivity.
Qed.

(** The run that wants the audio only. *)
Lemma run_audio_only (cp : CompletedProcess) :
  Gui.download_video self = false ->
  Gui.download_audio self = true ->
  subprocess_run w (direct_audio_cmd af url) = inr cp ->
  Gui.run w self
  = (prelude w self title ++ audio_request self vf af
     ++ (if returncode cp =? 0
         then SigLog "MP3 extraction complete!" :: completion self
         else [SigError ("Error downloading audio: " ++ stderr cp)]))%list.
Proof.
  intros Hv Ha Hrun. rewrite (run_after_metadata w self title Hmeta).
  unfold media_stages. rewrite Hv, Ha. fold vf af.
  rewrite fetch_audio_eq. unfold audio_cmd at 1. rewrite Hv. fold url.
  rewrite Hrun. unfold audio_error. rewrite Hv.
  destruct (returncode cp =? 0); run_cbn; now rewrite <- ?app_assoc.
Qed.

(** The transcoder exits with an error after the video was fetched. *)
Lemma run_transcode_failed (cp : CompletedProcess) :
  Gui.download_video self = true ->
  Gui.download_audio self = true ->
  video_fetched w self vf ->
  subprocess_run w (ffmpeg_cmd vf af) = inr cp ->
  returncode cp <> 0 ->
  exists video_events,
    Gui.run w self
    = (prelude w self title ++ video_events
       ++ [SigLog "MP4 download complete!"] ++ audio_request self vf af
       ++ [SigError ("Error extracting audio: " ++ stderr cp)])%list
    /\ reports video_events = []
    /\ (spawned video_events = [Gui.primary_video_cmd self vf]
        \/ spawned video_events
           = [Gui.primary_video_cmd self vf; fallback_video_cmd vf url]).
Proof.
  intros Hv Ha (po & Hpo & Hor) Hrun Hrc.
  rewrite (run_after_metadata w self title Hmeta).
  unfold media_stages. rewrite Hv, Ha. fold vf af.
  rewrite fetch_audio_eq. unfold audio_cmd at 1. rewrite Hv.
  rewrite Hrun. unfold audio_error. rewrite Hv.
  apply Z.eqb_neq in Hrc. rewrite Hrc.
  destruct (Z.eq_dec (exit_status po) 0) as [Hst | Hst].
  - rewrite (fetch_video_primary_ok w self vf po Hpo Hst). run_cbn.
    exists (video_request self vf ++ output_events w (output_lines po))%list.
    split; [now rewrite <- ?app_assoc |]. split.
    + now rewrite reports_app, reports_output_events.
    + left. now rewrite spawned_app, spawned_output_events.
  - destruct Hor as [Hz | (cp' & Hfb & Hrc')]; [contradiction |].
    rewrite (fetch_video_fallback_ok w self vf po cp' Hpo Hst Hfb Hrc').
    run_cbn.
    exists (video_request self vf ++ output_events w (output_lines po)
            ++ fallback_request self vf)%list.
    split; [now rewrite <- ?app_assoc |]. split.
    + now rewrite !reports_app, reports_output_events.
    + right. now rewrite !spawned_app, spawned_output_events.
Qed.

End GuiMediaRuns.

Lemma find_none_all (A : Type) (f : A -> bool) (l : list A) :
  (forall x, In x l -> f x = false) -> find f l = None.
Proof.
  induction l as [| a l IH]; intros H; [reflexivity |].
  simpl. rewrite (H a (or_introl eq_refl)). apply IH.
  intros x Hx. apply H. now right.
Qed.

(** X12. When the metadata is a non-empty object without the key [title],
    the title is the string video: the run announces the download of video,
    and the two output files are [video.mp4] and [video.mp3] in the output
    directory; a run that fetches video hands that video file to the
    download engine. *)
Theorem missing_title_defaults
    (w : World) (self : Gui.DownloadWorker) (cp : CompletedProcess)
    (items : list (string * pyvalue)) :
  unresolved w = [] ->
  directory_ready w (Gui.output_path self) ->
  subprocess_run w (info_cmd (Gui.url self)) = inr cp ->
  returncode cp = 0 ->
  json_loads w (stdout cp) = inr (VDict items) ->
  items <> [] ->
  (forall kv, In kv items -> fst kv <> "title") ->
  metadata_ok w (Gui.url self) (Gui.output_path self) "video"
  /\ In (SigStatus "Downloading: video") (Gui.run w self)
  /\ video_file self "video"
     = directory_prefix (Gui.output_path self) ++ "video.mp4"
  /\ audio_file self "video"
     = directory_prefix (Gui.output_path self) ++ "video.mp3"
  /\ (Gui.download_video self = true ->
      exists rest,
        spawned (Gui.run w self)
        = info_cmd (Gui.url self)
          :: Gui.primary_video_cmd self
               (directory_prefix (Gui.output_path self) ++ "video.mp4")
          :: rest).
Proof.
  intros H0 Hd Hrun Hrc Hjson Hne Hkeys.
  assert (Hmeta : metadata_ok w (Gui.url self) (Gui.output_path self) "video").
  { split; [assumption |]. split; [assumption |].
    exists cp, (VDict items). repeat split; try assumption.
    - destruct items; [congruence | reflexivity].
    - simpl. rewrite find_none_all; [reflexivity |].
      intros kv Hkv. apply String.eqb_neq. now apply Hkeys. }
  assert (Hvf : video_file self "video"
                = directory_prefix (Gui.output_path self) ++ "video.mp4").
  { apply (output_path_relative (Gui.output_path self) "video" ".mp4").
    intros c Hc Heq. subst c. simpl in Hc.
    repeat (destruct Hc as [Hc | Hc]; [discriminate |]). exact Hc. }
  split; [assumption |]. split; [| split; [assumption | split]].
  - rewrite (run_after_metadata w self "video" Hmeta).
    apply in_or_app. left. unfold prelude. in_last.
  - apply (output_path_relative (Gui.output_path self) "video" ".mp3").
    intros c Hc Heq. subst c. simpl in Hc.
    repeat (destruct Hc as [Hc | Hc]; [discriminate |]). exact Hc.
  - intros Hv. rewrite <- Hvf.
    now apply (run_video_spawned w self "video" Hmeta).
Qed.

(** The run on a video whose metadata has no title. *)
Lemma missing_title_defaults_witness :
  In (SigStatus "Downloading: video") (Gui.run untitled_world sample_worker)
  /\ video_file sample_worker "video" = "downloads/video.mp4"
  /\ audio_file sample_worker "video" = "downloads/video.mp3".
Proof.
  destruct (missing_title_defaults untitled_world sample_worker
              {| returncode := 0; stdout := Sample.title_json "Clip";
                 stderr := "" |}
              [("id", VStr "dQw4w9WgXcQ")])
    as (_ & Hin & Hv & Ha & _); try reflexivity.
  - right. reflexivity.
  - discriminate.
  - intros kv [<- | []]. discriminate.
  - split; [exact Hin |]. split; [exact Hv | exact Ha].
Defined.

(** X13. A run that wants the audio only never fetches the video and never
    calls the transcoder: after the metadata fetch it spawns the download
    engine in audio mode, once. When that exits with 0 the run completes;
    otherwise it ends with the error of a failed audio download, which
    carries the engine's standard error. *)
Theorem audio_only_run
    (w : World) (self : Gui.DownloadWorker) (title : string)
    (cp : CompletedProcess) :
  metadata_ok w (Gui.url self) (Gui.output_path self) title ->
  Gui.download_video self = false ->
  Gui.download_audio self = true ->
  subprocess_run w (direct_audio_cmd (audio_file self title) (Gui.url self))
    = inr cp ->
  spawned (Gui.run w self)
  = [info_cmd (Gui.url self);
     direct_audio_cmd (audio_file self title) (Gui.url self)]
  /\ (returncode cp = 0 ->
      progress_values (Gui.run w self) = [10; 20; 70; 100]
      /\ terminal (Gui.run w self) = Some (SigFinished (Gui.output_path self)))
  /\ (returncode cp <> 0 ->
      progress_values (Gui.run w self) = [10; 20; 70]
      /\ terminal (Gui.run w self)
         = Some (SigError ("Error downloading audio: " ++ stderr cp))).
Proof.
  intros Hmeta Hv Ha Hrun.
  rewrite (run_audio_only w self title Hmeta cp Hv Ha Hrun).
  assert (Hcmd : audio_cmd self (video_file self title) (audio_file self title)
                 = direct_audio_cmd (audio_file self title) (Gui.url self)).
  { unfold audio_cmd. now rewrite Hv. }
  assert (Hp : progress_values (prelude w self title) = [10; 20]).
  { unfold prelude.
    now rewrite !progress_values_app, progress_directory_events. }
  split; [| split].
  - rewrite !spawned_app, spawned_prelude. unfold audio_request.
    rewrite Hcmd. now destruct (returncode cp =? 0).
  - intros Hrc. rewrite Hrc. cbn [Z.eqb]. split.
    + now rewrite !progress_values_app, Hp.
    + rewrite !app_assoc. unfold completion.
      now rewrite terminal_app by discriminate.
  - intros Hrc. apply Z.eqb_neq in Hrc. rewrite Hrc. split.
    + now rewrite !progress_values_app, Hp.
    + rewrite !app_assoc. apply terminal_app_last.
Qed.

(** The processes of the sample run that wants the audio only. *)
Lemma audio_only_run_witness :
  spawned (Gui.run happy_world audio_worker)
  = [info_cmd sample_url; direct_audio_cmd "downloads/Clip.mp3" sample_url].
Proof.
  apply (audio_only_run happy_world audio_worker "Clip"
           {| returncode := 0; stdout := ""; stderr := "" |});
    try reflexivity.
  apply happy_metadata_ok.
Defined.

(** X14. When the video was fetched and the transcoder then exits with an
    error, the run ends with the error of a failed audio extraction, which
    carries the transcoder's standard error, and with no other report; the
    log has told before that the video download is complete, and the
    transcoder, the last process spawned, was given the very file the
    download engine was told to write. *)
Theorem transcode_failure_after_video
    (w : World) (self : Gui.DownloadWorker) (title : string)
    (cp : CompletedProcess) :
  metadata_ok w (Gui.url self) (Gui.output_path self) title ->
  Gui.download_video self = true ->
  Gui.download_audio self = true ->
  video_fetched w self (video_file self title) ->
  subprocess_run w (ffmpeg_cmd (video_file self title) (audio_file self title))
    = inr cp ->
  returncode cp <> 0 ->
  reports (Gui.run w self)
  = [SigError ("Error extracting audio: " ++ stderr cp)]
  /\ terminal (Gui.run w self)
     = Some (SigError ("Error extracting audio: " ++ stderr cp))
  /\ In "MP4 download complete!" (logged (Gui.run w self))
  /\ last (spawned (Gui.run w self)) []
     = ffmpeg_cmd (video_file self title) (audio_file self title)
  /\ In (Gui.primary_video_cmd self (video_file self title))
        (spawned (Gui.run w self)).
Proof.
  intros Hmeta Hv Ha Hvid Hrun Hrc.
  destruct (run_transcode_failed w self title Hmeta cp Hv Ha Hvid Hrun Hrc)
    as (ve & -> & Hrep & Hsp).
  assert (Hcmd : audio_cmd self (video_file self title) (audio_file self title)
                 = ffmpeg_cmd (video_file self title) (audio_file self title)).
  { unfold audio_cmd. now rewrite Hv. }
  split; [| split; [| split; [| split]]].
  - now rewrite !reports_app, reports_prelude, Hrep.
  - rewrite !app_assoc. apply terminal_app_last.
  - rewrite !logged_app. apply in_or_app. right. apply in_or_app. right.
    now left.
  - rewrite !spawned_app, spawned_prelude. unfold audio_request.
    rewrite Hcmd. destruct Hsp as [-> | ->]; reflexivity.
  - rewrite !spawned_app, spawned_prelude.
    destruct Hsp as [-> | ->]; right; now left.
Qed.

(** The end of the sample run whose transcoder fails. *)
Lemma transcode_failure_after_video_witness :
  terminal (Gui.run audio_broken_world sample_worker)
  = Some (SigError ("Error extracting audio: " ++ no_audio_stream)).
Proof.
  assert (Hmeta : metadata_ok audio_broken_world (Gui.url sample_worker)
                    (Gui.output_path sample_worker) "Clip").
  { split; [reflexivity |]. split; [right; reflexivity |].
    exists {| returncode := 0; stdout := Sample.title_json "Clip";
              stderr := "" |}, (VDict [("title", VStr "Clip")]).
    repeat split. }
  assert (Hvid : video_fetched audio_broken_world sample_worker
                   (video_file sample_worker "Clip")).
  { exists {| output_lines := two_stream_lines; exit_status := 0 |}.
    split; [reflexivity | now left]. }
  assert (Hrc : returncode {| returncode := 1; stdout := "";
                              stderr := no_audio_stream |} <> 0)
    by discriminate.
  exact (proj1 (proj2 (transcode_failure_after_video audio_broken_world
                         sample_worker "Clip" _ Hmeta eq_refl eq_refl Hvid
                         eq_refl Hrc))).
Defined.

(** ** The processes of a run or a call *)

Ltac distinct_cmds :=
  unfold info_cmd, Gui.primary_video_cmd, Cli.primary_video_cmd,
    fallback_video_cmd, ffmpeg_cmd, direct_audio_cmd, best_format;
  cbn [In]; intuition congruence.

Ltac cmd_shapes :=
  unfold info_cmd, Gui.primary_video_cmd, Cli.primary_video_cmd,
    fallback_video_cmd, ffmpeg_cmd, direct_audio_cmd;
  repeat (apply Forall_cons;
          [first [left; split; reflexivity | right; split; reflexivity
                 | right; reflexivity] |]);
  apply Forall_nil.

(** X15. Every run of the worker and every call of the command line spawns
    at most four processes, never the same command twice, and the metadata
    fetch first. Each process is the download engine, with the URL as its
    last argument, or the transcoder, which the worker calls only when it
    fetches video. *)
Theorem spawn_discipline
    (w : World) (self : Gui.DownloadWorker) (url out : string) :
  let s := spawned (Gui.run w self) in
  let c := spawned (fst (Cli.download_video w url out)) in
  ((List.length s <= 4)%nat
   /\ NoDup s
   /\ (s = [] \/ hd [] s = info_cmd (Gui.url self))
   /\ Forall (fun cmd =>
                (hd "" cmd = "yt-dlp" /\ last cmd "" = Gui.url self)
                \/ (hd "" cmd = "ffmpeg" /\ Gui.download_video self = true)) s)
  /\ ((List.length c <= 4)%nat
      /\ NoDup c
      /\ (c = [] \/ hd [] c = info_cmd url)
      /\ Forall (fun cmd =>
                   (hd "" cmd = "yt-dlp" /\ last cmd "" = url)
                   \/ hd "" cmd = "ffmpeg") c).
Proof.
  intros s c. split.
  - subst s. destruct (gui_run_spawned w self) as (vf & af & H).
    cbv zeta in H. unfold audio_cmd in H.
    destruct (Gui.download_video self);
      cbn [In] in H;
      repeat (destruct H as [H | H]; [rewrite <- H; clear H |]);
      try contradiction;
      (split; [cbn [List.length]; lia |]);
      (split; [repeat constructor; distinct_cmds |]);
      (split; [first [now left | now right] |]);
      cmd_shapes.
  - subst c. destruct (cli_spawned w url out) as (vf & af & H).
    cbv zeta in H. cbn [In] in H.
    repeat (destruct H as [H | H]; [rewrite <- H; clear H |]);
      try contradiction;
      (split; [cbn [List.length]; lia |]);
      (split; [repeat constructor; distinct_cmds |]);
      (split; [first [now left | now right] |]);
      cmd_shapes.
Qed.

(** ** The form and the window *)

Lemma lstrip_all_space (s : string) : all_space s -> PyStr.lstrip s = "".
Proof.
  unfold all_space, PyStr.chars.
  induction s as [| c r IH]; simpl; intros H; [reflexivity |].
  inversion H as [| ? ? Hc Hr]; subst. rewrite Hc. now apply IH.
Qed.

Lemma strip_all_space (s : string) : all_space s -> PyStr.strip s = "".
Proof. intros H. unfold PyStr.strip. now rewrite lstrip_all_space. Qed.

Lemma nonempty_neq (s : string) : PyStr.nonempty s = true <-> s <> "".
Proof. destruct s; simpl; split; congruence. Qed.

Lemma start_download_accepted (f : Gui.Form) :
  accepted f ->
  Gui.start_download f
  = [Gui.DownloadButtonEnabled false; Gui.LogCleared;
     Gui.WorkerStarted (worker_of f)].
Proof.
  intros (Hu & Ho & Hf). unfold Gui.start_download, worker_of.
  apply nonempty_neq in Hu, Ho. rewrite Hu, Ho. cbn [negb].
  destruct Hf as [H | H]; rewrite H; [reflexivity |].
  now destruct (Gui.mp4_checked f).
Qed.

Lemma start_download_rejected (f : Gui.Form) :
  ~ accepted f ->
  exists text, Gui.start_download f = [Gui.MessageCritical "Error" text].
Proof.
  intros H. unfold Gui.start_download.
  destruct (PyStr.nonempty (PyStr.strip (Gui.url_text f))) eqn:Hu;
    [| eexists; reflexivity].
  destruct (PyStr.nonempty (PyStr.strip (Gui.output_path_text f))) eqn:Ho;
    [| eexists; reflexivity].
  cbn [negb].
  destruct (Gui.mp4_checked f) eqn:H4, (Gui.mp3_checked f) eqn:H3;
    cbn [negb andb]; try (eexists; reflexivity);
    exfalso; apply H; unfold accepted; rewrite <- !nonempty_neq;
    (split; [assumption |]); (split; [assumption |]); auto.
Qed.

(** X16. The form starts a worker exactly when, once stripped of the white
    space at their ends, the URL and the output folder are not empty, and
    at least one format is ticked; it then disables the button, clears the
    log and starts one worker with the stripped texts and the two ticks.
    Otherwise it shows one error box and does nothing else; a URL of white
    space only is refused as a missing URL whatever the other fields, and a
    folder of white space only as a missing folder. *)
Theorem start_download_validation (f : Gui.Form) :
  (accepted f ->
   Gui.start_download f
   = [Gui.DownloadButtonEnabled false; Gui.LogCleared;
      Gui.WorkerStarted (worker_of f)])
  /\ (~ accepted f ->
      exists text, Gui.start_download f = [Gui.MessageCritical "Error" text])
  /\ ((exists worker, In (Gui.WorkerStarted worker) (Gui.start_download f))
      <-> accepted f)
  /\ (all_space (Gui.url_text f) ->
      Gui.start_download f
      = [Gui.MessageCritical "Error" "Please enter a YouTube URL"])
  /\ (PyStr.strip (Gui.url_text f) <> "" ->
      all_space (Gui.output_path_text f) ->
      Gui.start_download f
      = [Gui.MessageCritical "Error" "Please select an output folder"]).
Proof.
  split; [apply start_download_accepted |].
  split; [apply start_download_rejected |].
  split; [| split].
  - split.
    + intros [worker Hin].
      destruct (PyStr.nonempty (PyStr.strip (Gui.url_text f))) eqn:Hu.
      2: { unfold Gui.start_download in Hin. rewrite Hu in Hin.
           destruct Hin as [Hin | []]. discriminate. }
      destruct (PyStr.nonempty (PyStr.strip (Gui.output_path_text f))) eqn:Ho.
      2: { unfold Gui.start_download in Hin. rewrite Hu, Ho in Hin.
           destruct Hin as [Hin | []]. discriminate. }
      split; [now apply nonempty_neq |]. split; [now apply nonempty_neq |].
      unfold Gui.start_download in Hin. rewrite Hu, Ho in Hin.
      destruct (Gui.mp4_checked f); [now left |].
      destruct (Gui.mp3_checked f); [now right |].
      destruct Hin as [Hin | []]. discriminate.
    + intros Ha. exists (worker_of f).
      rewrite (start_download_accepted f Ha). right. right. now left.
  - intros Hs. unfold Gui.start_download. now rewrite (strip_all_space _ Hs).
  - intros Hu Hs. unfold Gui.start_download.
    apply nonempty_neq in Hu. rewrite Hu. now rewrite (strip_all_space _ Hs).
Qed.

(** A URL of three spaces is refused as a missing URL. *)
Lemma start_download_validation_witness :
  Gui.start_download blank_url_form
  = [Gui.MessageCritical "Error" "Please enter a YouTube URL"].
Proof.
  apply (proj1 (proj2 (proj2 (proj2 (start_download_validation
                                       blank_url_form))))).
  repeat constructor.
Defined.

(** X17. Every worker the form starts has a URL and an output folder that
    are not empty and have no white space at either end, and wants at least
    one of the two formats. *)
Theorem started_worker_inputs (f : Gui.Form) (worker : Gui.DownloadWorker) :
  In (Gui.WorkerStarted worker) (Gui.start_download f) ->
  worker = worker_of f
  /\ Gui.url worker <> ""
  /\ Gui.output_path worker <> ""
  /\ (forall c, first_char (Gui.url worker) = Some c
                \/ last_char (Gui.url worker) = Some c ->
                PyStr.isspace c = false)
  /\ (forall c, first_char (Gui.output_path worker) = Some c
                \/ last_char (Gui.output_path worker) = Some c ->
                PyStr.isspace c = false)
  /\ (Gui.download_video worker = true \/ Gui.download_audio worker = true).
Proof.
  intros Hin.
  assert (Ha : accepted f).
  { destruct (PyStr.nonempty (PyStr.strip (Gui.url_text f))) eqn:Hu.
    2: { unfold Gui.start_download in Hin. rewrite Hu in Hin.
         destruct Hin as [Hin | []]. discriminate. }
    destruct (PyStr.nonempty (PyStr.strip (Gui.output_path_text f))) eqn:Ho.
    2: { unfold Gui.start_download in Hin. rewrite Hu, Ho in Hin.
         destruct Hin as [Hin | []]. discriminate. }
    split; [now apply nonempty_neq |]. split; [now apply nonempty_neq |].
    unfold Gui.start_download in Hin. rewrite Hu, Ho in Hin.
    destruct (Gui.mp4_checked f); [now left |].
    destruct (Gui.mp3_checked f); [now right |].
    destruct Hin as [Hin | []]. discriminate. }
  rewrite (start_download_accepted f Ha) in Hin.
  destruct Hin as [Hin | [Hin | [Hin | []]]]; try discriminate.
  injection Hin as <-. destruct Ha as (Hu & Ho & Hf).
  split; [reflexivity |]. split; [exact Hu |]. split; [exact Ho |].
  split; [apply strip_tight |]. split; [apply strip_tight | exact Hf].
Qed.

(** The worker of the sample form. *)
Lemma started_worker_inputs_witness :
  worker_of sample_form = sample_worker.
Proof.
  symmetry.
  apply (started_worker_inputs sample_form sample_worker).
  right. right. left. reflexivity.
Defined.

Lemma deliver_cons (e : event) (t : list event) (win : Gui.Window) :
  fst (Gui.deliver (e :: t) win) = fst (Gui.deliver t (fst (Gui.slot e win)))
  /\ snd (Gui.deliver (e :: t) win)
     = (snd (Gui.slot e win)
        ++ snd (Gui.deliver t (fst (Gui.slot e win))))%list.
Proof.
  cbn [Gui.deliver]. destruct (Gui.slot e win) as [w1 f1].
  cbn [fst snd]. now destruct (Gui.deliver t w1).
Qed.


Lemma join_append (sep cur s : string) (l : list string) :
  PyStr.join sep ((cur ++ sep ++ s) :: l) = PyStr.join sep (cur :: s :: l).
Proof.
  unfold PyStr.join. destruct l as [| c l]; [reflexivity |].
  cbn [String.concat]. now rewrite !string_app_assoc.
Qed.

Lemma flat_map_box_reports (t : list event) :
  flat_map box_of t = flat_map box_of (reports t).
Proof.
  induction t as [| e t IH]; [reflexivity |].
  destruct e; cbn [flat_map reports filter is_report box_of app];
    fold (reports t); now rewrite IH.
Qed.


Lemma boxes_app (a b : list Gui.window_effect) :
  boxes (a ++ b) = (boxes a ++ boxes b)%list.
Proof. apply filter_app. Qed.

Lemma bar_values_app (a b : list Gui.window_effect) :
  bar_values (a ++ b) = (bar_values a ++ bar_values b)%list.
Proof.
  induction a as [| x a IH]; [reflexivity |].
  destruct x; cbn [app bar_values]; now rewrite IH.
Qed.

Lemma progress_signal_fits (n : Z) :
  fits_c_int n -> Gui.progress_signal n = Some n.
Proof.
  unfold fits_c_int, Gui.progress_signal, Gui.in_c_long, Gui.c_int. intros H.
  replace ((- 2 ^ 63 <=? n) && (n <? 2 ^ 63)) with true.
  - rewrite Z.mod_small by lia. f_equal. lia.
  - symmetry. apply andb_true_iff. split; [apply Z.leb_le | apply Z.ltb_lt]; lia.
Qed.

Lemma c_int_range (n : Z) : fits_c_int (Gui.c_int n).
Proof.
  unfold fits_c_int, Gui.c_int.
  pose proof (Z.mod_pos_bound (n + 2 ^ 31) (2 ^ 32) ltac:(lia)). lia.
Qed.

Lemma slot_progress (n : Z) (win : Gui.Window) :
  fst (Gui.slot (SigProgress n) win) = win
  /\ boxes (snd (Gui.slot (SigProgress n) win)) = []
  /\ bar_values (snd (Gui.slot (SigProgress n) win)) = delivered n.
Proof.
  unfold Gui.slot, delivered. now destruct (Gui.progress_signal n).
Qed.

(** The log label after the signals of a run. *)
Lemma deliver_log (t : list event) (win : Gui.Window) :
  Gui.log_label (fst (Gui.deliver t win))
  = PyStr.join PyStr.nl (Gui.log_label win :: logged t).
Proof.
  revert win. induction t as [| e t IH]; intros win; [reflexivity |].
  destruct (deliver_cons e t win) as [-> _]. rewrite IH.
  destruct e as [n | m | o | m | l | m | c | d]; try reflexivity.
  - now destruct (slot_progress n win) as [-> _].
  - exact (join_append PyStr.nl (Gui.log_label win) l (logged t)).
Qed.

(** The download button after the signals of a run. *)
Lemma deliver_button (t : list event) (win : Gui.Window) :
  Gui.download_btn_enabled (fst (Gui.deliver t win))
  = match reports t with
    | [] => Gui.download_btn_enabled win
    | _ :: _ => true
    end.
Proof.
  revert win. induction t as [| e t IH]; intros win; [reflexivity |].
  destruct (deliver_cons e t win) as [-> _]. rewrite IH.
  destruct e as [n | m | o | m | l | m | c | d];
    try (cbn; try reflexivity; now destruct (reports t)).
  now destruct (slot_progress n win) as [-> _].
Qed.

(** The modal boxes shown for the signals of a run. *)
Lemma deliver_boxes (t : list event) (win : Gui.Window) :
  boxes (snd (Gui.deliver t win)) = flat_map box_of (reports t).
Proof.
  rewrite <- flat_map_box_reports.
  revert win. induction t as [| e t IH]; intros win; [reflexivity |].
  destruct (deliver_cons e t win) as [_ ->]. rewrite boxes_app, IH.
  destruct e as [n | m | o | m | l | m | c | d]; try reflexivity.
  now destruct (slot_progress n win) as (_ & -> & _).
Qed.

(** The values given to the progress bar for the signals of a run. *)
Lemma deliver_bar (t : list event) (win : Gui.Window) :
  bar_values (snd (Gui.deliver t win)) = flat_map delivered (progress_values t).
Proof.
  revert win. induction t as [| e t IH]; intros win; [reflexivity |].
  destruct (deliver_cons e t win) as [_ ->]. rewrite bar_values_app, IH.
  destruct e as [n | m | o | m | l | m | c | d]; try reflexivity.
  now destruct (slot_progress n win) as (_ & _ & ->).
Qed.

Lemma delivered_fits (l : list Z) :
  Forall fits_c_int l -> flat_map delivered l = l.
Proof.
  induction 1 as [| n l Hn _ IH]; [reflexivity |].
  cbn [flat_map]. unfold delivered at 1.
  now rewrite (progress_signal_fits n Hn), IH.
Qed.

(** X18. Whatever signals a run emits, the window that handles them in
    order ends with: in its log label, the text it had and the logged
    lines, each after a line feed; its button enabled as soon as the run
    reported an error or its completion, and as it was otherwise; one
    modal box for each such report, in order, and none else. The progress
    signal carries a C int: the progress bar was given, in order, each
    emitted value that fits a C long, cut to its low 32 bits read as a
    signed number, and nothing for a value that does not fit a C long; so
    every value it was given fits a C int, and when the emitted values fit
    a C int it was given exactly those. *)
Theorem window_follows_signals (t : list event) (win : Gui.Window) :
  Gui.log_label (fst (Gui.deliver t win))
  = PyStr.join PyStr.nl (Gui.log_label win :: logged t)
  /\ Gui.download_btn_enabled (fst (Gui.deliver t win))
     = match reports t with
       | [] => Gui.download_btn_enabled win
       | _ :: _ => true
       end
  /\ boxes (snd (Gui.deliver t win)) = flat_map box_of (reports t)
  /\ bar_values (snd (Gui.deliver t win))
     = flat_map (fun n => if (- 2 ^ 63 <=? n) && (n <? 2 ^ 63)
                          then [(n + 2 ^ 31) mod 2 ^ 32 - 2 ^ 31] else [])
                (progress_values t)
  /\ Forall (fun v => - 2 ^ 31 <= v < 2 ^ 31) (bar_values (snd (Gui.deliver t win)))
  /\ (Forall (fun n => - 2 ^ 31 <= n < 2 ^ 31) (progress_values t) ->
      bar_values (snd (Gui.deliver t win)) = progress_values t).
Proof.
  assert (Hd : forall l,
             flat_map delivered l
             = flat_map (fun n => if (- 2 ^ 63 <=? n) && (n <? 2 ^ 63)
                                  then [(n + 2 ^ 31) mod 2 ^ 32 - 2 ^ 31]
                                  else []) l).
  { intros l. apply flat_map_ext. intros n.
    unfold delivered, Gui.progress_signal, Gui.in_c_long, Gui.c_int.
    now destruct ((- 2 ^ 63 <=? n) && (n <? 2 ^ 63)). }
  split; [apply deliver_log |].
  split; [apply deliver_button |].
  split; [apply deliver_boxes |].
  rewrite deliver_bar.
  split; [apply Hd |]. split.
  - induction (progress_values t) as [| n l IH]; [constructor |].
    cbn [flat_map]. apply Forall_app. split; [| exact IH].
    unfold delivered, Gui.progress_signal.
    destruct (Gui.in_c_long n); constructor; [| constructor].
    apply c_int_range.
  - apply delivered_fits.
Qed.

(** The value 40000000030, which a line with a percentage of one hundred
    billion leads to, reaches the progress bar as 1345294366. *)
Lemma window_follows_signals_witness :
  bar_values (snd (Gui.deliver [SigProgress 40000000030] Gui.init_ui))
  = [1345294366].
Proof.
  exact (proj1 (proj2 (proj2 (proj2 (window_follows_signals
                                       [SigProgress 40000000030]
                                       Gui.init_ui))))).
Defined.






(** ** Percentages that are not numbers *)

(** X20. A line whose token reads as a NaN or as an infinity leads to no
    progress value: the conversion to an integer raises, the exception is
    swallowed, and the line is only logged; the loop goes on. *)
Theorem non_finite_percentage_ignored
    (w : World) (line : string) (x : spec_float) :
  py_float w (Gui.progress_str line) = inr x ->
  x = S754_nan \/ (exists s, x = S754_infinity s) ->
  line_progress w line = None
  /\ @Gui.report_line w unit line = ([SigLog (PyStr.strip line)], Next tt)
  /\ (forall rest,
        @Gui.read_output w unit (line :: rest)
        = ((if PyStr.nonempty line then [SigLog (PyStr.strip line)] else [])
           ++ output_events w rest, Next tt)%list).
Proof.
  intros Hf Hx.
  assert (Hp : line_progress w line = None).
  { unfold line_progress. destruct (PyStr.contains "%" line); [| reflexivity].
    rewrite Hf. destruct Hx as [-> | [s ->]]; [reflexivity |].
    now destruct s. }
  assert (Hl : line_events w line = [SigLog (PyStr.strip line)]).
  { unfold line_events. now rewrite Hp. }
  split; [exact Hp |]. split.
  - now rewrite report_line_eq, Hl.
  - intros rest. rewrite read_output_eq. unfold output_events.
    cbn [flat_map]. rewrite Hl. reflexivity.
Qed.

(** A line whose percentage reads as a NaN is only logged. *)
Lemma non_finite_percentage_ignored_witness :
  line_progress nan_world nan_line = None.
Proof.
  apply (non_finite_percentage_ignored nan_world nan_line S754_nan).
  - reflexivity.
  - now left.
Defined.
